(** * Event Paradise: the notification coordinator, its channel adapters
      and the background scheduler

    A shallow embedding of [utils/notification_service.py],
    [utils/email_service.py], [utils/sms_service.py] and
    [utils/scheduler_service.py], together with the part of the data model
    of [app.py] these modules read.

    Python code that mutates the service objects, writes to the log, talks to
    a transport or raises is embedded in a state-and-exception monad [M] over
    a [World]; the collaborators that live outside the repository (the clock,
    Socket.IO, Flask-Mail, Jinja2, Twilio, the database engine) are the fields
    of an environment [Env], each of them free to raise. *)

From Stdlib Require Import ZArith Lia Ascii.
From stdpp Require Import gmap strings list pretty.

Set Warnings "-register-all".
Set Default Proof Using "Type".

Local Open Scope Z_scope.

(* ===================================================================== *)
(** ** Python values *)
(* ===================================================================== *)

(** A Python [float], kept as its IEEE-754 binary64 bit pattern: the code
    only stores, sums (in SQL) and formats amounts. *)
Record pyfloat := Float64 { float_bits : Z }.

(** The JSON-compatible values that travel in notification payloads, in the
    application configuration and in e-mail template contexts. *)
Inductive pyval :=
  | VNone
  | VBool (b : bool)
  | VInt (z : Z)
  | VFloat (f : pyfloat)
  | VStr (s : string)
  | VDict (d : gmap string pyval).

(** A Python [dict] with string keys. *)
Abbreviation pydict := (gmap string pyval).

(** [d.get(k, dflt)] *)
Definition dict_get (d : pydict) (k : string) (dflt : pyval) : pyval :=
  default dflt (d !! k).

(** Truth value of an object, as [if x:] and [not x] test it. An empty
    [dict] is false as well. *)
Definition truthy (v : pyval) : bool :=
  match v with
  | VNone => false
  | VBool b => b
  | VInt z => negb (z =? 0)
  | VFloat f => negb (float_bits f =? 0)
  | VStr s => negb (String.eqb s "")
  | VDict d => negb (bool_decide (d = ∅))
  end.

(** Truth value of a nullable string column ([if guest.phone:]). *)
Definition truthy_str (s : option string) : bool :=
  match s with
  | None => false
  | Some s => negb (String.eqb s "")
  end.

(** Truth value of a nullable integer column ([if event.organizer_id:]). *)
Definition truthy_int (z : option Z) : bool :=
  match z with
  | None => false
  | Some z => negb (z =? 0)
  end.

(** [str(x)] of a nullable string inside an f-string. *)
Definition str_opt (s : option string) : string := default "None" s.

(* --------------------------------------------------------------------- *)
(** *** [str.replace('_', ' ')] and [str.title()] on ASCII text *)

Definition is_upper (c : Ascii.ascii) : bool :=
  let n := Ascii.N_of_ascii c in ((65 <=? n) && (n <=? 90))%N.

Definition is_lower (c : Ascii.ascii) : bool :=
  let n := Ascii.N_of_ascii c in ((97 <=? n) && (n <=? 122))%N.

Definition to_upper (c : Ascii.ascii) : Ascii.ascii :=
  if is_lower c then Ascii.ascii_of_N (Ascii.N_of_ascii c - 32) else c.

Definition to_lower (c : Ascii.ascii) : Ascii.ascii :=
  if is_upper c then Ascii.ascii_of_N (Ascii.N_of_ascii c + 32) else c.

Fixpoint replace_underscores (s : string) : string :=
  match s with
  | EmptyString => EmptyString
  | String c s' =>
      String (if Ascii.eqb c "_" then " "%char else c) (replace_underscores s')
  end.

(** [title_from cased s]: a cased character that follows an uncased one is
    put in upper case, every other cased character in lower case; bytes
    outside the ASCII letters are uncased and copied. *)
Fixpoint title_from (prev_cased : bool) (s : string) : string :=
  match s with
  | EmptyString => EmptyString
  | String c s' =>
      if is_upper c || is_lower c
      then String (if prev_cased then to_lower c else to_upper c) (title_from true s')
      else String c (title_from false s')
  end.

Definition str_title (s : string) : string := title_from false s.

(* --------------------------------------------------------------------- *)
(** *** [str.upper()], [str.strip()], [str.startswith], [s[1:]] and
        [s.split(c)[0]] on ASCII text *)

Fixpoint str_upper (s : string) : string :=
  match s with
  | EmptyString => EmptyString
  | String c s' => String (to_upper c) (str_upper s')
  end.

(** The ASCII characters [str.isspace] accepts: tab, line feed, vertical
    tab, form feed, carriage return, the four separators and the space. *)
Definition ascii_space (c : Ascii.ascii) : bool :=
  let n := Ascii.N_of_ascii c in
  (((9 <=? n) && (n <=? 13)) || ((28 <=? n) && (n <=? 32)))%N.

(** Text is held as its UTF-8 bytes. The characters beyond ASCII that
    [str.isspace] accepts take two bytes, U+0085 and U+00A0, *)
Definition space2 (c1 c2 : Ascii.ascii) : bool :=
  let n1 := Ascii.N_of_ascii c1 in
  let n2 := Ascii.N_of_ascii c2 in
  ((n1 =? 194) && ((n2 =? 133) || (n2 =? 160)))%N.

(** or three: U+1680, U+2000 to U+200A, U+2028, U+2029, U+202F, U+205F and
    U+3000. *)
Definition space3 (c1 c2 c3 : Ascii.ascii) : bool :=
  let n1 := Ascii.N_of_ascii c1 in
  let n2 := Ascii.N_of_ascii c2 in
  let n3 := Ascii.N_of_ascii c3 in
  (((n1 =? 225) && (n2 =? 154) && (n3 =? 128))
   || ((n1 =? 226) && (n2 =? 128)
       && (((128 <=? n3) && (n3 <=? 138))
           || (n3 =? 168) || (n3 =? 169) || (n3 =? 175)))
   || ((n1 =? 226) && (n2 =? 129) && (n3 =? 159))
   || ((n1 =? 227) && (n2 =? 128) && (n3 =? 128)))%N.

(** The bytes left when the white space at the front is taken off; [sp2]
    and [sp3] recognise the characters of two and of three bytes. *)
Fixpoint strip_front (sp2 : Ascii.ascii → Ascii.ascii → bool)
    (sp3 : Ascii.ascii → Ascii.ascii → Ascii.ascii → bool)
    (l : list Ascii.ascii) : list Ascii.ascii :=
  match l with
  | [] => []
  | c1 :: l1 =>
      if ascii_space c1 then strip_front sp2 sp3 l1
      else match l1 with
           | [] => l
           | c2 :: l2 =>
               if sp2 c1 c2 then strip_front sp2 sp3 l2
               else match l2 with
                    | [] => l
                    | c3 :: l3 =>
                        if sp3 c1 c2 c3 then strip_front sp2 sp3 l3 else l
                    end
           end
  end.

(** [s.lstrip()] *)
Definition str_lstrip (s : string) : string :=
  String.string_of_list_ascii (strip_front space2 space3 (String.list_ascii_of_string s)).

(** [s.rstrip()]: the same from the other end, where the bytes of a
    character come last byte first. *)
Definition str_rstrip (s : string) : string :=
  String.string_of_list_ascii
    (List.rev (strip_front (λ c1 c2, space2 c2 c1) (λ c1 c2 c3, space3 c3 c2 c1)
                           (List.rev (String.list_ascii_of_string s)))).

(** [s.strip()] *)
Definition str_strip (s : string) : string := str_rstrip (str_lstrip s).

(** No white space at the front of [l]. *)
Definition clean_front (sp2 : Ascii.ascii → Ascii.ascii → bool)
    (sp3 : Ascii.ascii → Ascii.ascii → Ascii.ascii → bool)
    (l : list Ascii.ascii) : bool :=
  match l with
  | [] => true
  | c1 :: l1 =>
      negb (ascii_space c1)
      && match l1 with
         | [] => true
         | c2 :: l2 =>
             negb (sp2 c1 c2)
             && match l2 with
                | [] => true
                | c3 :: _ => negb (sp3 c1 c2 c3)
                end
         end
  end.

(** Text without white space at its end. *)
Definition clean_end (s : string) : bool :=
  clean_front (λ c1 c2, space2 c2 c1) (λ c1 c2 c3, space3 c3 c2 c1)
              (List.rev (String.list_ascii_of_string s)).

(** [s.startswith(c)] for a one-character prefix. *)
Definition starts_with (c : Ascii.ascii) (s : string) : bool :=
  match s with
  | EmptyString => false
  | String c' _ => Ascii.eqb c' c
  end.

(** [s[1:]] *)
Definition str_tail (s : string) : string :=
  match s with
  | EmptyString => EmptyString
  | String _ s' => s'
  end.

(** [s.split(c)[0]]: the text before the first [c], all of [s] without. *)
Fixpoint before_first (c : Ascii.ascii) (s : string) : string :=
  match s with
  | EmptyString => EmptyString
  | String c' s' => if Ascii.eqb c' c then EmptyString
                    else String c' (before_first c s')
  end.

Fixpoint zeros (n : nat) : string :=
  match n with
  | O => EmptyString
  | S n' => String "0" (zeros n')
  end.

(** [f"{n:04d}"]: the decimal text of [n], zeros after the sign up to four
    characters. *)
Definition format_04d (n : Z) : string :=
  let digits := pretty (Z.abs n) in
  let sign := if n <? 0 then "-" else "" in
  let width := (String.length sign + String.length digits)%nat in
  sign +:+ zeros (4 - width) +:+ digits.

(* ===================================================================== *)
(** ** The data model of [app.py] *)
(* ===================================================================== *)

(** Instants ([datetime]) are counted in microseconds; [timedelta(days=n)]
    is [days n]. *)
Definition days (n : Z) : Z := n * 86400000000.

Record User := {
  user_id : Z;
  username : string;
  user_email : string;
  user_role : string
}.

Record Guest := {
  guest_id : Z;
  guest_name : string;
  guest_email : string;
  guest_phone : option string;
  rsvp_status : string;
  check_in_status : bool;
  ticket_number : option string;
  guest_created_at : Z
}.

Record Vendor := {
  vendor_id : Z;
  vendor_name : string;
  service_type : string;
  vendor_email : option string;
  vendor_phone : option string;
  contract_amount : pyfloat;
  payment_status : string
}.

Record Payment := {
  payment_id : Z;
  amount : pyfloat;
  payment_type : string;
  payment_method : string;
  payment_state : string;
  transaction_id : option string;
  payment_created_at : Z
}.

Record Feedback := {
  feedback_id : Z;
  feedback_created_at : Z
}.

(** An [Event] row with the relationships the services follow:
    [event.organizer] (the [User] that [organizer_id] points to, if any),
    [event.guests] and [event.vendors]. *)
Record Event := {
  event_id : Z;
  title : string;
  venue : string;
  start_date : Z;
  end_date : Z;
  status : string;
  organizer_id : option Z;
  organizer : option User;
  guests : list Guest;
  vendors : list Vendor;
  event_created_at : Z
}.

(** The tables the scheduler queries. *)
Record Database := {
  events : list Event;
  all_guests : list Guest;
  payments : list Payment;
  users : list User;
  feedbacks : list Feedback
}.

(** [generate_ticket_number(event_id, guest_count)] *)
Definition generate_ticket_number (event_id guest_count : Z) : string :=
  "TKT-" +:+ pretty event_id +:+ "-" +:+ format_04d (guest_count + 1).

(** [generate_transaction_id(event_id, payment_count)] *)
Definition generate_transaction_id (event_id payment_count : Z) : string :=
  "TXN-" +:+ pretty event_id +:+ "-" +:+ format_04d (payment_count + 1).

(* ===================================================================== *)
(** ** Notifications, effects and the world *)
(* ===================================================================== *)

(** The ['id'] of a payload: [f"notif_{t}"] or [f"broadcast_{t}"] for the
    clock reading [t]. *)
Inductive notif_ident :=
  | NotifAt (t : Z)
  | BroadcastAt (t : Z).

(** The dict built by [send_notification]. ['created_at'] holds the clock
    reading whose ISO text the payload carries. *)
Record notification := {
  n_id : notif_ident;
  n_user_id : Z;
  n_type : pyval;
  n_title : pyval;
  n_message : pyval;
  n_data : pyval;
  n_created_at : Z;
  n_read : bool
}.

(** The dict built by [send_broadcast_notification]: no ['user_id'], no
    ['read'], and ['broadcast': True]. *)
Record broadcast_notification := {
  b_id : notif_ident;
  b_type : pyval;
  b_title : pyval;
  b_message : pyval;
  b_data : pyval;
  b_created_at : Z;
  b_broadcast : bool
}.

(** What [socketio.emit] is given as its data argument. *)
Inductive payload :=
  | PNotification (n : notification)
  | PBroadcast (b : broadcast_notification)
  | PConnectionEstablished (uid : option Z)
  | PNotificationRead (notification_id : pyval)
  | PUserNotifications (l : list notification).

(** A [flask_mail.Message]. *)
Record Message := {
  msg_subject : string;
  msg_recipients : list (option string);
  msg_sender : pyval;
  msg_body : string
}.

Inductive log_level := INFO | WARNING | ERROR.

(** Everything the services do to the outside. *)
Inductive effect :=
  | Emit (event : string) (data : payload) (room : option string)
  | Log (lvl : log_level) (text : string)
  | MailSend (m : Message)
  | TwilioCreate (body : string) (from_ : pyval) (to : option string)
  | DbCommit.

(** An instance of [Exception]; [exn_msg] is [str(e)]. *)
Record exn := Exception { exn_msg : string }.

(** The state of [notification_service] ([connected_users],
    [user_notifications]), the database, the effects so far (oldest first)
    and the number of clock readings taken. *)
Record World := {
  connected_users : gmap Z string;
  user_notifications : gmap Z (list notification);
  db : Database;
  trace : list effect;
  ticks : nat
}.

(** A database operation of the scheduler, as the engine sees it. *)
Inductive db_op :=
  | QEvents | QGuests | QPayments | QSumPayments | QUsers | QCount
  | QDeleteFeedback | QCommit | QSelect1.

(** The collaborators. Each may depend on the effects so far, so that a
    transport can fail on one call and work on the next. *)
Record Env := {
  (** [datetime.now()], by number of the reading *)
  clock : nat → Z;
  (** [datetime.now().year] of an instant *)
  year_of : Z → Z;
  (** [d.strftime(fmt)] *)
  strftime : string → Z → string;
  (** [f"{x:.2f}"] *)
  format_2f : pyfloat → string;
  (** [d.isoformat()] *)
  isoformat : Z → string;
  (** [d.replace(hour=0, minute=0, second=0, microsecond=0)] *)
  start_of_day : Z → Z;
  (** [d.weekday()], Monday being [0] *)
  weekday : Z → Z;
  (** [str(d)] of a dict *)
  repr_dict : pydict → string;
  (** [socketio.emit]: [Some e] when the call raises [e] *)
  emit_raises : list effect → string → payload → option string → option exn;
  (** [self.app] of the services, [None] before [init_app]; the dict is
      [app.config] *)
  app : option pydict;
  (** [jinja2.Template(src).render] on the context *)
  jinja_render : string → pydict → exn + string;
  (** [mail.send(msg)] *)
  mail_send_raises : list effect → Message → option exn;
  (** [sms_service.client] is set *)
  twilio_client : bool;
  (** [client.messages.create(...)], returning the message SID *)
  twilio_create : list effect → string → pyval → option string → exn + string;
  (** a failure of the database engine on an operation *)
  db_raises : list effect → db_op → option exn;
  (** [SUM(payment.amount)] over the selected rows, [None] for no row *)
  sql_sum : list Payment → option pyfloat;
  (** [len(self.scheduler.get_jobs())] *)
  scheduler_job_count : Z
}.

(* ===================================================================== *)
(** ** The monad of service code *)
(* ===================================================================== *)

Inductive result (A : Type) :=
  | Ok (a : A)
  | Raise (e : exn).
Arguments Ok {A} a.
Arguments Raise {A} e.

Definition M (A : Type) : Type := World → result A * World.

Definition ret {A} (a : A) : M A := λ w, (Ok a, w).

Definition bind {A B} (m : M A) (k : A → M B) : M B :=
  λ w, match m w with
       | (Ok a, w') => k a w'
       | (Raise e, w') => (Raise e, w')
       end.

#[global] Instance M_ret : MRet M := @ret.
#[global] Instance M_bind : MBind M := λ A B k m, bind m k.

Definition raise {A} (e : exn) : M A := λ w, (Raise e, w).

(** [try: body / except Exception as e: handler e]. What [body] did to the
    world before it raised stays done. *)
Definition try_except {A} (body : M A) (handler : exn → M A) : M A :=
  λ w, match body w with
       | (Ok a, w') => (Ok a, w')
       | (Raise e, w') => handler e w'
       end.

Definition get_world : M World := λ w, (Ok w, w).

Definition perform (e : effect) : M unit :=
  λ w, (Ok (),
        {| connected_users := connected_users w;
           user_notifications := user_notifications w;
           db := db w;
           trace := trace w ++ [e];
           ticks := ticks w |}).

Definition set_connected_users (cu : gmap Z string) : M unit :=
  λ w, (Ok (),
        {| connected_users := cu;
           user_notifications := user_notifications w;
           db := db w;
           trace := trace w;
           ticks := ticks w |}).

Definition set_user_notifications (un : gmap Z (list notification)) : M unit :=
  λ w, (Ok (),
        {| connected_users := connected_users w;
           user_notifications := un;
           db := db w;
           trace := trace w;
           ticks := ticks w |}).

Definition set_db (d : Database) : M unit :=
  λ w, (Ok (),
        {| connected_users := connected_users w;
           user_notifications := user_notifications w;
           db := d;
           trace := trace w;
           ticks := ticks w |}).

(** [for x in l: body x] *)
Fixpoint for_each {A} (l : list A) (body : A → M unit) : M unit :=
  match l with
  | [] => mret ()
  | x :: l' => body x ;; for_each l' body
  end.

(** [if c: body] *)
Definition when (c : bool) (body : M unit) : M unit :=
  if c then body else mret ().

(** Either the value of an external call or the exception it raised. *)
Definition lift_sum {A} (r : exn + A) : M A :=
  match r with
  | inl e => raise e
  | inr a => mret a
  end.

Definition logger_info (text : string) : M unit := perform (Log INFO text).
Definition logger_warning (text : string) : M unit := perform (Log WARNING text).
Definition logger_error (text : string) : M unit := perform (Log ERROR text).

(** A nullable string column as a payload value. *)
Definition val_of_opt_str (s : option string) : pyval :=
  match s with
  | None => VNone
  | Some s => VStr s
  end.

(** [for x in l: acc = body x acc], for the loops that count. *)
Fixpoint for_fold {A S} (l : list A) (acc : S) (body : A → S → M S) : M S :=
  match l with
  | [] => mret acc
  | x :: l' => acc' ← body x acc; for_fold l' acc' body
  end.

(* ===================================================================== *)
(** ** [utils/notification_service.py] *)
(* ===================================================================== *)

Section NotificationService.
Context (E : Env).

(** [datetime.now()]: the next clock reading. *)
Definition datetime_now : M Z :=
  λ w, (Ok (clock E (ticks w)),
        {| connected_users := connected_users w;
           user_notifications := user_notifications w;
           db := db w;
           trace := trace w;
           ticks := S (ticks w) |}).

(** [socketio.emit(event, data, room=room)]. The push enters the trace
    when the call returns; a call that raises delivers nothing. *)
Definition socketio_emit (event : string) (data : payload)
    (room : option string) : M unit :=
  w ← get_world;
  match emit_raises E (trace w) event data room with
  | Some e => raise e
  | None => perform (Emit event data room)
  end.

(** [get_user_notifications]: a stub that returns the empty list. *)
Definition get_user_notifications (user_id : Z) (limit : Z)
    : M (list notification) :=
  try_except (mret []) (λ e,
    logger_error ("Failed to get notifications for user " +:+ pretty user_id
                  +:+ ": " +:+ exn_msg e) ;;
    mret []).

(** The ['connect'] handler. [current_user] is the id of the authenticated
    user, [None] for an anonymous client; [request_sid] is [request.sid]. *)
Definition handle_connect (current_user : option Z) (request_sid : string)
    : M unit :=
  match current_user with
  | Some user_id =>
      w ← get_world;
      set_connected_users (<[user_id := request_sid]> (connected_users w)) ;;
      set_user_notifications
        (<[user_id := default [] (user_notifications w !! user_id)]>
           (user_notifications w)) ;;
      logger_info ("User " +:+ pretty user_id +:+ " connected") ;;
      w ← get_world;
      let pending_notifications := default [] (user_notifications w !! user_id) in
      for_each pending_notifications (λ notification,
        socketio_emit "notification" (PNotification notification)
                      (Some request_sid)) ;;
      w ← get_world;
      set_user_notifications (<[user_id := []]> (user_notifications w))
  | None => mret ()
  end ;;
  socketio_emit "connection_established"
                (PConnectionEstablished current_user) None.

(** The ['disconnect'] handler. *)
Definition handle_disconnect (current_user : option Z) : M unit :=
  match current_user with
  | Some user_id =>
      w ← get_world;
      when (bool_decide (is_Some (connected_users w !! user_id)))
           (set_connected_users (delete user_id (connected_users w))) ;;
      logger_info ("User " +:+ pretty user_id +:+ " disconnected")
  | None => mret ()
  end.

(** The ['mark_notification_read'] handler; [show_id] is the text of the
    id in the log line. *)
Definition handle_mark_read (current_user : option Z)
    (notification_id : pyval) (show_id : string) : M unit :=
  match current_user with
  | Some user_id =>
      logger_info ("User " +:+ pretty user_id +:+ " marked notification "
                   +:+ show_id +:+ " as read") ;;
      socketio_emit "notification_read" (PNotificationRead notification_id) None
  | None => mret ()
  end.

(** The ['get_user_notifications'] handler. *)
Definition handle_get_notifications (current_user : option Z)
    (request_sid : string) : M unit :=
  match current_user with
  | Some user_id =>
      notifications ← get_user_notifications user_id 50;
      socketio_emit "user_notifications" (PUserNotifications notifications)
                    (Some request_sid)
  | None => mret ()
  end.

(** [send_notification(user_id, notification_data)] *)
Definition send_notification (user_id : Z) (notification_data : pydict)
    : M bool :=
  try_except
    (t_id ← datetime_now;
     t_created ← datetime_now;
     let notification :=
       {| n_id := NotifAt t_id;
          n_user_id := user_id;
          n_type := dict_get notification_data "type" (VStr "info");
          n_title := dict_get notification_data "title" (VStr "");
          n_message := dict_get notification_data "message" (VStr "");
          n_data := dict_get notification_data "data" (VDict ∅);
          n_created_at := t_created;
          n_read := false |} in
     w ← get_world;
     match connected_users w !! user_id with
     | Some sid =>
         socketio_emit "notification" (PNotification notification) (Some sid) ;;
         logger_info ("Real-time notification sent to user " +:+ pretty user_id) ;;
         mret true
     | None =>
         set_user_notifications
           (<[user_id := default [] (user_notifications w !! user_id)
                         ++ [notification]]> (user_notifications w)) ;;
         logger_info ("Notification stored for user " +:+ pretty user_id
                      +:+ " (offline)") ;;
         mret true
     end)
    (λ e,
     logger_error ("Failed to send notification to user " +:+ pretty user_id
                   +:+ ": " +:+ exn_msg e) ;;
     mret false).

(** [send_broadcast_notification(notification_data, user_role=None)].
    The loop runs over [connected_users.items()]; the role is not looked
    at. The registry is a finite map, so the rooms are visited in the order
    of [map_to_list] rather than in the order the users connected; the
    statements about broadcasts do not depend on that order. *)
Definition send_broadcast_notification (notification_data : pydict)
    (user_role : option string) : M Z :=
  try_except
    (t_id ← datetime_now;
     t_created ← datetime_now;
     let notification :=
       {| b_id := BroadcastAt t_id;
          b_type := dict_get notification_data "type" (VStr "info");
          b_title := dict_get notification_data "title" (VStr "");
          b_message := dict_get notification_data "message" (VStr "");
          b_data := dict_get notification_data "data" (VDict ∅);
          b_created_at := t_created;
          b_broadcast := true |} in
     w ← get_world;
     notified_count ←
       for_fold (map_to_list (connected_users w)) 0
         (λ '(user_id, sid) notified_count,
            socketio_emit "notification" (PBroadcast notification) (Some sid) ;;
            mret (notified_count + 1));
     logger_info ("Broadcast notification sent to " +:+ pretty notified_count
                  +:+ " users") ;;
     mret notified_count)
    (λ e,
     logger_error ("Failed to send broadcast notification: " +:+ exn_msg e) ;;
     mret 0).

(** The template table of [_get_event_message]. *)
Definition event_messages (event : Event) : gmap string string :=
  {[ "event_created" := "New event '" +:+ title event +:+ "' has been created.";
     "event_updated" := "Event '" +:+ title event +:+ "' has been updated.";
     "event_cancelled" := "Event '" +:+ title event +:+ "' has been cancelled.";
     "event_reminder" := "Reminder: Event '" +:+ title event +:+ "' is coming up soon.";
     "event_started" := "Event '" +:+ title event +:+ "' has started.";
     "event_completed" := "Event '" +:+ title event +:+ "' has been completed." ]}.

Definition _get_event_message (event : Event) (notification_type : string)
    : string :=
  default ("Update for event '" +:+ title event +:+ "'.")
          (event_messages event !! notification_type).

(** The template table of [_get_payment_message]. *)
Definition payment_messages (payment : Payment) : gmap string string :=
  {[ "payment_received" :=
       "Payment of $" +:+ format_2f E (amount payment) +:+ " has been received.";
     "payment_failed" :=
       "Payment of $" +:+ format_2f E (amount payment) +:+ " has failed.";
     "payment_refunded" :=
       "Payment of $" +:+ format_2f E (amount payment) +:+ " has been refunded.";
     "payment_pending" :=
       "Payment of $" +:+ format_2f E (amount payment) +:+ " is pending." ]}.

Definition _get_payment_message (payment : Payment)
    (notification_type : string) : string :=
  default ("Payment update for $" +:+ format_2f E (amount payment) +:+ ".")
          (payment_messages payment !! notification_type).

(** The template table of [_get_guest_message]. *)
Definition guest_messages (guest : Guest) (event : Event) : gmap string string :=
  {[ "guest_registered" :=
       guest_name guest +:+ " has registered for '" +:+ title event +:+ "'.";
     "guest_checked_in" :=
       guest_name guest +:+ " has checked in for '" +:+ title event +:+ "'.";
     "guest_rsvp_confirmed" :=
       guest_name guest +:+ " has confirmed RSVP for '" +:+ title event +:+ "'.";
     "guest_rsvp_declined" :=
       guest_name guest +:+ " has declined RSVP for '" +:+ title event +:+ "'." ]}.

Definition _get_guest_message (guest : Guest) (event : Event)
    (notification_type : string) : string :=
  default ("Guest update for " +:+ guest_name guest +:+ ".")
          (guest_messages guest event !! notification_type).

(** [send_event_notification(event, notification_type, data=None)] *)
Definition send_event_notification (event : Event)
    (notification_type : string) (data : option pydict) : M Z :=
  try_except
    (let data := default ∅ data in
     let notification_data : pydict :=
       {[ "type" := VStr "event";
          "subtype" := VStr notification_type;
          "title" := VStr ("Event Update: " +:+ title event);
          "message" := VStr (_get_event_message event notification_type);
          "data" := VDict (data ∪ {[ "event_id" := VInt (event_id event);
                                     "event_title" := VStr (title event);
                                     "event_status" := VStr (status event) ]}) ]} in
     match organizer_id event with
     | Some organizer_id =>
         when (truthy (VInt organizer_id))
              (send_notification organizer_id notification_data ;; mret ())
     | None => mret ()
     end ;;
     if bool_decide (notification_type ∈
                       ["event_reminder"; "event_cancelled"; "event_updated"])
     then for_each (guests event) (λ guest, mret ()) ;; mret 1
     else mret 1)
    (λ e,
     logger_error ("Failed to send event notification for " +:+ title event
                   +:+ ": " +:+ exn_msg e) ;;
     mret 0).

(** [send_payment_notification(payment, user_id, notification_type)] *)
Definition send_payment_notification (payment : Payment) (user_id : Z)
    (notification_type : string) : M bool :=
  try_except
    (let notification_data : pydict :=
       {[ "type" := VStr "payment";
          "subtype" := VStr notification_type;
          "title" := VStr ("Payment " +:+
                           str_title (replace_underscores notification_type));
          "message" := VStr (_get_payment_message payment notification_type);
          "data" := VDict {[ "payment_id" := VInt (payment_id payment);
                             "amount" := VFloat (amount payment);
                             "payment_type" := VStr (payment_type payment);
                             "transaction_id" :=
                               val_of_opt_str (transaction_id payment);
                             "status" := VStr (payment_state payment) ]} ]} in
     send_notification user_id notification_data)
    (λ e,
     logger_error ("Failed to send payment notification: " +:+ exn_msg e) ;;
     mret false).

(** [send_guest_notification(guest, event, notification_type)] *)
Definition send_guest_notification (guest : Guest) (event : Event)
    (notification_type : string) : M bool :=
  try_except
    (let notification_data : pydict :=
       {[ "type" := VStr "guest";
          "subtype" := VStr notification_type;
          "title" := VStr ("Guest " +:+
                           str_title (replace_underscores notification_type));
          "message" := VStr (_get_guest_message guest event notification_type);
          "data" := VDict {[ "guest_id" := VInt (guest_id guest);
                             "guest_name" := VStr (guest_name guest);
                             "event_id" := VInt (event_id event);
                             "event_title" := VStr (title event);
                             "ticket_number" :=
                               val_of_opt_str (ticket_number guest) ]} ]} in
     match organizer_id event with
     | Some organizer_id =>
         if truthy (VInt organizer_id)
         then send_notification organizer_id notification_data
         else mret false
     | None => mret false
     end)
    (λ e,
     logger_error ("Failed to send guest notification: " +:+ exn_msg e) ;;
     mret false).

(** [mark_notification_read]: only logs. *)
Definition mark_notification_read (user_id : Z) (show_id : string) : M bool :=
  try_except
    (logger_info ("Notification " +:+ show_id +:+ " marked as read for user "
                  +:+ pretty user_id) ;;
     mret true)
    (λ e,
     logger_error ("Failed to mark notification " +:+ show_id +:+ " as read: "
                   +:+ exn_msg e) ;;
     mret false).

(** [cleanup_old_notifications(days=30)]: the cutoff is computed, the
    count stays [0] and nothing is removed. *)
Definition cleanup_old_notifications (days_kept : Z) : M Z :=
  try_except
    (now ← datetime_now;
     let cutoff_date := now - days days_kept in
     let cleaned_count := 0 in
     logger_info ("Cleaned up " +:+ pretty cleaned_count
                  +:+ " old notifications") ;;
     mret cleaned_count)
    (λ e,
     logger_error ("Failed to cleanup old notifications: " +:+ exn_msg e) ;;
     mret 0).

(** The dict of [get_connected_users]. *)
Record connected_info := {
  total_connected : Z;
  connected_ids : list Z
}.

(** [get_connected_users()], in the world [w]. *)
Definition get_connected_users (w : World) : connected_info :=
{| total_connected := Z.of_nat (size (connected_users w));
   connected_ids := fst <$> map_to_list (connected_users w) |}.

End NotificationService.

(* ===================================================================== *)
(** ** The application object of the services *)
(* ===================================================================== *)

Section App.
Context (E : Env).

(** [self.app.config]: an [AttributeError] while [self.app] is [None]. *)
Definition app_config : M pydict :=
match app E with
| Some config => mret config
| None => raise (Exception "'NoneType' object has no attribute 'config'")
end.

(** Entering [with self.app.app_context():]. *)
Definition app_context : M unit :=
match app E with
| Some _ => mret ()
| None => raise (Exception "'NoneType' object has no attribute 'app_context'")
end.

End App.

(* ===================================================================== *)
(** ** [utils/email_service.py] *)
(* ===================================================================== *)

Module EmailService.

Definition _get_event_invitation_template : string :=
"
Dear {{ guest_name }},

You are cordially invited to attend:

{{ event_title }}

{{ event_description }}

Event Details:
- Date: {{ event_date }}
- Venue: {{ event_venue }}
- Organizer: {{ event_organizer }}

Your Ticket Number: {{ ticket_number }}

Please RSVP by clicking the link below:
{{ rsvp_link }}

We look forward to seeing you at the event!

Best regards,
{{ app_name }} Team

---
This is an automated email. Please do not reply to this message.
For support, contact: {{ support_email }}
© {{ current_year }} {{ app_name }}. All rights reserved.
        ".

Definition _get_rsvp_confirmation_template : string :=
"
Dear {{ guest_name }},

Thank you for your RSVP for {{ event_title }}.

Your RSVP Status: {{ rsvp_status }}

Event Details:
- Date: {{ event_date }}
- Venue: {{ event_venue }}
- Ticket Number: {{ ticket_number }}

{{ rsvp_status == 'confirmed' and 'We are excited to see you at the event!' or 'We understand you cannot make it. Thank you for letting us know.' }}

Best regards,
{{ app_name }} Team

---
This is an automated email. Please do not reply to this message.
For support, contact: {{ support_email }}
© {{ current_year }} {{ app_name }}. All rights reserved.
        ".

Definition _get_payment_receipt_template : string :=
"
Dear {{ recipient_name }},

Thank you for your payment. Here is your receipt:

Payment Details:
- Event: {{ event_title }}
- Amount: {{ payment_amount }}
- Payment Type: {{ payment_type }}
- Payment Method: {{ payment_method }}
- Transaction ID: {{ transaction_id }}
- Date: {{ payment_date }}

Your payment has been successfully processed.

Best regards,
{{ app_name }} Team

---
This is an automated email. Please do not reply to this message.
For support, contact: {{ support_email }}
© {{ current_year }} {{ app_name }}. All rights reserved.
        ".

Definition _get_event_reminder_template : string :=
"
Dear {{ guest_name }},

This is a friendly reminder that {{ event_title }} is coming up in {{ days_until_event }} day{{ 's' if days_until_event > 1 else '' }}.

Event Details:
- Date: {{ event_date }}
- Venue: {{ event_venue }}
- Ticket Number: {{ ticket_number }}

We look forward to seeing you there!

If you have any questions, please contact the event organizer at {{ organizer_contact }}.

Best regards,
{{ app_name }} Team

---
This is an automated email. Please do not reply to this message.
For support, contact: {{ support_email }}
© {{ current_year }} {{ app_name }}. All rights reserved.
        ".

Definition _get_feedback_request_template : string :=
"
Dear {{ guest_name }},

We hope you enjoyed {{ event_title }} on {{ event_date }}!

Your feedback is important to us and helps us improve future events. Please take a moment to share your experience:

{{ feedback_link }}

Your feedback is valuable and will help us create better events in the future.

Thank you for your time and participation!

Best regards,
{{ app_name }} Team

---
This is an automated email. Please do not reply to this message.
For support, contact: {{ support_email }}
© {{ current_year }} {{ app_name }}. All rights reserved.
        ".

Definition _get_vendor_welcome_template : string :=
"
Dear {{ vendor_name }},

You have been assigned to provide {{ service_type }} services for:

{{ event_title }}

Event Details:
- Date: {{ event_date }}
- Venue: {{ event_venue }}
- Contract Amount: {{ contract_amount }}

Please review the event details and confirm your availability. If you have any questions or need additional information, please contact the event organizer at {{ organizer_contact }}.

We look forward to working with you!

Best regards,
{{ app_name }} Team

---
This is an automated email. Please do not reply to this message.
For support, contact: {{ support_email }}
© {{ current_year }} {{ app_name }}. All rights reserved.
        ".

(** The table of [_render_email_template]. *)
Definition templates : gmap string string :=
{[ "event_invitation" := _get_event_invitation_template;
   "rsvp_confirmation" := _get_rsvp_confirmation_template;
   "payment_receipt" := _get_payment_receipt_template;
   "event_reminder" := _get_event_reminder_template;
   "feedback_request" := _get_feedback_request_template;
   "vendor_welcome" := _get_vendor_welcome_template ]}.

Section defs.
Context (E : Env).

Definition _render_email_template (template_name : string) (context : pydict)
    : M string :=
let template_str := default "" (templates !! template_name) in
lift_sum (jinja_render E template_str context).

(** [mail.send(msg)] *)
Definition mail_send (msg : Message) : M unit :=
w ← get_world;
match mail_send_raises E (trace w) msg with
| Some e => raise e
| None => perform (MailSend msg)
end.

(** [send_email(to, subject, template_name, context=None)] *)
Definition send_email (to : option string) (subject : string)
    (template_name : string) (context : option pydict) : M bool :=
try_except
  (config ← app_config E;
   if negb (truthy (dict_get config "MAIL_USERNAME" VNone))
   then logger_warning "Email not configured. Skipping email send." ;;
        mret false
   else
     app_context E ;;
     let context := default ∅ context in
     now ← datetime_now E;
     let context : pydict :=
       {[ "app_name" := dict_get config "APP_NAME" (VStr "Events Paradise");
          "current_year" := VInt (year_of E now);
          "support_email" := dict_get config "MAIL_DEFAULT_SENDER" VNone ]}
       ∪ context in
     email_body ← _render_email_template template_name context;
     let msg := {| msg_subject := subject;
                   msg_recipients := [to];
                   msg_sender := dict_get config "MAIL_DEFAULT_SENDER" VNone;
                   msg_body := email_body |} in
     mail_send msg ;;
     logger_info ("Email sent successfully to " +:+ str_opt to) ;;
     mret true)
  (λ e,
   logger_error ("Failed to send email to " +:+ str_opt to +:+ ": "
                 +:+ exn_msg e) ;;
   mret false).

(** [event.organizer.email]: an [AttributeError] for an event without
    organizer, raised to the caller. *)
Definition organizer_email (event : Event) : M string :=
match organizer event with
| Some u => mret (user_email u)
| None => raise (Exception "'NoneType' object has no attribute 'email'")
end.

(** [f"day{'s' if days_before > 1 else ''}"] *)
Definition day_word (days_before : Z) : string :=
if 1 <? days_before then "days" else "day".

(** [send_event_reminder(guest, event, days_before=1)] *)
Definition send_event_reminder (guest : Guest) (event : Event)
    (days_before : Z) : M bool :=
let reminder_date := start_date event - days days_before in
organizer_contact ← organizer_email event;
let context : pydict :=
  {[ "guest_name" := VStr (guest_name guest);
     "event_title" := VStr (title event);
     "event_venue" := VStr (venue event);
     "event_date" := VStr (strftime E "%B %d, %Y at %I:%M %p" (start_date event));
     "days_until_event" := VInt days_before;
     "ticket_number" := val_of_opt_str (ticket_number guest);
     "organizer_contact" := VStr organizer_contact ]} in
let subject := "Reminder: " +:+ title event +:+ " in " +:+ pretty days_before
               +:+ " " +:+ day_word days_before in
send_email (Some (guest_email guest)) subject "event_reminder" (Some context).

(** [send_feedback_request(guest, event)] *)
Definition send_feedback_request (guest : Guest) (event : Event) : M bool :=
let context : pydict :=
  {[ "guest_name" := VStr (guest_name guest);
     "event_title" := VStr (title event);
     "event_date" := VStr (strftime E "%B %d, %Y" (start_date event));
     "feedback_link" := VStr ("http://localhost:5000/feedback/"
                              +:+ str_opt (ticket_number guest));
     "ticket_number" := val_of_opt_str (ticket_number guest) ]} in
let subject := "How was " +:+ title event +:+ "? We'd love your feedback!" in
send_email (Some (guest_email guest)) subject "feedback_request" (Some context).

(** [send_vendor_welcome(vendor, event)] *)
Definition send_vendor_welcome (vendor : Vendor) (event : Event) : M bool :=
organizer_contact ← organizer_email event;
let context : pydict :=
  {[ "vendor_name" := VStr (vendor_name vendor);
     "event_title" := VStr (title event);
     "service_type" := VStr (service_type vendor);
     "contract_amount" := VStr ("$" +:+ format_2f E (contract_amount vendor));
     "event_date" := VStr (strftime E "%B %d, %Y at %I:%M %p" (start_date event));
     "event_venue" := VStr (venue event);
     "organizer_contact" := VStr organizer_contact ]} in
let subject := "Vendor Assignment: " +:+ title event in
send_email (vendor_email vendor) subject "vendor_welcome" (Some context).

(** [send_event_invitation(guest, event)]. [description] is
    [event.description], a column the [Event] record above does not carry;
    [event.organizer.username] raises for an event without organizer. *)
Definition send_event_invitation (guest : Guest) (event : Event)
    (description : pyval) : M bool :=
event_organizer ←
  match organizer event with
  | Some u => mret (username u)
  | None => raise (Exception "'NoneType' object has no attribute 'username'")
  end;
let context : pydict :=
  {[ "guest_name" := VStr (guest_name guest);
     "event_title" := VStr (title event);
     "event_description" := description;
     "event_venue" := VStr (venue event);
     "event_date" := VStr (strftime E "%B %d, %Y at %I:%M %p" (start_date event));
     "ticket_number" := val_of_opt_str (ticket_number guest);
     "rsvp_link" := VStr ("http://localhost:5000/rsvp/"
                          +:+ str_opt (ticket_number guest));
     "event_organizer" := VStr event_organizer ]} in
let subject := "You're Invited: " +:+ title event in
send_email (Some (guest_email guest)) subject "event_invitation" (Some context).

(** [send_rsvp_confirmation(guest, event, status)] *)
Definition send_rsvp_confirmation (guest : Guest) (event : Event)
    (rsvp : string) : M bool :=
let context : pydict :=
  {[ "guest_name" := VStr (guest_name guest);
     "event_title" := VStr (title event);
     "rsvp_status" := VStr rsvp;
     "event_date" := VStr (strftime E "%B %d, %Y at %I:%M %p" (start_date event));
     "event_venue" := VStr (venue event);
     "ticket_number" := val_of_opt_str (ticket_number guest) ]} in
let subject := "RSVP Confirmation: " +:+ title event in
send_email (Some (guest_email guest)) subject "rsvp_confirmation" (Some context).

(** [send_payment_receipt(payment, event, user_email)] *)
Definition send_payment_receipt (payment : Payment) (event : Event)
    (user_email : string) : M bool :=
let context : pydict :=
  {[ "recipient_name" := VStr (before_first "@" user_email);
     "event_title" := VStr (title event);
     "payment_amount" := VStr ("$" +:+ format_2f E (amount payment));
     "payment_type" :=
       VStr (str_title (replace_underscores (payment_type payment)));
     "payment_method" :=
       VStr (str_title (replace_underscores (payment_method payment)));
     "transaction_id" := val_of_opt_str (transaction_id payment);
     "payment_date" :=
       VStr (strftime E "%B %d, %Y at %I:%M %p" (payment_created_at payment)) ]} in
let subject := "Payment Receipt: " +:+ title event in
send_email (Some user_email) subject "payment_receipt" (Some context).

End defs.
End EmailService.

(* ===================================================================== *)
(** ** [utils/sms_service.py] *)
(* ===================================================================== *)

Module SMSService.
Section defs.
Context (E : Env).

(** [self.client.messages.create(body=..., from_=..., to=...)] *)
Definition messages_create (body : string) (from_ : pyval) (to : option string)
    : M string :=
w ← get_world;
match twilio_create E (trace w) body from_ to with
| inl e => raise e
| inr sid => perform (TwilioCreate body from_ to) ;; mret sid
end.

(** [send_sms(to, message)] *)
Definition send_sms (to : option string) (message : string) : M bool :=
try_except
  (if negb (twilio_client E)
   then logger_info ("[SMS SIMULATION] To: " +:+ str_opt to +:+ ", Message: "
                     +:+ message) ;;
        mret true
   else
     config ← app_config E;
     sid ← messages_create message (dict_get config "TWILIO_PHONE_NUMBER" VNone) to;
     logger_info ("SMS sent successfully to " +:+ str_opt to +:+ ". SID: " +:+ sid) ;;
     mret true)
  (λ e,
   logger_error ("Failed to send SMS to " +:+ str_opt to +:+ ": " +:+ exn_msg e) ;;
   mret false).

(** [send_event_reminder(guest, event, days_before=1)] *)
Definition send_event_reminder (guest : Guest) (event : Event)
    (days_before : Z) : M bool :=
let message :=
  "REMINDER: " +:+ title event +:+ " is in " +:+ pretty days_before +:+ " "
  +:+ EmailService.day_word days_before +:+ "! "
  +:+ "Date: " +:+ strftime E "%b %d, %I:%M %p" (start_date event) +:+ ", "
  +:+ "Venue: " +:+ venue event +:+ ". "
  +:+ "Ticket: " +:+ str_opt (ticket_number guest) +:+ ". "
  +:+ "We look forward to seeing you!" in
send_sms (guest_phone guest) message.

(** [send_event_update(guest, event, update_message)] *)
Definition send_event_update (guest : Guest) (event : Event)
    (update_message : string) : M bool :=
let message :=
  "UPDATE for " +:+ title event +:+ ": " +:+ update_message +:+ " "
  +:+ "Date: " +:+ strftime E "%b %d, %I:%M %p" (start_date event) +:+ ". "
  +:+ "Ticket: " +:+ str_opt (ticket_number guest) in
send_sms (guest_phone guest) message.

(** [send_vendor_reminder(vendor, event, days_before=2)] *)
Definition send_vendor_reminder (vendor : Vendor) (event : Event)
    (days_before : Z) : M bool :=
let message :=
  "REMINDER: Your " +:+ service_type vendor +:+ " services for " +:+ title event
  +:+ " " +:+ "are needed in " +:+ pretty days_before +:+ " "
  +:+ EmailService.day_word days_before +:+ ". "
  +:+ "Date: " +:+ strftime E "%b %d, %I:%M %p" (start_date event) +:+ ", "
  +:+ "Venue: " +:+ venue event +:+ ". "
  +:+ "Contact organizer for questions." in
send_sms (vendor_phone vendor) message.

(** [send_rsvp_confirmation(guest, event, status)]: every status other
    than ["confirmed"] is worded as declined. *)
Definition send_rsvp_confirmation (guest : Guest) (event : Event)
    (rsvp : string) : M bool :=
let status_text := if String.eqb rsvp "confirmed" then "confirmed" else "declined" in
let message :=
  "RSVP " +:+ str_upper status_text +:+ " for " +:+ title event +:+ ". "
  +:+ "Date: " +:+ strftime E "%b %d, %I:%M %p" (start_date event) +:+ ". "
  +:+ "Ticket: " +:+ str_opt (ticket_number guest) +:+ ". "
  +:+ (if String.eqb rsvp "confirmed" then "See you there!"
       else "Thank you for letting us know.") in
send_sms (guest_phone guest) message.

(** [send_check_in_notification(guest, event)] *)
Definition send_check_in_notification (guest : Guest) (event : Event) : M bool :=
let message :=
  "Checked in successfully! Welcome to " +:+ title event +:+ ". "
  +:+ "Enjoy the event! "
  +:+ "Ticket: " +:+ str_opt (ticket_number guest) in
send_sms (guest_phone guest) message.

(** [send_payment_confirmation(user_phone, amount, event_title)] *)
Definition send_payment_confirmation (user_phone : option string)
    (amount_paid : pyfloat) (event_title : string) : M bool :=
let message :=
  "PAYMENT CONFIRMED: $" +:+ format_2f E amount_paid +:+ " received for "
  +:+ event_title +:+ ". "
  +:+ "Thank you for your payment!" in
send_sms user_phone message.

(** [send_emergency_notification(guest, event, emergency_message)] *)
Definition send_emergency_notification (guest : Guest) (event : Event)
    (emergency_message : string) : M bool :=
let message :=
  "URGENT: " +:+ title event +:+ " - " +:+ emergency_message +:+ " "
  +:+ "Please check your email for more information. "
  +:+ "Ticket: " +:+ str_opt (ticket_number guest) in
send_sms (guest_phone guest) message.

(** [send_welcome_message(guest, event)] *)
Definition send_welcome_message (guest : Guest) (event : Event) : M bool :=
let message :=
  "Welcome! You're registered for " +:+ title event +:+ ". "
  +:+ "Date: " +:+ strftime E "%b %d, %I:%M %p" (start_date event) +:+ ", "
  +:+ "Venue: " +:+ venue event +:+ ". "
  +:+ "Ticket: " +:+ str_opt (ticket_number guest) +:+ ". "
  +:+ "Check your email for details!" in
send_sms (guest_phone guest) message.

(** The dict the bulk senders return. *)
Record bulk_result := {
  total : Z;
  successful : Z;
  failed : Z
}.

(** [bulk_send_event_reminders(guests, event, days_before=1)] *)
Definition bulk_send_event_reminders (guests_ : list Guest) (event : Event)
    (days_before : Z) : M bulk_result :=
'(success_count, total_count) ←
  for_fold guests_ (0, 0) (λ guest '(success_count, total_count),
    if truthy_str (guest_phone guest)
    then
      let total_count := total_count + 1 in
      sent ← send_event_reminder guest event days_before;
      mret (if sent : bool then success_count + 1 else success_count,
            total_count)
    else mret (success_count, total_count));
logger_info ("Bulk SMS reminders sent: " +:+ pretty success_count +:+ "/"
             +:+ pretty total_count +:+ " successful") ;;
mret {| total := total_count;
        successful := success_count;
        failed := total_count - success_count |}.

(** [bulk_send_vendor_reminders(vendors, event, days_before=2)] *)
Definition bulk_send_vendor_reminders (vendors_ : list Vendor) (event : Event)
    (days_before : Z) : M bulk_result :=
'(success_count, total_count) ←
  for_fold vendors_ (0, 0) (λ vendor '(success_count, total_count),
    if truthy_str (vendor_phone vendor)
    then
      let total_count := total_count + 1 in
      sent ← send_vendor_reminder vendor event days_before;
      mret (if sent : bool then success_count + 1 else success_count,
            total_count)
    else mret (success_count, total_count));
logger_info ("Bulk vendor reminders sent: " +:+ pretty success_count +:+ "/"
             +:+ pretty total_count +:+ " successful") ;;
mret {| total := total_count;
        successful := success_count;
        failed := total_count - success_count |}.

(** [validate_phone_number(phone_number)]. [twilio_lookup] is
    [client.lookups.v2.phone_numbers(n).fetch().phone_number]; [None] for
    [phone_number] is the Python [None], on which [strip] raises. *)
Definition validate_phone_number
    (twilio_lookup : option string → exn + string)
    (phone_number : option string) : M (option string) :=
try_except
  (if negb (twilio_client E)
   then
     match phone_number with
     | None => raise (Exception "'NoneType' object has no attribute 'strip'")
     | Some phone_number =>
         let phone_number := str_strip phone_number in
         if starts_with "+" phone_number then mret (Some phone_number)
         else if starts_with "0" phone_number
         then mret (Some ("+265" +:+ str_tail phone_number))
         else mret (Some ("+265" +:+ phone_number))
     end
   else
     number ← lift_sum (twilio_lookup phone_number);
     mret (Some number))
  (λ e,
   logger_error ("Phone number validation failed for " +:+ str_opt phone_number
                 +:+ ": " +:+ exn_msg e) ;;
   mret None).

End defs.
End SMSService.

(* ===================================================================== *)
(** ** [utils/scheduler_service.py] *)
(* ===================================================================== *)

Inductive trigger :=
  | CronTrigger (day_of_week : option string) (hour minute : Z)
  | IntervalTrigger (hours : Z).

Record Job := {
  job_func : M unit;
  job_trigger : trigger;
  job_id : string;
  job_name : string
}.

(** SQL [x BETWEEN lo AND hi], both ends included. *)
Definition between (x lo hi : Z) : bool := (lo <=? x) && (x <=? hi).

Section SchedulerService.
Context (E : Env).

(** A query sent to the database engine: it fails, or it answers from the
    tables. *)
Definition db_query {A} (op : db_op) (answer : Database → A) : M A :=
w ← get_world;
match db_raises E (trace w) op with
| Some e => raise e
| None => mret (answer (db w))
end.

(** [db.session.commit()] *)
Definition db_commit : M unit :=
w ← get_world;
match db_raises E (trace w) QCommit with
| Some e => raise e
| None => perform DbCommit
end.

(** The test on a guest in [send_daily_event_reminders]. *)
Definition wants_reminder (guest : Guest) : bool :=
String.eqb (rsvp_status guest) "confirmed" && negb (check_in_status guest).

(** [Event.status.in_(['planned', 'ongoing'])] *)
Definition planned_or_ongoing (event : Event) : bool :=
bool_decide (status event ∈ ["planned"; "ongoing"]).

(** The [try] block of [send_daily_event_reminders]. *)
Definition send_daily_event_reminders_body : M unit :=
app_context E ;;
now ← datetime_now E;
let start_date_ := now + days 1 in
now ← datetime_now E;
let end_date_ := now + days 3 in
upcoming_events ← db_query QEvents (λ d,
  List.filter (λ event, between (start_date event) start_date_ end_date_
                        && planned_or_ongoing event) (events d));
reminders_sent ←
  for_fold upcoming_events 0 (λ event reminders_sent,
    for_fold (guests event) reminders_sent (λ guest reminders_sent,
      if wants_reminder guest
      then
        EmailService.send_event_reminder E guest event 2 ;;
        when (truthy_str (guest_phone guest))
             (SMSService.send_event_reminder E guest event 2 ;; mret ()) ;;
        mret (reminders_sent + 1)
      else mret reminders_sent));
logger_info ("Sent " +:+ pretty reminders_sent +:+ " daily event reminders").

Definition send_daily_event_reminders : M unit :=
try_except send_daily_event_reminders_body
  (λ e, logger_error ("Failed to send daily event reminders: " +:+ exn_msg e)).

(** The [try] block of [send_vendor_reminders]. *)
Definition send_vendor_reminders_body : M unit :=
app_context E ;;
now ← datetime_now E;
let start_date_ := now + days 2 in
now ← datetime_now E;
let end_date_ := now + days 7 in
upcoming_events ← db_query QEvents (λ d,
  List.filter (λ event, between (start_date event) start_date_ end_date_
                        && planned_or_ongoing event) (events d));
reminders_sent ←
  for_fold upcoming_events 0 (λ event reminders_sent,
    for_fold (vendors event) reminders_sent (λ vendor reminders_sent,
      if negb (String.eqb (payment_status vendor) "paid")
      then
        EmailService.send_vendor_welcome E vendor event ;;
        when (truthy_str (vendor_phone vendor))
             (SMSService.send_vendor_reminder E vendor event 3 ;; mret ()) ;;
        mret (reminders_sent + 1)
      else mret reminders_sent));
logger_info ("Sent " +:+ pretty reminders_sent +:+ " vendor reminders").

Definition send_vendor_reminders : M unit :=
try_except send_vendor_reminders_body
  (λ e, logger_error ("Failed to send vendor reminders: " +:+ exn_msg e)).

(** The [try] block of [send_feedback_requests]. *)
Definition send_feedback_requests_body : M unit :=
app_context E ;;
now ← datetime_now E;
let end_date_ := now - days 1 in
now ← datetime_now E;
let start_date_ := now - days 2 in
completed_events ← db_query QEvents (λ d,
  List.filter (λ event, between (end_date event) start_date_ end_date_
                        && String.eqb (status event) "completed") (events d));
feedback_requests_sent ←
  for_fold completed_events 0 (λ event feedback_requests_sent,
    for_fold (guests event) feedback_requests_sent
      (λ guest feedback_requests_sent,
        if String.eqb (rsvp_status guest) "confirmed"
        then
          EmailService.send_feedback_request E guest event ;;
          when (truthy_str (guest_phone guest))
               (SMSService.send_event_update E guest event
                  "Thank you for attending! Please share your feedback." ;;
                mret ()) ;;
          mret (feedback_requests_sent + 1)
        else mret feedback_requests_sent));
logger_info ("Sent " +:+ pretty feedback_requests_sent +:+ " feedback requests").

Definition send_feedback_requests : M unit :=
try_except send_feedback_requests_body
  (λ e, logger_error ("Failed to send feedback requests: " +:+ exn_msg e)).

(** The four statistics of a report over [lo .. hi]. *)
Definition report_statistics (lo hi : Z) : M (Z * Z * Z * pyval) :=
events_created ← db_query QEvents (λ d,
  Z.of_nat (length (List.filter (λ ev, between (event_created_at ev) lo hi)
                                (events d))));
guests_registered ← db_query QGuests (λ d,
  Z.of_nat (length (List.filter (λ g, between (guest_created_at g) lo hi)
                                (all_guests d))));
payments_processed ← db_query QPayments (λ d,
  Z.of_nat (length (List.filter
                      (λ p, between (payment_created_at p) lo hi
                            && String.eqb (payment_state p) "completed")
                      (payments d))));
total_revenue ← db_query QSumPayments (λ d,
  match sql_sum E (List.filter
                     (λ p, between (payment_created_at p) lo hi
                           && String.eqb (payment_state p) "completed")
                     (payments d)) with
  | Some f => if truthy (VFloat f) then VFloat f else VInt 0
  | None => VInt 0
  end);
mret (events_created, guests_registered, payments_processed, total_revenue).

(** [User.query.filter_by(role='admin').all()] *)
Definition admin_users_query : M (list User) :=
db_query QUsers (λ d,
  List.filter (λ u, String.eqb (user_role u) "admin") (users d)).

(** The [try] block of [generate_daily_reports]. *)
Definition generate_daily_reports_body : M unit :=
app_context E ;;
now ← datetime_now E;
let today_start := start_of_day E now in
let today_end := today_start + days 1 in
'(events_created, guests_registered, payments_processed, total_revenue) ←
  report_statistics today_start today_end;
admin_users ← admin_users_query;
for_each admin_users (λ admin,
  when (negb (String.eqb (user_email admin) ""))
    (let report_data : pydict :=
       {[ "date" := VStr (strftime E "%Y-%m-%d" today_start);
          "events_created" := VInt events_created;
          "guests_registered" := VInt guests_registered;
          "payments_processed" := VInt payments_processed;
          "total_revenue" := total_revenue ]} in
     let subject := "Daily Report - " +:+ strftime E "%Y-%m-%d" today_start in
     EmailService.send_email E (Some (user_email admin)) subject
                             "daily_report" (Some report_data) ;;
     mret ())) ;;
logger_info ("Generated daily reports for "
             +:+ pretty (Z.of_nat (length admin_users)) +:+ " admins").

Definition generate_daily_reports : M unit :=
try_except generate_daily_reports_body
  (λ e, logger_error ("Failed to generate daily reports: " +:+ exn_msg e)).

(** The [try] block of [generate_weekly_reports]. *)
Definition generate_weekly_reports_body : M unit :=
app_context E ;;
today ← datetime_now E;
let week_start := today - days (weekday E today) in
let week_end := week_start + days 7 in
'(events_created, guests_registered, payments_processed, total_revenue) ←
  report_statistics week_start week_end;
admin_users ← admin_users_query;
for_each admin_users (λ admin,
  when (negb (String.eqb (user_email admin) ""))
    (let report_data : pydict :=
       {[ "week_start" := VStr (strftime E "%Y-%m-%d" week_start);
          "week_end" := VStr (strftime E "%Y-%m-%d" week_end);
          "events_created" := VInt events_created;
          "guests_registered" := VInt guests_registered;
          "payments_processed" := VInt payments_processed;
          "total_revenue" := total_revenue ]} in
     let subject := "Weekly Report - " +:+ strftime E "%Y-%m-%d" week_start
                    +:+ " to " +:+ strftime E "%Y-%m-%d" week_end in
     EmailService.send_email E (Some (user_email admin)) subject
                             "weekly_report" (Some report_data) ;;
     mret ())) ;;
logger_info ("Generated weekly reports for "
             +:+ pretty (Z.of_nat (length admin_users)) +:+ " admins").

Definition generate_weekly_reports : M unit :=
try_except generate_weekly_reports_body
  (λ e, logger_error ("Failed to generate weekly reports: " +:+ exn_msg e)).

(** [Feedback.query.filter(Feedback.created_at < cutoff_date).delete()]:
    the rows go, the number of rows deleted comes back. *)
Definition delete_old_feedback (cutoff_date : Z) : M Z :=
w ← get_world;
match db_raises E (trace w) QDeleteFeedback with
| Some e => raise e
| None =>
    let old := λ f, feedback_created_at f <? cutoff_date in
    set_db {| events := events (db w);
              all_guests := all_guests (db w);
              payments := payments (db w);
              users := users (db w);
              feedbacks := List.filter (λ f, negb (old f)) (feedbacks (db w)) |} ;;
    mret (Z.of_nat (length (List.filter old (feedbacks (db w)))))
end.

(** The [try] block of [cleanup_old_data]. *)
Definition cleanup_old_data_body : M unit :=
app_context E ;;
now ← datetime_now E;
let cutoff_date := now - days 365 in
deleted_feedback ← delete_old_feedback cutoff_date;
db_commit ;;
logger_info ("Cleaned up " +:+ pretty deleted_feedback
             +:+ " old feedback records").

Definition cleanup_old_data : M unit :=
try_except cleanup_old_data_body
  (λ e, logger_error ("Failed to cleanup old data: " +:+ exn_msg e)).

(** The [try] block of [system_health_check]. *)
Definition system_health_check_body : M unit :=
app_context E ;;
db_status ← try_except
  (db_query QSelect1 (λ _, ()) ;; mret "healthy")
  (λ _, mret "unhealthy");
total_users ← db_query QCount (λ d, Z.of_nat (length (users d)));
total_events ← db_query QCount (λ d, Z.of_nat (length (events d)));
total_guests ← db_query QCount (λ d, Z.of_nat (length (all_guests d)));
total_payments ← db_query QCount (λ d, Z.of_nat (length (payments d)));
now ← datetime_now E;
let health_data : pydict :=
  {[ "timestamp" := VStr (isoformat E now);
     "database_status" := VStr db_status;
     "total_users" := VInt total_users;
     "total_events" := VInt total_events;
     "total_guests" := VInt total_guests;
     "total_payments" := VInt total_payments;
     "scheduler_jobs" := VInt (scheduler_job_count E) ]} in
logger_info ("System health check: " +:+ repr_dict E health_data) ;;
when (String.eqb db_status "unhealthy")
  (admin_users ← admin_users_query;
   for_each admin_users (λ admin,
     when (negb (String.eqb (user_email admin) ""))
       (EmailService.send_email E (Some (user_email admin))
          "System Health Alert" "system_alert" (Some health_data) ;;
        mret ()))).

Definition system_health_check : M unit :=
try_except system_health_check_body
  (λ e, logger_error ("Failed to perform system health check: " +:+ exn_msg e)).

(** The [try] block of [cleanup_notifications]. *)
Definition cleanup_notifications_body : M unit :=
app_context E ;;
cleaned_count ← cleanup_old_notifications E 30;
logger_info ("Cleaned up " +:+ pretty cleaned_count +:+ " old notifications").

Definition cleanup_notifications : M unit :=
try_except cleanup_notifications_body
  (λ e, logger_error ("Failed to cleanup notifications: " +:+ exn_msg e)).

(** The jobs of [_register_jobs], in the order they are added. *)
Definition registered_jobs : list Job :=
[ {| job_func := send_daily_event_reminders;
     job_trigger := CronTrigger None 8 0;
     job_id := "daily_event_reminders"; job_name := "Daily Event Reminders" |};
  {| job_func := send_vendor_reminders;
     job_trigger := CronTrigger None 9 0;
     job_id := "vendor_reminders"; job_name := "Vendor Reminders" |};
  {| job_func := send_feedback_requests;
     job_trigger := CronTrigger None 9 30;
     job_id := "feedback_requests"; job_name := "Feedback Requests" |};
  {| job_func := generate_daily_reports;
     job_trigger := CronTrigger None 18 0;
     job_id := "daily_reports"; job_name := "Daily Reports" |};
  {| job_func := generate_weekly_reports;
     job_trigger := CronTrigger (Some "mon") 8 0;
     job_id := "weekly_reports"; job_name := "Weekly Reports" |};
  {| job_func := cleanup_old_data;
     job_trigger := CronTrigger (Some "sun") 2 0;
     job_id := "data_cleanup"; job_name := "Data Cleanup" |};
  {| job_func := system_health_check;
     job_trigger := IntervalTrigger 1;
     job_id := "health_check"; job_name := "System Health Check" |};
  {| job_func := cleanup_notifications;
     job_trigger := IntervalTrigger 6;
     job_id := "notification_cleanup"; job_name := "Notification Cleanup" |} ].

End SchedulerService.

(* ===================================================================== *)
(** ** Observations on worlds and traces *)
(* ===================================================================== *)

(** PendingQueue[u]: a user without an entry has nothing pending. *)
Definition pending_queue (w : World) (u : Z) : list notification :=
default [] (user_notifications w !! u).

(** The notification pushes of a trace: the ['notification'] events handed
    to Socket.IO, with their rooms. *)
Definition push_of (e : effect) : option (payload * option string) :=
match e with
| Emit event data room =>
    if String.eqb event "notification" then Some (data, room) else None
| _ => None
end.

Definition pushes (tr : list effect) : list (payload * option string) :=
omap push_of tr.

(** Every event handed to Socket.IO, whatever its name. *)
Definition emits (tr : list effect) : list (string * payload * option string) :=
omap (λ e, match e with
           | Emit event data room => Some (event, data, room)
           | _ => None
           end) tr.

(** The dict [send_notification] builds when it starts in world [w]: the
    id from the first clock reading, ['created_at'] from the second. *)
Definition notification_built (E : Env) (w : World) (user_id : Z)
    (notification_data : pydict) : notification :=
{| n_id := NotifAt (clock E (ticks w));
   n_user_id := user_id;
   n_type := dict_get notification_data "type" (VStr "info");
   n_title := dict_get notification_data "title" (VStr "");
   n_message := dict_get notification_data "message" (VStr "");
   n_data := dict_get notification_data "data" (VDict ∅);
   n_created_at := clock E (S (ticks w));
   n_read := false |}.

(** The dict [send_broadcast_notification] builds in world [w]. *)
Definition broadcast_built (E : Env) (w : World) (notification_data : pydict)
    : broadcast_notification :=
{| b_id := BroadcastAt (clock E (ticks w));
   b_type := dict_get notification_data "type" (VStr "info");
   b_title := dict_get notification_data "title" (VStr "");
   b_message := dict_get notification_data "message" (VStr "");
   b_data := dict_get notification_data "data" (VDict ∅);
   b_created_at := clock E (S (ticks w));
   b_broadcast := true |}.

(** Socket.IO accepts every push. *)
Definition emit_ok (E : Env) : Prop :=
∀ h event data room, emit_raises E h event data room = None.

(** What the broadcast claim would push to: the connected users, or those
    of them whose role is the filter's. [role_of] gives the role of a user
    id in the [User] table. *)
Definition role_filtered (role_of : Z → string) (user_role : option string)
    (cu : gmap Z string) : list (Z * string) :=
match user_role with
| None => map_to_list cu
| Some r => List.filter (λ '(u, _), String.eqb (role_of u) r) (map_to_list cu)
end.

(** Every notification the service holds. *)
Definition stored_notifications (w : World) : list notification :=
mjoin (snd <$> map_to_list (user_notifications w)).

(** Created before the cutoff. *)
Definition older_than (cutoff : Z) (n : notification) : bool :=
n_created_at n <? cutoff.

(** A message that reached a transport: an e-mail with its recipient and
    subject, an SMS with its number and text. *)
Inductive delivery :=
  | EmailTo (to : option string) (subject : string)
  | SmsTo (to : option string) (body : string).

Definition delivery_of (e : effect) : option delivery :=
match e with
| MailSend m => Some (EmailTo (default None (head (msg_recipients m))) (msg_subject m))
| TwilioCreate body _ to => Some (SmsTo to body)
| _ => None
end.

Definition deliveries (tr : list effect) : list delivery :=
omap delivery_of tr.

(** Mail is configured and Jinja2, Flask-Mail and Twilio do their work. *)
Record transports_ok (E : Env) : Prop := {
  mail_configured :
    ∃ config, app E = Some config
              ∧ truthy (dict_get config "MAIL_USERNAME" VNone) = true;
  jinja_ok : ∀ src context, ∃ body, jinja_render E src context = inr body;
  mail_ok : ∀ h m, mail_send_raises E h m = None;
  twilio_on : twilio_client E = true;
  twilio_ok : ∀ h body from_ to, ∃ sid, twilio_create E h body from_ to = inr sid
}.

(** Mail is configured, Jinja2 and Twilio do their work, and Flask-Mail
    sends what has an address: it takes a message whose recipients are all
    addresses and raises on one with a recipient that is [None]. *)
Record transports_need_address (E : Env) : Prop := {
  strict_configured :
    ∃ config, app E = Some config
              ∧ truthy (dict_get config "MAIL_USERNAME" VNone) = true;
  strict_jinja : ∀ src context, ∃ body, jinja_render E src context = inr body;
  strict_mail : ∀ h m, None ∉ msg_recipients m → mail_send_raises E h m = None;
  strict_mail_refuses :
    ∀ h m, None ∈ msg_recipients m → is_Some (mail_send_raises E h m);
  strict_twilio_on : twilio_client E = true;
  strict_twilio :
    ∀ h body from_ to, ∃ sid, twilio_create E h body from_ to = inr sid
}.

(** The window of [send_daily_event_reminders] when it starts in [w]. *)
Definition in_reminder_window (E : Env) (w : World) (event : Event) : bool :=
between (start_date event) (clock E (ticks w) + days 1)
        (clock E (S (ticks w)) + days 3).

(** The reminders the job owes a guest of an event it has selected. *)
Definition reminders_due (E : Env) (event : Event) (guest : Guest)
    : list delivery :=
if wants_reminder guest
then EmailTo (Some (guest_email guest))
             ("Reminder: " +:+ title event +:+ " in 2 days")
     :: (if truthy_str (guest_phone guest)
         then [SmsTo (guest_phone guest)
                 ("REMINDER: " +:+ title event +:+ " is in 2 days! Date: "
                  +:+ strftime E "%b %d, %I:%M %p" (start_date event)
                  +:+ ", Venue: " +:+ venue event
                  +:+ ". Ticket: " +:+ str_opt (ticket_number guest)
                  +:+ ". We look forward to seeing you!")]
         else [])
else [].

(** The events [send_daily_event_reminders] selects when it starts in [w]. *)
Definition reminded_events (E : Env) (w : World) : list Event :=
List.filter (λ event, in_reminder_window E w event && planned_or_ongoing event)
            (events (db w)).

(** The reminders of one run: those due to the guests of the selected
    events, event by event and guest by guest. *)
Definition reminders_owed (E : Env) (w : World) : list delivery :=
reminded_events E w ≫= λ event, guests event ≫= reminders_due E event.

(** The [try] block and the log prefix of each registered job, in the order
    of [registered_jobs]. *)
Definition job_blocks (E : Env) : list (M unit * string) :=
[ (send_daily_event_reminders_body E, "Failed to send daily event reminders: ");
  (send_vendor_reminders_body E, "Failed to send vendor reminders: ");
  (send_feedback_requests_body E, "Failed to send feedback requests: ");
  (generate_daily_reports_body E, "Failed to generate daily reports: ");
  (generate_weekly_reports_body E, "Failed to generate weekly reports: ");
  (cleanup_old_data_body E, "Failed to cleanup old data: ");
  (system_health_check_body E, "Failed to perform system health check: ");
  (cleanup_notifications_body E, "Failed to cleanup notifications: ") ].

(** [w] after the effects [es]. *)
Definition after (w : World) (es : list effect) : World :=
{| connected_users := connected_users w;
   user_notifications := user_notifications w;
   db := db w;
   trace := trace w ++ es;
   ticks := ticks w |}.

(** [w] with one more entry in its log. *)
Definition logged (w : World) (lvl : log_level) (text : string) : World :=
{| connected_users := connected_users w;
   user_notifications := user_notifications w;
   db := db w;
   trace := trace w ++ [Log lvl text];
   ticks := ticks w |}.

(* --------------------------------------------------------------------- *)
(** *** Observations for the rest of the services *)

(** The notification [send_notification] builds for [u] from [nd] when the
    clock has been read [t] times. *)
Definition notification_at (E : Env) (t : nat) (u : Z) (nd : pydict)
    : notification :=
{| n_id := NotifAt (clock E t);
   n_user_id := u;
   n_type := dict_get nd "type" (VStr "info");
   n_title := dict_get nd "title" (VStr "");
   n_message := dict_get nd "message" (VStr "");
   n_data := dict_get nd "data" (VDict ∅);
   n_created_at := clock E (S t);
   n_read := false |}.

(** The notifications built by sending the data [nds] to [u] one after the
    other, from clock reading [t] on: each send reads the clock twice. *)
Fixpoint notifications_built (E : Env) (t : nat) (u : Z) (nds : list pydict)
    : list notification :=
match nds with
| [] => []
| nd :: nds' => notification_at E t u nd :: notifications_built E (S (S t)) u nds'
end.

(** Sending each of [nds] to [u], return values dropped. *)
Definition send_all (E : Env) (u : Z) (nds : list pydict) : M unit :=
for_each nds (λ nd, send_notification E u nd ;; mret ()).

(** No notification is pending for a connected user. *)
Definition connected_have_empty_queues (w : World) : Prop :=
∀ u, is_Some (connected_users w !! u) → pending_queue w u = [].

(** The calls that reach the coordinator: the two socket handlers and the
    senders. *)
Inductive coordinator_call :=
  | Connect (current_user : option Z) (request_sid : string)
  | Disconnect (current_user : option Z)
  | Notify (user_id : Z) (notification_data : pydict)
  | Broadcast (notification_data : pydict) (user_role : option string)
  | NotifyEvent (event : Event) (notification_type : string)
                (data : option pydict)
  | NotifyPayment (payment : Payment) (user_id : Z) (notification_type : string)
  | NotifyGuest (guest : Guest) (event : Event) (notification_type : string).

Definition run_call (E : Env) (c : coordinator_call) : M unit :=
match c with
| Connect current_user request_sid => handle_connect E current_user request_sid
| Disconnect current_user => handle_disconnect current_user
| Notify user_id nd => send_notification E user_id nd ;; mret ()
| Broadcast nd user_role => send_broadcast_notification E nd user_role ;; mret ()
| NotifyEvent event ty data => send_event_notification E event ty data ;; mret ()
| NotifyPayment payment user_id ty =>
    send_payment_notification E payment user_id ty ;; mret ()
| NotifyGuest guest event ty => send_guest_notification E guest event ty ;; mret ()
end.

(** Two dicts that [send_notification] cannot tell apart. *)
Definition same_notification_fields (nd nd' : pydict) : Prop :=
nd !! "type" = nd' !! "type" ∧ nd !! "title" = nd' !! "title"
∧ nd !! "message" = nd' !! "message" ∧ nd !! "data" = nd' !! "data".

(** An action that leaves an observation of the world as it is, however
    the action ends. *)
Definition preserves {A B} (obs : World → B) (m : M A) : Prop :=
∀ w, obs (snd (m w)) = obs w.

(** The state of the coordinator: the registry and the queues. *)
Definition coordinator_state (w : World)
    : gmap Z string * gmap Z (list notification) :=
(connected_users w, user_notifications w).

(** The notification pushes so far. *)
Definition pushed (w : World) : list (payload * option string) :=
pushes (trace w).

(** The messages handed to the mail and SMS transports so far. *)
Definition delivered (w : World) : list delivery :=
deliveries (trace w).

(** An action that always returns. *)
Definition returns {A} (m : M A) : Prop :=
∀ w, ∃ a w', m w = (Ok a, w').

(** The window of [send_vendor_reminders] when it starts in [w]. *)
Definition in_vendor_window (E : Env) (w : World) (event : Event) : bool :=
between (start_date event) (clock E (ticks w) + days 2)
        (clock E (S (ticks w)) + days 7).

Definition vendor_events (E : Env) (w : World) : list Event :=
List.filter (λ event, in_vendor_window E w event && planned_or_ongoing event)
            (events (db w)).

(** What the vendor job owes a vendor of an event it has selected: the
    mail goes to a vendor with an address, the SMS to one with a phone. *)
Definition vendor_reminders_due (E : Env) (event : Event) (vendor : Vendor)
    : list delivery :=
if negb (String.eqb (payment_status vendor) "paid")
then match vendor_email vendor with
     | Some address =>
         [EmailTo (Some address) ("Vendor Assignment: " +:+ title event)]
     | None => []
     end
     ++ (if truthy_str (vendor_phone vendor)
         then [SmsTo (vendor_phone vendor)
                 ("REMINDER: Your " +:+ service_type vendor +:+ " services for "
                  +:+ title event +:+ " are needed in 3 days. Date: "
                  +:+ strftime E "%b %d, %I:%M %p" (start_date event)
                  +:+ ", Venue: " +:+ venue event
                  +:+ ". Contact organizer for questions.")]
         else [])
else [].

(** The window of [send_feedback_requests] when it starts in [w]: the
    upper end comes from the first clock reading, the lower from the
    second. *)
Definition in_feedback_window (E : Env) (w : World) (event : Event) : bool :=
between (end_date event) (clock E (S (ticks w)) - days 2)
        (clock E (ticks w) - days 1).

Definition feedback_events (E : Env) (w : World) : list Event :=
List.filter (λ event, in_feedback_window E w event
                      && String.eqb (status event) "completed")
            (events (db w)).

(** What the feedback job owes a guest of an event it has selected. *)
Definition feedback_due (E : Env) (event : Event) (guest : Guest)
    : list delivery :=
if String.eqb (rsvp_status guest) "confirmed"
then EmailTo (Some (guest_email guest))
             ("How was " +:+ title event +:+ "? We'd love your feedback!")
     :: (if truthy_str (guest_phone guest)
         then [SmsTo (guest_phone guest)
                 ("UPDATE for " +:+ title event
                  +:+ ": Thank you for attending! Please share your feedback. Date: "
                  +:+ strftime E "%b %d, %I:%M %p" (start_date event)
                  +:+ ". Ticket: " +:+ str_opt (ticket_number guest))]
         else [])
else [].

(** The administrators a report or an alert is mailed to. *)
Definition report_recipients (d : Database) : list User :=
List.filter (λ u, negb (String.eqb (user_email u) ""))
  (List.filter (λ u, String.eqb (user_role u) "admin") (users d)).

(** The messages of a trace. *)
Definition mail_of (e : effect) : option Message :=
match e with
| MailSend m => Some m
| _ => None
end.

Definition mails (tr : list effect) : list Message := omap mail_of tr.

(** The database answers everything. *)
Definition db_ok (E : Env) : Prop := ∀ h op, db_raises E h op = None.

(** The database is down. *)
Definition db_down (E : Env) : Prop := ∀ h op, is_Some (db_raises E h op).

(** The error entries of a trace. *)
Definition errors (tr : list effect) : list string :=
omap (λ e, match e with Log ERROR text => Some text | _ => None end) tr.

(** The guests a bulk SMS goes to. *)
Definition with_phone (l : list Guest) : list Guest :=
List.filter (λ g, truthy_str (guest_phone g)) l.

(* ===================================================================== *)
(** ** Sample environments and worlds *)
(* ===================================================================== *)

Module Samples.

Definition config : pydict :=
{[ "MAIL_USERNAME" := VStr "events@example.org";
   "MAIL_DEFAULT_SENDER" := VStr "noreply@example.org";
   "TWILIO_PHONE_NUMBER" := VStr "+15550100" ]}.

(** Every collaborator works; the clock starts at day 100 and advances by
    a microsecond per reading. *)
Definition quiet_env : Env :=
{| clock := λ n, days 100 + Z.of_nat n;
   year_of := λ _, 2025;
   strftime := λ fmt t, fmt;
   format_2f := λ f, pretty (float_bits f);
   isoformat := λ t, pretty t;
   start_of_day := λ t, t - t `mod` days 1;
   weekday := λ t, (t `div` days 1) `mod` 7;
   repr_dict := λ _, "{...}";
   emit_raises := λ _ _ _ _, None;
   app := Some config;
   jinja_render := λ src _, inr src;
   mail_send_raises := λ _ _, None;
   twilio_client := true;
   twilio_create := λ _ _ _ _, inr "SM0001";
   db_raises := λ _ _, None;
   sql_sum := λ _, None;
   scheduler_job_count := 8 |}.

(** As [quiet_env], with a Socket.IO server that refuses every push. *)
Definition socket_down_env : Env :=
{| clock := clock quiet_env;
   year_of := year_of quiet_env;
   strftime := strftime quiet_env;
   format_2f := format_2f quiet_env;
   isoformat := isoformat quiet_env;
   start_of_day := start_of_day quiet_env;
   weekday := weekday quiet_env;
   repr_dict := repr_dict quiet_env;
   emit_raises := λ _ _ _ _, Some (Exception "socket closed");
   app := app quiet_env;
   jinja_render := jinja_render quiet_env;
   mail_send_raises := mail_send_raises quiet_env;
   twilio_client := twilio_client quiet_env;
   twilio_create := twilio_create quiet_env;
   db_raises := db_raises quiet_env;
   sql_sum := sql_sum quiet_env;
   scheduler_job_count := scheduler_job_count quiet_env |}.

(** As [quiet_env], with a database that fails every operation. *)
Definition db_down_env : Env :=
{| clock := clock quiet_env;
   year_of := year_of quiet_env;
   strftime := strftime quiet_env;
   format_2f := format_2f quiet_env;
   isoformat := isoformat quiet_env;
   start_of_day := start_of_day quiet_env;
   weekday := weekday quiet_env;
   repr_dict := repr_dict quiet_env;
   emit_raises := emit_raises quiet_env;
   app := app quiet_env;
   jinja_render := jinja_render quiet_env;
   mail_send_raises := mail_send_raises quiet_env;
   twilio_client := twilio_client quiet_env;
   twilio_create := twilio_create quiet_env;
   db_raises := λ _ _, Some (Exception "database is locked");
   sql_sum := sql_sum quiet_env;
   scheduler_job_count := scheduler_job_count quiet_env |}.

Definition alice : User :=
{| user_id := 1; username := "alice"; user_email := "alice@example.org";
   user_role := "admin" |}.

Definition confirmed_guest : Guest :=
{| guest_id := 10; guest_name := "Grace"; guest_email := "grace@example.org";
   guest_phone := Some "+265991000001"; rsvp_status := "confirmed";
   check_in_status := false; ticket_number := Some "T-10";
   guest_created_at := days 90 |}.

Definition pending_guest : Guest :=
{| guest_id := 11; guest_name := "Peter"; guest_email := "peter@example.org";
   guest_phone := Some "+265991000002"; rsvp_status := "pending";
   check_in_status := false; ticket_number := Some "T-11";
   guest_created_at := days 90 |}.

(** An event that starts two days after the clock of [quiet_env]. *)
Definition gala (event_status : string) : Event :=
{| event_id := 5; title := "Gala"; venue := "Town Hall";
   start_date := days 102; end_date := days 103; status := event_status;
   organizer_id := Some 1; organizer := Some alice;
   guests := [confirmed_guest; pending_guest]; vendors := [];
   event_created_at := days 80 |}.

(** An event row without organizer. *)
Definition orphan_event : Event :=
{| event_id := 6; title := "Picnic"; venue := "Park";
   start_date := days 102; end_date := days 103; status := "planned";
   organizer_id := None; organizer := None;
   guests := [confirmed_guest]; vendors := [];
   event_created_at := days 80 |}.

Definition database (l : list Event) : Database :=
{| events := l; all_guests := []; payments := []; users := [alice];
   feedbacks := [] |}.

Definition world (cu : gmap Z string) (un : gmap Z (list notification))
    (l : list Event) : World :=
{| connected_users := cu; user_notifications := un; db := database l;
   trace := []; ticks := 0 |}.

Definition notification_data : pydict :=
{[ "type" := VStr "guest"; "title" := VStr "Guest Registered";
   "message" := VStr "Grace has registered for 'Gala'." ]}.

(** A notification created on day 60, forty days before the clock of
    [quiet_env]. *)
Definition old_notification : notification :=
{| n_id := NotifAt (days 60); n_user_id := 7; n_type := VStr "info";
   n_title := VStr "old"; n_message := VStr ""; n_data := VDict ∅;
   n_created_at := days 60; n_read := false |}.

(** A notification that [flaky_env] makes Socket.IO refuse. *)
Definition poisoned_notification : notification :=
{| n_id := NotifAt (days 61); n_user_id := 7; n_type := VStr "info";
   n_title := VStr "poison"; n_message := VStr ""; n_data := VDict ∅;
   n_created_at := days 61; n_read := false |}.

(** As [quiet_env], with a Socket.IO server that refuses the notifications
    titled [poison] and takes everything else. *)
Definition flaky_env : Env :=
{| clock := clock quiet_env;
   year_of := year_of quiet_env;
   strftime := strftime quiet_env;
   format_2f := format_2f quiet_env;
   isoformat := isoformat quiet_env;
   start_of_day := start_of_day quiet_env;
   weekday := weekday quiet_env;
   repr_dict := repr_dict quiet_env;
   emit_raises := λ _ _ data _,
     match data with
     | PNotification n =>
         match n_title n with
         | VStr s => if String.eqb s "poison"
                     then Some (Exception "payload refused") else None
         | _ => None
         end
     | _ => None
     end;
   app := app quiet_env;
   jinja_render := jinja_render quiet_env;
   mail_send_raises := mail_send_raises quiet_env;
   twilio_client := twilio_client quiet_env;
   twilio_create := twilio_create quiet_env;
   db_raises := db_raises quiet_env;
   sql_sum := sql_sum quiet_env;
   scheduler_job_count := scheduler_job_count quiet_env |}.

(** As [quiet_env], before any mail or Twilio setting is made and without
    Twilio client: [app.config] is empty and SMS are simulated. *)
Definition unconfigured_env : Env :=
{| clock := clock quiet_env;
   year_of := year_of quiet_env;
   strftime := strftime quiet_env;
   format_2f := format_2f quiet_env;
   isoformat := isoformat quiet_env;
   start_of_day := start_of_day quiet_env;
   weekday := weekday quiet_env;
   repr_dict := repr_dict quiet_env;
   emit_raises := emit_raises quiet_env;
   app := Some ∅;
   jinja_render := jinja_render quiet_env;
   mail_send_raises := mail_send_raises quiet_env;
   twilio_client := false;
   twilio_create := twilio_create quiet_env;
   db_raises := db_raises quiet_env;
   sql_sum := sql_sum quiet_env;
   scheduler_job_count := scheduler_job_count quiet_env |}.

Definition unpaid_vendor : Vendor :=
{| vendor_id := 20; vendor_name := "Vera"; service_type := "catering";
   vendor_email := Some "vera@example.org"; vendor_phone := None;
   contract_amount := Float64 0; payment_status := "pending" |}.

Definition paid_vendor : Vendor :=
{| vendor_id := 21; vendor_name := "Paul"; service_type := "sound";
   vendor_email := Some "paul@example.org"; vendor_phone := Some "+265991000003";
   contract_amount := Float64 0; payment_status := "paid" |}.

(** An event that starts four days after the clock of [quiet_env]. *)
Definition expo : Event :=
{| event_id := 8; title := "Expo"; venue := "Arena";
   start_date := days 104; end_date := days 105; status := "planned";
   organizer_id := Some 1; organizer := Some alice;
   guests := []; vendors := [unpaid_vendor; paid_vendor];
   event_created_at := days 80 |}.

(** An unpaid vendor without mail address. *)
Definition silent_vendor : Vendor :=
{| vendor_id := 22; vendor_name := "Sam"; service_type := "lighting";
   vendor_email := None; vendor_phone := Some "+265991000004";
   contract_amount := Float64 0; payment_status := "pending" |}.

(** An event that starts four days after the clock of [quiet_env]. *)
Definition fair : Event :=
{| event_id := 12; title := "Fair"; venue := "Showground";
   start_date := days 104; end_date := days 105; status := "planned";
   organizer_id := Some 1; organizer := Some alice;
   guests := []; vendors := [unpaid_vendor; silent_vendor; paid_vendor];
   event_created_at := days 80 |}.

(** As [quiet_env], with a Flask-Mail that raises on a message with a
    recipient that is [None]. *)
Definition strict_mail_env : Env :=
{| clock := clock quiet_env;
   year_of := year_of quiet_env;
   strftime := strftime quiet_env;
   format_2f := format_2f quiet_env;
   isoformat := isoformat quiet_env;
   start_of_day := start_of_day quiet_env;
   weekday := weekday quiet_env;
   repr_dict := repr_dict quiet_env;
   emit_raises := emit_raises quiet_env;
   app := app quiet_env;
   jinja_render := jinja_render quiet_env;
   mail_send_raises := λ _ m,
     if bool_decide (None ∈ msg_recipients m)
     then Some (Exception "cannot unpack non-iterable NoneType object")
     else None;
   twilio_client := twilio_client quiet_env;
   twilio_create := twilio_create quiet_env;
   db_raises := db_raises quiet_env;
   sql_sum := sql_sum quiet_env;
   scheduler_job_count := scheduler_job_count quiet_env |}.

(** An event that ended a little more than a day before the clock of
    [quiet_env]. *)
Definition past_gala : Event :=
{| event_id := 9; title := "Gala"; venue := "Town Hall";
   start_date := days 98; end_date := days 99 - 1; status := "completed";
   organizer_id := Some 1; organizer := Some alice;
   guests := [confirmed_guest; pending_guest]; vendors := [];
   event_created_at := days 80 |}.

Definition bob : User :=
{| user_id := 2; username := "bob"; user_email := "bob@example.org";
   user_role := "user" |}.

(** Feedback of 400 and of 10 days before the clock of [quiet_env]. *)
Definition old_feedback : Feedback :=
{| feedback_id := 1; feedback_created_at := days 100 - days 400 |}.

Definition recent_feedback : Feedback :=
{| feedback_id := 2; feedback_created_at := days 100 - days 10 |}.

Definition feedback_world : World :=
{| connected_users := ∅; user_notifications := ∅;
   db := {| events := []; all_guests := []; payments := [];
            users := [alice; bob];
            feedbacks := [old_feedback; recent_feedback] |};
   trace := []; ticks := 0 |}.

(** As [quiet_env], with a database that fails [SELECT 1] and answers
    everything else. *)
Definition select_fails_env : Env :=
{| clock := clock quiet_env;
   year_of := year_of quiet_env;
   strftime := strftime quiet_env;
   format_2f := format_2f quiet_env;
   isoformat := isoformat quiet_env;
   start_of_day := start_of_day quiet_env;
   weekday := weekday quiet_env;
   repr_dict := repr_dict quiet_env;
   emit_raises := emit_raises quiet_env;
   app := app quiet_env;
   jinja_render := jinja_render quiet_env;
   mail_send_raises := mail_send_raises quiet_env;
   twilio_client := twilio_client quiet_env;
   twilio_create := twilio_create quiet_env;
   db_raises := λ _ op,
     match op with
     | QSelect1 => Some (Exception "no such function")
     | _ => None
     end;
   sql_sum := sql_sum quiet_env;
   scheduler_job_count := scheduler_job_count quiet_env |}.

End Samples.

(* ===================================================================== *)
(** ** Running service code *)
(* ===================================================================== *)

(** Unfolds one layer of the monad and of the primitive actions. *)
Ltac run :=
  repeat progress
    (try unfold mbind, M_bind, mret, M_ret, bind, ret, try_except, get_world,
       perform, set_user_notifications, set_connected_users, set_db,
       logger_info, logger_error, logger_warning, datetime_now, socketio_emit,
       raise, when, lift_sum;
     cbn [fst snd negb default trace connected_users user_notifications db
          ticks]).

Lemma pushes_app tr1 tr2 : pushes (tr1 ++ tr2) = pushes tr1 ++ pushes tr2.
Proof. apply omap_app. Qed.

Lemma deliveries_app tr1 tr2 :
  deliveries (tr1 ++ tr2) = deliveries tr1 ++ deliveries tr2.
Proof. apply omap_app. Qed.

Lemma pushes_log tr lvl text : pushes (tr ++ [Log lvl text]) = pushes tr.
Proof. rewrite pushes_app. cbn. apply app_nil_r. Qed.

(** A [try] whose handler only logs returns normally, and logs exactly
    when the block raised. *)
Lemma try_except_logs (body : M unit) (prefix : string) (w : World) :
  match body w with
  | (Ok _, w') =>
      try_except body (λ e, logger_error (prefix +:+ exn_msg e)) w = (Ok (), w')
  | (Raise e, w') =>
      try_except body (λ e, logger_error (prefix +:+ exn_msg e)) w
      = (Ok (), logged w' ERROR (prefix +:+ exn_msg e))
  end.
Proof.
  unfold try_except. destruct (body w) as [[[]|e] w']; reflexivity.
Qed.

(** A loop whose body does nothing does nothing. *)
Lemma for_each_pass {A} (l : list A) (w : World) :
  for_each l (λ _, mret ()) w = (Ok (), w).
Proof.
  induction l as [|x l IH]; [reflexivity|].
  cbn [for_each]. run. exact IH.
Qed.

(* ===================================================================== *)
(** ** The coordinator: [send_notification] *)
(* ===================================================================== *)

(** C1, as stated, fails: for a user who is not connected,
    [send_notification] stores the notification and returns [True], not
    [False]. *)
Lemma send_notification_offline_returns_true :
  connected_users (Samples.world ∅ ∅ []) !! 7 = None
  ∧ fst (send_notification Samples.quiet_env 7 Samples.notification_data
           (Samples.world ∅ ∅ [])) = Ok true
  ∧ fst (send_notification Samples.quiet_env 7 Samples.notification_data
           (Samples.world ∅ ∅ [])) ≠ Ok false.
Proof. split_and!; [reflexivity | reflexivity | discriminate]. Qed.

(** C1, amended: for every user [u] that is not in [connected_users],
    [send_notification] appends exactly one notification, the one it built
    for [u], at the end of [user_notifications[u]], leaves the queues of
    the other users and the registry alone, pushes nothing, and returns
    [True]. *)
Theorem send_notification_offline (E : Env) (w : World) (u : Z) (nd : pydict) :
  connected_users w !! u = None →
  ∃ w',
    send_notification E u nd w = (Ok true, w')
    ∧ user_notifications w' !! u
      = Some (pending_queue w u ++ [notification_built E w u nd])
    ∧ (∀ v, v ≠ u → user_notifications w' !! v = user_notifications w !! v)
    ∧ connected_users w' = connected_users w
    ∧ pushes (trace w') = pushes (trace w).
Proof.
  intros Hoff. unfold send_notification. run. rewrite Hoff. run.
  eexists. split; [reflexivity|]. cbn.
  split_and!.
  - by rewrite lookup_insert_eq.
  - intros v Hv. by rewrite lookup_insert_ne.
  - done.
  - apply pushes_log.
Qed.

Lemma send_notification_offline_witness :
  connected_users (Samples.world ∅ ∅ []) !! 7 = None
  ∧ ∃ w',
      send_notification Samples.quiet_env 7 Samples.notification_data
        (Samples.world ∅ ∅ []) = (Ok true, w')
      ∧ length (pending_queue w' 7) = 1%nat.
Proof.
  split; [reflexivity|].
  destruct (send_notification_offline Samples.quiet_env (Samples.world ∅ ∅ [])
              7 Samples.notification_data)
    as (w' & Hrun & Hq & _); [reflexivity|].
  exists w'. split; [exact Hrun|].
  unfold pending_queue at 1. rewrite Hq. reflexivity.
Defined.

(** C2, as stated, fails: for a connected user whose push Socket.IO
    refuses, [send_notification] pushes nothing and returns [False], not
    [True]. *)
Lemma send_notification_refused_push_returns_false :
  connected_users (Samples.world {[ 7 := "sid-7" ]} ∅ []) !! 7 = Some "sid-7"
  ∧ fst (send_notification Samples.socket_down_env 7 Samples.notification_data
           (Samples.world {[ 7 := "sid-7" ]} ∅ [])) = Ok false
  ∧ fst (send_notification Samples.socket_down_env 7 Samples.notification_data
           (Samples.world {[ 7 := "sid-7" ]} ∅ [])) ≠ Ok true
  ∧ pushes (trace (snd (send_notification Samples.socket_down_env 7
                          Samples.notification_data
                          (Samples.world {[ 7 := "sid-7" ]} ∅ [])))) = [].
Proof. split_and!; [reflexivity | reflexivity | discriminate | reflexivity]. Qed.

(** C2, amended: for every user [u] in [connected_users],
    [send_notification] hands Socket.IO one push, of the notification it
    built and to the room registered for [u], and leaves
    [user_notifications] and the registry unchanged. When Socket.IO takes
    the push, that is the one push made and the result is [True]; when
    Socket.IO raises, no push is made, the failure is logged as an error
    and the result is [False]. *)
Theorem send_notification_online (E : Env) (w : World) (u : Z) (sid : string)
    (nd : pydict) :
  connected_users w !! u = Some sid →
  ∃ w',
    user_notifications w' = user_notifications w
    ∧ connected_users w' = connected_users w
    ∧ match emit_raises E (trace w) "notification"
              (PNotification (notification_built E w u nd)) (Some sid) with
      | None =>
          send_notification E u nd w = (Ok true, w')
          ∧ trace w'
            = trace w
              ++ [Emit "notification"
                       (PNotification (notification_built E w u nd)) (Some sid);
                  Log INFO ("Real-time notification sent to user " +:+ pretty u)]
          ∧ pushes (trace w')
            = pushes (trace w)
              ++ [(PNotification (notification_built E w u nd), Some sid)]
      | Some e =>
          send_notification E u nd w = (Ok false, w')
          ∧ trace w'
            = trace w
              ++ [Log ERROR ("Failed to send notification to user " +:+ pretty u
                             +:+ ": " +:+ exn_msg e)]
          ∧ pushes (trace w') = pushes (trace w)
      end.
Proof.
  intros Hon. unfold send_notification. run. rewrite Hon. run.
  unfold notification_built.
  match goal with
  | |- context [emit_raises E ?h ?ev ?p ?r] =>
      destruct (emit_raises E h ev p r) as [e|]
  end; run.
  - eexists. split_and!; [| |reflexivity| |]; cbn; try done. apply pushes_log.
  - eexists. split_and!; [| |reflexivity| |]; cbn; try done.
    + by rewrite <- app_assoc.
    + by rewrite !pushes_app, app_nil_r.
Qed.

Lemma send_notification_online_witness :
  connected_users (Samples.world {[ 7 := "sid-7" ]} ∅ []) !! 7 = Some "sid-7"
  ∧ ∃ w',
      send_notification Samples.quiet_env 7 Samples.notification_data
        (Samples.world {[ 7 := "sid-7" ]} ∅ []) = (Ok true, w')
      ∧ length (pushes (trace w')) = 1%nat
      ∧ user_notifications w' = ∅.
Proof.
  split; [reflexivity|].
  destruct (send_notification_online Samples.quiet_env
              (Samples.world {[ 7 := "sid-7" ]} ∅ []) 7 "sid-7"
              Samples.notification_data)
    as (w' & Hq & _ & Hrun & _ & Hp); [reflexivity|].
  exists w'. split_and!; [exact Hrun | by rewrite Hp | exact Hq].
Defined.

(* ===================================================================== *)
(** ** The coordinator: connecting and broadcasting *)
(* ===================================================================== *)

Lemma after_nil w : after w [] = w.
Proof. destruct w. unfold after. cbn. by rewrite app_nil_r. Qed.

Lemma after_after w es1 es2 : after (after w es1) es2 = after w (es1 ++ es2).
Proof. unfold after. cbn. by rewrite app_assoc. Qed.

(** Draining a queue into a room: one push per item, first in first out. *)
Lemma for_each_emit (E : Env) (sid : string) (l : list notification) (w : World) :
  emit_ok E →
  for_each l (λ n, socketio_emit E "notification" (PNotification n) (Some sid)) w
  = (Ok (), after w ((λ n, Emit "notification" (PNotification n) (Some sid)) <$> l)).
Proof.
  intros Hok. revert w. induction l as [|n l IH]; intros w.
  - cbn. by rewrite after_nil.
  - cbn [for_each]. run. rewrite Hok. run.
    fold (after w [Emit "notification" (PNotification n) (Some sid)]).
    rewrite IH, after_after. reflexivity.
Qed.

Lemma pushes_drained (sid : string) (l : list notification) :
  pushes ((λ n, Emit "notification" (PNotification n) (Some sid)) <$> l)
  = (λ n, (PNotification n, Some sid)) <$> l.
Proof. induction l as [|n l IH]; [done|]. cbn. by f_equal. Qed.

Lemma emits_app tr1 tr2 : emits (tr1 ++ tr2) = emits tr1 ++ emits tr2.
Proof. apply omap_app. Qed.

Lemma emits_log tr lvl text : emits (tr ++ [Log lvl text]) = emits tr.
Proof. rewrite emits_app. cbn. apply app_nil_r. Qed.

Lemma emits_drained (sid : string) (l : list notification) :
  emits ((λ n, Emit "notification" (PNotification n) (Some sid)) <$> l)
  = (λ n, ("notification", PNotification n, Some sid)) <$> l.
Proof. induction l as [|n l IH]; [done|]. cbn. by f_equal. Qed.

(** C3, as stated, fails: connecting with an empty queue can end in an
    error. With Socket.IO down the handler, which catches nothing, raises
    at the ['connection_established'] event. *)
Lemma handle_connect_empty_queue_raises :
  pending_queue (Samples.world ∅ ∅ []) 7 = []
  ∧ fst (handle_connect Samples.socket_down_env (Some 7) "sid-7"
           (Samples.world ∅ ∅ []))
    = Raise (Exception "socket closed").
Proof. split; reflexivity. Qed.

(** C3, amended: when a user [u] connects on [sid] and Socket.IO takes what
    it is handed, the handler pushes the notifications queued for [u] to
    [sid], one push per queued item and in the order they were queued, and
    leaves [user_notifications[u]] empty; with nothing queued (or no queue
    at all) it makes no notification push and returns normally. After the
    pushes it emits ['connection_established'], so that Socket.IO is called
    once more than there were queued items. When Socket.IO raises on every
    call, the handler raises too, with an empty queue as well: nothing is
    pushed and what was queued stays queued. *)
Theorem handle_connect_drains_queue (E : Env) (w : World) (u : Z) (sid : string) :
  (emit_ok E →
   ∃ w',
     handle_connect E (Some u) sid w = (Ok (), w')
     ∧ trace w'
       = trace w
         ++ [Log INFO ("User " +:+ pretty u +:+ " connected")]
         ++ ((λ n, Emit "notification" (PNotification n) (Some sid))
               <$> pending_queue w u)
         ++ [Emit "connection_established" (PConnectionEstablished (Some u)) None]
     ∧ pushes (trace w')
       = pushes (trace w) ++ ((λ n, (PNotification n, Some sid)) <$> pending_queue w u)
     ∧ length (pushes (trace w'))
       = (length (pushes (trace w)) + length (pending_queue w u))%nat
     ∧ (pending_queue w u = [] → pushes (trace w') = pushes (trace w))
     ∧ length (emits (trace w'))
       = (length (emits (trace w)) + length (pending_queue w u) + 1)%nat
     ∧ user_notifications w' !! u = Some []
     ∧ pending_queue w' u = []
     ∧ (∀ v, v ≠ u → user_notifications w' !! v = user_notifications w !! v)
     ∧ connected_users w' !! u = Some sid)
  ∧ (∀ e,
       (∀ h event data room, emit_raises E h event data room = Some e) →
       ∃ w',
         handle_connect E (Some u) sid w = (Raise e, w')
         ∧ emits (trace w') = emits (trace w)
         ∧ pushes (trace w') = pushes (trace w)
         ∧ pending_queue w' u = pending_queue w u).
Proof.
  split.
  - intros Hok. unfold handle_connect. run.
    rewrite lookup_insert_eq. cbn [default].
    fold (pending_queue w u).
    rewrite (for_each_emit E sid (pending_queue w u) _ Hok). unfold after. run.
    rewrite Hok. run.
    eexists. split; [reflexivity|]. cbn [trace user_notifications connected_users].
    assert (Hp : pushes
              (((trace w ++ [Log INFO ("User " +:+ pretty u +:+ " connected")])
                ++ ((λ n, Emit "notification" (PNotification n) (Some sid))
                      <$> pending_queue w u))
               ++ [Emit "connection_established"
                     (PConnectionEstablished (Some u)) None])
            = pushes (trace w)
              ++ ((λ n, (PNotification n, Some sid)) <$> pending_queue w u)).
    { rewrite !pushes_app, pushes_drained. cbn. by rewrite !app_nil_r. }
    split_and!.
    + by rewrite <- !app_assoc.
    + exact Hp.
    + by rewrite Hp, length_app, length_fmap.
    + intros Hnil. rewrite Hp, Hnil. cbn. by rewrite app_nil_r.
    + rewrite !emits_app, emits_drained, !length_app, length_fmap. cbn. lia.
    + by rewrite lookup_insert_eq.
    + unfold pending_queue. cbn. by rewrite lookup_insert_eq.
    + intros v Hv. by rewrite !lookup_insert_ne.
    + by rewrite lookup_insert_eq.
  - intros e Hdown. unfold handle_connect. run.
    rewrite lookup_insert_eq. cbn [default].
    fold (pending_queue w u).
    destruct (pending_queue w u) as [|n l] eqn:Hq.
    + cbn [for_each id]. run. rewrite Hdown. run.
      eexists. split; [reflexivity|]. cbn [trace user_notifications].
      split_and!.
      * apply emits_log.
      * apply pushes_log.
      * unfold pending_queue. cbn. by rewrite lookup_insert_eq.
    + cbn [for_each id]. run. rewrite Hdown. run.
      eexists. split; [reflexivity|]. cbn [trace user_notifications].
      split_and!.
      * apply emits_log.
      * apply pushes_log.
      * unfold pending_queue at 1. cbn. by rewrite lookup_insert_eq.
Qed.

Lemma handle_connect_drains_queue_witness :
  emit_ok Samples.quiet_env
  ∧ ∃ w',
      handle_connect Samples.quiet_env (Some 7) "sid-7"
        (Samples.world ∅ {[ 7 := [Samples.old_notification; Samples.old_notification] ]} [])
      = (Ok (), w')
      ∧ length (pushes (trace w')) = 2%nat
      ∧ length (emits (trace w')) = 3%nat
      ∧ pending_queue w' 7 = [].
Proof.
  assert (Hok : emit_ok Samples.quiet_env) by (intros h ev p r; reflexivity).
  split; [exact Hok|].
  destruct (proj1 (handle_connect_drains_queue Samples.quiet_env
                     (Samples.world ∅ {[ 7 := [Samples.old_notification;
                                              Samples.old_notification] ]} [])
                     7 "sid-7") Hok)
    as (w' & Hrun & _ & _ & Hlen & _ & Hemits & _ & Hq & _).
  exists w'.
  split_and!; [exact Hrun | rewrite Hlen; reflexivity
              | rewrite Hemits; reflexivity | exact Hq].
Defined.

(** One broadcast round over the registry entries [l]: one push and one
    count per entry. *)
Lemma for_fold_broadcast (E : Env) (b : broadcast_notification)
    (l : list (Z * string)) (acc : Z) (w : World) :
  emit_ok E →
  for_fold l acc
    (λ '(user_id, sid) notified_count,
       socketio_emit E "notification" (PBroadcast b) (Some sid) ;;
       mret (notified_count + 1)) w
  = (Ok (acc + Z.of_nat (length l)),
     after w ((λ '(_, sid), Emit "notification" (PBroadcast b) (Some sid)) <$> l)).
Proof.
  intros Hok. revert acc w. induction l as [|[v sid] l IH]; intros acc w.
  - cbn. by rewrite after_nil, Z.add_0_r.
  - cbn [for_fold]. run. rewrite Hok. run.
    fold (after w [Emit "notification" (PBroadcast b) (Some sid)]).
    rewrite IH, after_after. cbn [length fmap list_fmap]. do 2 f_equal. lia.
Qed.

Lemma pushes_broadcast (b : broadcast_notification) (l : list (Z * string)) :
  pushes ((λ '(_, sid), Emit "notification" (PBroadcast b) (Some sid)) <$> l)
  = (λ '(_, sid), (PBroadcast b, Some sid)) <$> l.
Proof. induction l as [|[v sid] l IH]; [done|]. cbn. by f_equal. Qed.

(** C4 fails on the code: with an administrator on [sid-1] and an ordinary
    user on [sid-2], a broadcast with the role filter [admin] has one target
    by the claim, the administrator; the code pushes to both rooms, the one of
    the ordinary user included, and returns [2]. The docstring of
    [send_broadcast_notification] documents the filter; its loop never looks
    at [user_role]. *)
Lemma broadcast_ignores_role_filter :
  let role_of := λ u : Z, if u =? 1 then "admin" else "user" in
  let w := Samples.world {[ 1 := "sid-1"; 2 := "sid-2" ]} ∅ [] in
  let run := send_broadcast_notification Samples.quiet_env
               Samples.notification_data (Some "admin") w in
  role_filtered role_of (Some "admin") (connected_users w) = [(1, "sid-1")]
  ∧ fst run = Ok 2
  ∧ length (pushes (trace (snd run))) = 2%nat
  ∧ Some "sid-2" ∈ snd <$> pushes (trace (snd run)).
Proof.
  cbv zeta. split_and!; [reflexivity | reflexivity | reflexivity |].
  vm_compute. apply list_elem_of_In. cbn. tauto.
Qed.

(** What a broadcast does, with or without a role filter: when Socket.IO
    takes the pushes, [send_broadcast_notification] pushes one and the same
    payload once to the room of every connected user, returns the number of
    connected users, and leaves [user_notifications] as it was: nothing is
    queued for anyone. Without a filter this is what C4 says. *)
Theorem send_broadcast_notification_reaches_connected (E : Env) (w : World)
    (nd : pydict) (user_role : option string) :
  emit_ok E →
  ∃ w',
    send_broadcast_notification E nd user_role w
    = (Ok (Z.of_nat (size (connected_users w))), w')
    ∧ pushes (trace w')
      = pushes (trace w)
        ++ ((λ '(_, sid), (PBroadcast (broadcast_built E w nd), Some sid))
              <$> map_to_list (connected_users w))
    ∧ (∀ u sid, connected_users w !! u = Some sid
                ↔ (u, sid) ∈ map_to_list (connected_users w))
    ∧ user_notifications w' = user_notifications w
    ∧ connected_users w' = connected_users w.
Proof.
  intros Hok. unfold send_broadcast_notification. run.
  rewrite (for_fold_broadcast E (broadcast_built E w nd)
             (map_to_list (connected_users w)) 0 _ Hok).
  unfold after. run.
  rewrite Z.add_0_l, length_map_to_list.
  eexists. split; [reflexivity|]. cbn [trace user_notifications connected_users].
  split_and!; [| | done | done].
  - rewrite !pushes_app, pushes_broadcast. cbn. by rewrite app_nil_r.
  - intros v sid. by rewrite elem_of_map_to_list.
Qed.

Lemma send_broadcast_notification_reaches_connected_witness :
  emit_ok Samples.quiet_env
  ∧ ∃ w',
      send_broadcast_notification Samples.quiet_env Samples.notification_data
        (Some "admin") (Samples.world {[ 1 := "sid-1"; 2 := "sid-2" ]} ∅ [])
      = (Ok 2, w')
      ∧ user_notifications w' = ∅.
Proof.
  assert (Hok : emit_ok Samples.quiet_env) by (intros h ev p r; reflexivity).
  split; [exact Hok|].
  destruct (send_broadcast_notification_reaches_connected Samples.quiet_env
              (Samples.world {[ 1 := "sid-1"; 2 := "sid-2" ]} ∅ [])
              Samples.notification_data (Some "admin") Hok)
    as (w' & Hrun & _ & _ & Hq & _).
  exists w'. split; [exact Hrun | exact Hq].
Defined.

(* ===================================================================== *)
(** ** The coordinator: events without organizer *)
(* ===================================================================== *)

(** C10: for an event whose [organizer_id] is falsy ([None] or [0]),
    [send_event_notification] notifies nobody (the world is left exactly as
    it was: no push, nothing queued, nothing logged) and still returns [1],
    the value its docstring calls the number of users notified, while
    [send_guest_notification] returns [False] for the same event. *)
Theorem no_organizer_event_notification_returns_one (E : Env) (event : Event)
    (guest : Guest) (notification_type : string) (data : option pydict)
    (w : World) :
  truthy_int (organizer_id event) = false →
  send_event_notification E event notification_type data w = (Ok 1, w)
  ∧ send_guest_notification E guest event notification_type w = (Ok false, w).
Proof.
  intros Hfalsy. unfold send_event_notification, send_guest_notification.
  destruct (organizer_id event) as [oid|]; cbn in Hfalsy.
  - cbn [truthy]. rewrite Hfalsy. split.
    + run. destruct (bool_decide _); run; [|reflexivity].
      by rewrite for_each_pass.
    + run. reflexivity.
  - split.
    + run. destruct (bool_decide _); run; [|reflexivity].
      by rewrite for_each_pass.
    + run. reflexivity.
Qed.

Lemma no_organizer_event_notification_returns_one_witness :
  truthy_int (organizer_id Samples.orphan_event) = false
  ∧ fst (send_event_notification Samples.quiet_env Samples.orphan_event
           "event_cancelled" None (Samples.world ∅ ∅ [])) = Ok 1
  ∧ fst (send_guest_notification Samples.quiet_env Samples.confirmed_guest
           Samples.orphan_event "guest_registered" (Samples.world ∅ ∅ []))
    = Ok false.
Proof.
  split; [reflexivity|].
  destruct (no_organizer_event_notification_returns_one Samples.quiet_env
              Samples.orphan_event Samples.confirmed_guest "event_cancelled"
              None (Samples.world ∅ ∅ []) eq_refl) as [Hev _].
  destruct (no_organizer_event_notification_returns_one Samples.quiet_env
              Samples.orphan_event Samples.confirmed_guest "guest_registered"
              None (Samples.world ∅ ∅ []) eq_refl) as [_ Hguest].
  split; [by rewrite Hev | by rewrite Hguest].
Defined.

(* ===================================================================== *)
(** ** The message templates *)
(* ===================================================================== *)

(** C8: the three message builders are total functions of their arguments
    (they have no effect and cannot raise): for each subtype of its table a
    builder returns that subtype's text, and for every other subtype it
    returns its generic message. *)
Theorem message_builders_total (E : Env) (event : Event) (payment : Payment)
    (guest : Guest) (notification_type : string) :
  (notification_type ∉ ["event_created"; "event_updated"; "event_cancelled";
                        "event_reminder"; "event_started"; "event_completed"] →
   _get_event_message event notification_type
   = "Update for event '" +:+ title event +:+ "'.")
  ∧ (notification_type ∉ ["payment_received"; "payment_failed";
                          "payment_refunded"; "payment_pending"] →
     _get_payment_message E payment notification_type
     = "Payment update for $" +:+ format_2f E (amount payment) +:+ ".")
  ∧ (notification_type ∉ ["guest_registered"; "guest_checked_in";
                          "guest_rsvp_confirmed"; "guest_rsvp_declined"] →
     _get_guest_message guest event notification_type
     = "Guest update for " +:+ guest_name guest +:+ ".")
  ∧ _get_event_message event "event_created"
    = "New event '" +:+ title event +:+ "' has been created."
  ∧ _get_event_message event "event_updated"
    = "Event '" +:+ title event +:+ "' has been updated."
  ∧ _get_event_message event "event_cancelled"
    = "Event '" +:+ title event +:+ "' has been cancelled."
  ∧ _get_event_message event "event_reminder"
    = "Reminder: Event '" +:+ title event +:+ "' is coming up soon."
  ∧ _get_event_message event "event_started"
    = "Event '" +:+ title event +:+ "' has started."
  ∧ _get_event_message event "event_completed"
    = "Event '" +:+ title event +:+ "' has been completed."
  ∧ _get_payment_message E payment "payment_received"
    = "Payment of $" +:+ format_2f E (amount payment) +:+ " has been received."
  ∧ _get_payment_message E payment "payment_failed"
    = "Payment of $" +:+ format_2f E (amount payment) +:+ " has failed."
  ∧ _get_payment_message E payment "payment_refunded"
    = "Payment of $" +:+ format_2f E (amount payment) +:+ " has been refunded."
  ∧ _get_payment_message E payment "payment_pending"
    = "Payment of $" +:+ format_2f E (amount payment) +:+ " is pending."
  ∧ _get_guest_message guest event "guest_registered"
    = guest_name guest +:+ " has registered for '" +:+ title event +:+ "'."
  ∧ _get_guest_message guest event "guest_checked_in"
    = guest_name guest +:+ " has checked in for '" +:+ title event +:+ "'."
  ∧ _get_guest_message guest event "guest_rsvp_confirmed"
    = guest_name guest +:+ " has confirmed RSVP for '" +:+ title event +:+ "'."
  ∧ _get_guest_message guest event "guest_rsvp_declined"
    = guest_name guest +:+ " has declined RSVP for '" +:+ title event +:+ "'.".
Proof.
  split_and!; try reflexivity.
  - intros Hty. unfold _get_event_message, event_messages.
    rewrite !lookup_insert_ne, lookup_singleton_ne; [done|..];
      intros <-; apply Hty; set_solver.
  - intros Hty. unfold _get_payment_message, payment_messages.
    rewrite !lookup_insert_ne, lookup_singleton_ne; [done|..];
      intros <-; apply Hty; set_solver.
  - intros Hty. unfold _get_guest_message, guest_messages.
    rewrite !lookup_insert_ne, lookup_singleton_ne; [done|..];
      intros <-; apply Hty; set_solver.
Qed.

Lemma message_builders_total_witness :
  ("event_postponed" ∉ ["event_created"; "event_updated"; "event_cancelled";
                        "event_reminder"; "event_started"; "event_completed"])
  ∧ _get_event_message (Samples.gala "planned") "event_postponed"
    = "Update for event 'Gala'.".
Proof.
  assert (H : "event_postponed" ∉
              ["event_created"; "event_updated"; "event_cancelled";
               "event_reminder"; "event_started"; "event_completed"]).
  { rewrite list_elem_of_In. cbn. intros H.
    repeat (destruct H as [H|H]; [discriminate H|]). exact H. }
  split; [exact H|].
  destruct (message_builders_total Samples.quiet_env (Samples.gala "planned")
              {| payment_id := 1; amount := Float64 0; payment_type := "ticket";
                 payment_method := "cash"; payment_state := "completed";
                 transaction_id := None; payment_created_at := 0 |}
              Samples.confirmed_guest "event_postponed") as [Hev _].
  exact (Hev H).
Defined.

(* ===================================================================== *)
(** ** Cleaning up notifications *)
(* ===================================================================== *)

Lemma cleanup_old_notifications_run (E : Env) (days_kept : Z) (w : World) :
  cleanup_old_notifications E days_kept w
  = (Ok 0,
     {| connected_users := connected_users w;
        user_notifications := user_notifications w;
        db := db w;
        trace := trace w ++ [Log INFO "Cleaned up 0 old notifications"];
        ticks := S (ticks w) |}).
Proof. unfold cleanup_old_notifications. run. reflexivity. Qed.

(** C5 fails on the code: with one notification of day 60 held for user 7
    and the clock at day 100, the cutoff of thirty days is day 70 and the
    notification is older than it; [cleanup_old_notifications], documented to
    clean up old notifications and to return their number, returns [0], not
    [1], and after the job the notification is still held. *)
Lemma cleanup_keeps_old_notifications :
  let w := Samples.world ∅ {[ 7 := [Samples.old_notification] ]} [] in
  let cutoff := clock Samples.quiet_env 0 - days 30 in
  List.filter (older_than cutoff) (stored_notifications w)
  = [Samples.old_notification]
  ∧ fst (cleanup_old_notifications Samples.quiet_env 30 w) = Ok 0
  ∧ fst (cleanup_notifications Samples.quiet_env w) = Ok ()
  ∧ List.filter (older_than cutoff)
      (stored_notifications (snd (cleanup_notifications Samples.quiet_env w)))
    = [Samples.old_notification].
Proof. cbv zeta. split_and!; reflexivity. Qed.

(** What the cleanup does on every store: the notification_cleanup job
    returns normally and leaves [user_notifications], the registry and the
    database as they were, and the cleanup it calls,
    [cleanup_old_notifications], returns [0] for every number of days. *)
Theorem cleanup_notifications_removes_nothing (E : Env) (w : World) :
  (∃ w',
     cleanup_notifications E w = (Ok (), w')
     ∧ user_notifications w' = user_notifications w
     ∧ stored_notifications w' = stored_notifications w
     ∧ connected_users w' = connected_users w
     ∧ db w' = db w)
  ∧ (∀ days_kept, ∃ w',
       cleanup_old_notifications E days_kept w = (Ok 0, w')
       ∧ user_notifications w' = user_notifications w).
Proof.
  split.
  - unfold cleanup_notifications, cleanup_notifications_body, app_context.
    destruct (app E) as [config|]; run.
    + rewrite cleanup_old_notifications_run. run. eexists. by split_and!.
    + eexists. by split_and!.
  - intros days_kept. rewrite cleanup_old_notifications_run.
    eexists. by split.
Qed.

(* ===================================================================== *)
(** ** Failures stay inside the adapters *)
(* ===================================================================== *)

Lemma send_notification_total (E : Env) (u : Z) (nd : pydict) (w : World) :
  ∃ b w', send_notification E u nd w = (Ok b, w').
Proof.
  unfold send_notification. run.
  destruct (connected_users w !! u) as [sid|]; run; [|by eexists _, _].
  match goal with
  | |- context [emit_raises E ?h ?ev ?p ?r] => destruct (emit_raises E h ev p r)
  end; run; by eexists _, _.
Qed.

Lemma send_email_total (E : Env) (to : option string) (subject : string)
    (template_name : string) (context : option pydict) (w : World) :
  ∃ b w', EmailService.send_email E to subject template_name context w = (Ok b, w').
Proof.
  unfold EmailService.send_email, app_config, app_context,
    EmailService._render_email_template, EmailService.mail_send.
  destruct (app E) as [config|]; run; [|by eexists _, _].
  destruct (truthy _); run; [|by eexists _, _].
  match goal with
  | |- context [jinja_render E ?src ?ctx] =>
      destruct (jinja_render E src ctx) as [e|body]
  end; run; [by eexists _, _|].
  match goal with
  | |- context [mail_send_raises E ?h ?m] => destruct (mail_send_raises E h m)
  end; run; by eexists _, _.
Qed.

Lemma send_sms_total (E : Env) (to : option string) (message : string)
    (w : World) :
  ∃ b w', SMSService.send_sms E to message w = (Ok b, w').
Proof.
  unfold SMSService.send_sms, app_config, SMSService.messages_create.
  destruct (twilio_client E); run; [|by eexists _, _].
  destruct (app E) as [config|]; run; [|by eexists _, _].
  match goal with
  | |- context [twilio_create E ?h ?body ?from_ ?to'] =>
      destruct (twilio_create E h body from_ to') as [e|sid]
  end; run; by eexists _, _.
Qed.

(** C6: [send_notification], [send_email] and [send_sms] return a boolean
    from every world, for every input and whatever the collaborators do:
    no exception leaves them. When the push of [send_notification] raises
    [e], the function writes one error entry that carries [str(e)] to the
    log and returns [False], with the queues untouched. *)
Theorem notify_and_adapters_never_raise (E : Env) (w : World) :
  (∀ u nd, ∃ b w', send_notification E u nd w = (Ok b, w'))
  ∧ (∀ to subject template_name context, ∃ b w',
       EmailService.send_email E to subject template_name context w = (Ok b, w'))
  ∧ (∀ to message, ∃ b w', SMSService.send_sms E to message w = (Ok b, w'))
  ∧ (∀ u nd sid e,
       connected_users w !! u = Some sid →
       emit_raises E (trace w) "notification"
         (PNotification (notification_built E w u nd)) (Some sid) = Some e →
       ∃ w',
         send_notification E u nd w = (Ok false, w')
         ∧ trace w'
           = trace w ++ [Log ERROR ("Failed to send notification to user "
                                    +:+ pretty u +:+ ": " +:+ exn_msg e)]
         ∧ user_notifications w' = user_notifications w).
Proof.
  split_and!.
  - intros. apply send_notification_total.
  - intros. apply send_email_total.
  - intros. apply send_sms_total.
  - intros u nd sid e Hon Hemit. unfold send_notification. run.
    rewrite Hon. run. unfold notification_built in Hemit. rewrite Hemit. run.
    eexists. by split_and!.
Qed.

Lemma notify_and_adapters_never_raise_witness :
  connected_users (Samples.world {[ 7 := "sid-7" ]} ∅ []) !! 7 = Some "sid-7"
  ∧ ∃ w',
      send_notification Samples.socket_down_env 7 Samples.notification_data
        (Samples.world {[ 7 := "sid-7" ]} ∅ []) = (Ok false, w')
      ∧ trace w'
        = [Log ERROR "Failed to send notification to user 7: socket closed"].
Proof.
  split; [reflexivity|].
  destruct (notify_and_adapters_never_raise Samples.socket_down_env
              (Samples.world {[ 7 := "sid-7" ]} ∅ [])) as (_ & _ & _ & Hfail).
  destruct (Hfail 7 Samples.notification_data "sid-7"
              (Exception "socket closed")) as (w' & Hrun & Htrace & _);
    [reflexivity | reflexivity |].
  exists w'. split; [exact Hrun | exact Htrace].
Defined.

(* ===================================================================== *)
(** ** Failures stay inside the jobs *)
(* ===================================================================== *)

(** C7: every job of [_register_jobs] is its [try] block under a handler
    that catches the exception and logs it: from every world the job function
    returns normally; when its block raises [e], what the block had done so
    far stays done, the rest of the block is not run, and the job adds one
    error entry with [str(e)] to the log. *)
Theorem scheduled_jobs_catch_exceptions (E : Env) :
  Forall2
    (λ job '(body, prefix), ∀ w,
       match body w with
       | (Ok _, w') => job_func job w = (Ok (), w')
       | (Raise e, w') =>
           job_func job w = (Ok (), logged w' ERROR (prefix +:+ exn_msg e))
       end)
    (registered_jobs E) (job_blocks E)
  ∧ (∀ job w, job ∈ registered_jobs E → ∃ w', job_func job w = (Ok (), w')).
Proof.
  assert (Hall : Forall2
    (λ job '(body, prefix), ∀ w,
       match body w with
       | (Ok _, w') => job_func job w = (Ok (), w')
       | (Raise e, w') =>
           job_func job w = (Ok (), logged w' ERROR (prefix +:+ exn_msg e))
       end)
    (registered_jobs E) (job_blocks E)).
  { unfold registered_jobs, job_blocks.
    repeat (constructor; [intros w; apply try_except_logs|]).
    constructor. }
  split; [exact Hall|].
  intros job w Hin.
  destruct (list_elem_of_lookup_1 _ _ Hin) as [i Hi].
  destruct (Forall2_lookup_l _ _ _ _ _ Hall Hi) as ([body prefix] & _ & Hjob).
  specialize (Hjob w). destruct (body w) as [[[]|e] w']; eauto.
Qed.

Lemma scheduled_jobs_catch_exceptions_witness :
  ∃ job,
    job ∈ registered_jobs Samples.db_down_env
    ∧ job_id job = "daily_event_reminders"
    ∧ ∃ w', job_func job (Samples.world ∅ ∅ []) = (Ok (), w').
Proof.
  exists {| job_func := send_daily_event_reminders Samples.db_down_env;
            job_trigger := CronTrigger None 8 0;
            job_id := "daily_event_reminders";
            job_name := "Daily Event Reminders" |}.
  assert (Hin : {| job_func := send_daily_event_reminders Samples.db_down_env;
                   job_trigger := CronTrigger None 8 0;
                   job_id := "daily_event_reminders";
                   job_name := "Daily Event Reminders" |}
                ∈ registered_jobs Samples.db_down_env) by apply list_elem_of_here.
  split_and!; [exact Hin | reflexivity |].
  exact (proj2 (scheduled_jobs_catch_exceptions Samples.db_down_env) _
           (Samples.world ∅ ∅ []) Hin).
Defined.

(** With the database down, the block of the daily reminders raises at its
    query; the job returns and the log holds the failure. *)
Example daily_reminders_with_database_down :
  fst (send_daily_event_reminders_body Samples.db_down_env (Samples.world ∅ ∅ []))
  = Raise (Exception "database is locked")
  ∧ fst (send_daily_event_reminders Samples.db_down_env (Samples.world ∅ ∅ []))
    = Ok ()
  ∧ trace (snd (send_daily_event_reminders Samples.db_down_env
                  (Samples.world ∅ ∅ [])))
    = [Log ERROR "Failed to send daily event reminders: database is locked"].
Proof. split_and!; reflexivity. Qed.


(* ===================================================================== *)
(** ** The daily reminders *)
(* ===================================================================== *)

(** One step of a sequence whose first action returns. *)
Lemma bind_ok {A B} (m : M A) (k : A → M B) (w : World) (a : A) (w' : World) :
  m w = (Ok a, w') → (m ≫= k) w = k a w'.
Proof. intros H. unfold mbind, M_bind, bind. by rewrite H. Qed.

Section Delivering.
Context (E : Env) (Hok : transports_ok E).

Lemma send_email_delivers (to : option string) (subject template_name : string)
    (context : option pydict) (w : World) :
  ∃ w',
    EmailService.send_email E to subject template_name context w = (Ok true, w')
    ∧ deliveries (trace w') = deliveries (trace w) ++ [EmailTo to subject].
Proof using Hok.
  destruct Hok as [(config & Happ & Huser) Hjinja Hmail _ _].
  unfold EmailService.send_email, app_config, app_context,
    EmailService._render_email_template, EmailService.mail_send.
  rewrite Happ. run. rewrite Huser. run.
  match goal with
  | |- context [jinja_render E ?src ?ctx] =>
      destruct (Hjinja src ctx) as [body ->]
  end. run. rewrite Hmail. run.
  eexists. split; [reflexivity|]. cbn [trace].
  rewrite !deliveries_app. cbn. by rewrite app_nil_r.
Qed.

Lemma send_sms_delivers (to : option string) (message : string) (w : World) :
  ∃ w',
    SMSService.send_sms E to message w = (Ok true, w')
    ∧ deliveries (trace w') = deliveries (trace w) ++ [SmsTo to message].
Proof using Hok.
  destruct Hok as [(config & Happ & _) _ _ Hon Htwilio].
  unfold SMSService.send_sms, app_config, SMSService.messages_create.
  rewrite Hon, Happ. run.
  match goal with
  | |- context [twilio_create E ?h ?body ?from_ ?to'] =>
      destruct (Htwilio h body from_ to') as [sid ->]
  end. run.
  eexists. split; [reflexivity|]. cbn [trace].
  rewrite !deliveries_app. cbn. by rewrite app_nil_r.
Qed.

Lemma email_reminder_delivers (guest : Guest) (event : Event) (w : World) :
  is_Some (organizer event) →
  ∃ w',
    EmailService.send_event_reminder E guest event 2 w = (Ok true, w')
    ∧ deliveries (trace w')
      = deliveries (trace w)
        ++ [EmailTo (Some (guest_email guest))
              ("Reminder: " +:+ title event +:+ " in 2 days")].
Proof using Hok.
  intros [organizer_ Horg].
  unfold EmailService.send_event_reminder, EmailService.organizer_email.
  rewrite Horg. 
  erewrite bind_ok; [|reflexivity].
  apply send_email_delivers.
Qed.

Lemma sms_reminder_delivers (guest : Guest) (event : Event) (w : World) :
  ∃ w',
    SMSService.send_event_reminder E guest event 2 w = (Ok true, w')
    ∧ deliveries (trace w')
      = deliveries (trace w)
        ++ [SmsTo (guest_phone guest)
              ("REMINDER: " +:+ title event +:+ " is in 2 days! Date: "
               +:+ strftime E "%b %d, %I:%M %p" (start_date event)
               +:+ ", Venue: " +:+ venue event
               +:+ ". Ticket: " +:+ str_opt (ticket_number guest)
               +:+ ". We look forward to seeing you!")].
Proof using Hok.
  unfold SMSService.send_event_reminder. apply send_sms_delivers.
Qed.

(** The inner loop of the job over the guests of one event. *)
Lemma guest_loop_delivers (event : Event) (l : list Guest) (acc : Z) (w : World) :
  is_Some (organizer event) →
  ∃ n w',
    for_fold l acc (λ guest reminders_sent,
      if wants_reminder guest
      then
        EmailService.send_event_reminder E guest event 2 ;;
        when (truthy_str (guest_phone guest))
             (SMSService.send_event_reminder E guest event 2 ;; mret ()) ;;
        mret (reminders_sent + 1)
      else mret reminders_sent) w = (Ok n, w')
    ∧ deliveries (trace w')
      = deliveries (trace w) ++ (l ≫= reminders_due E event).
Proof using Hok.
  intros Horg. revert acc w. induction l as [|guest l IH]; intros acc w.
  - exists acc, w. split; [reflexivity|]. cbn. by rewrite app_nil_r.
  - cbn [for_fold]. rewrite bind_cons. unfold reminders_due at 1.
    destruct (wants_reminder guest).
    + destruct (email_reminder_delivers guest event w Horg) as (w1 & Hmail & D1).
      destruct (truthy_str (guest_phone guest)).
      * destruct (sms_reminder_delivers guest event w1) as (w2 & Hsms & D2).
        destruct (IH (acc + 1) w2) as (n & w' & Hrest & D3).
        exists n, w'. split.
        -- erewrite bind_ok; [exact Hrest|].
           erewrite bind_ok; [|exact Hmail].
           erewrite bind_ok; [reflexivity|].
           unfold when. erewrite bind_ok; [|exact Hsms]. reflexivity.
        -- rewrite D3, D2, D1. by rewrite <- !app_assoc.
      * destruct (IH (acc + 1) w1) as (n & w' & Hrest & D3).
        exists n, w'. split.
        -- erewrite bind_ok; [exact Hrest|].
           erewrite bind_ok; [|exact Hmail]. reflexivity.
        -- rewrite D3, D1. by rewrite <- !app_assoc.
    + destruct (IH acc w) as (n & w' & Hrest & D3).
      exists n, w'. split; [|exact D3].
      erewrite bind_ok; [exact Hrest|]. reflexivity.
Qed.

(** The outer loop over the selected events. *)
Lemma event_loop_delivers (l : list Event) (acc : Z) (w : World) :
  (∀ event, event ∈ l → is_Some (organizer event)) →
  ∃ n w',
    for_fold l acc (λ event reminders_sent,
      for_fold (guests event) reminders_sent (λ guest reminders_sent,
        if wants_reminder guest
        then
          EmailService.send_event_reminder E guest event 2 ;;
          when (truthy_str (guest_phone guest))
               (SMSService.send_event_reminder E guest event 2 ;; mret ()) ;;
          mret (reminders_sent + 1)
        else mret reminders_sent)) w = (Ok n, w')
    ∧ deliveries (trace w')
      = deliveries (trace w)
        ++ (l ≫= λ event, guests event ≫= reminders_due E event).
Proof using Hok.
  revert acc w. induction l as [|event l IH]; intros acc w Horg.
  - exists acc, w. split; [reflexivity|]. cbn. by rewrite app_nil_r.
  - destruct (guest_loop_delivers event (guests event) acc w) as (n1 & w1 & Hg & D1).
    { apply Horg. left. }
    destruct (IH n1 w1) as (n & w' & Hrest & D2).
    { intros ev Hev. apply Horg. by right. }
    exists n, w'. split.
    + cbn [for_fold]. erewrite bind_ok; [|exact Hg]. exact Hrest.
    + rewrite D2, D1, bind_cons. by rewrite <- app_assoc.
Qed.
End Delivering.

Lemma db_query_ok {A} (E : Env) (op : db_op) (answer : Database → A) (w : World) :
  db_raises E (trace w) op = None →
  db_query E op answer w = (Ok (answer (db w)), w).
Proof. intros H. unfold db_query. run. rewrite H. reflexivity. Qed.

Lemma transports_ok_quiet : transports_ok Samples.quiet_env.
Proof.
  split.
  - exists Samples.config. split; reflexivity.
  - intros src context. by eexists.
  - reflexivity.
  - reflexivity.
  - intros h body from_ to. by eexists.
Qed.

(** C9, amended: when the job runs with working transports and database,
    it selects the events that start between one day after its first clock
    reading and three days after its second and whose status is planned or
    ongoing, and hands the transports exactly the reminders owed to their
    guests, event by event and guest by guest: one e-mail, followed by one
    SMS if the guest has a phone number, to each guest whose RSVP is
    confirmed and who is not checked in, and nothing to a guest whose RSVP
    is pending. *)
Theorem daily_reminders_reach_confirmed_guests (E : Env) (w : World) :
  transports_ok E →
  db_raises E (trace w) QEvents = None →
  (∀ event, event ∈ events (db w) → is_Some (organizer event)) →
  (∃ w',
     send_daily_event_reminders E w = (Ok (), w')
     ∧ deliveries (trace w') = deliveries (trace w) ++ reminders_owed E w)
  ∧ (∀ event, event ∈ reminded_events E w
              ↔ event ∈ events (db w)
                ∧ in_reminder_window E w event = true
                ∧ status event ∈ ["planned"; "ongoing"])
  ∧ (∀ event guest,
       rsvp_status guest = "confirmed" → check_in_status guest = false →
       reminders_due E event guest
       = EmailTo (Some (guest_email guest))
                 ("Reminder: " +:+ title event +:+ " in 2 days")
         :: (if truthy_str (guest_phone guest)
             then [SmsTo (guest_phone guest)
                     ("REMINDER: " +:+ title event +:+ " is in 2 days! Date: "
                      +:+ strftime E "%b %d, %I:%M %p" (start_date event)
                      +:+ ", Venue: " +:+ venue event
                      +:+ ". Ticket: " +:+ str_opt (ticket_number guest)
                      +:+ ". We look forward to seeing you!")]
             else []))
  ∧ (∀ event guest,
       rsvp_status guest = "pending" → reminders_due E event guest = []).
Proof.
  intros Hok Hdb Horg. split_and!.
  - destruct (mail_configured E Hok) as (config & Happ & _).
    pose (w2 := {| connected_users := connected_users w;
                   user_notifications := user_notifications w;
                   db := db w; trace := trace w; ticks := S (S (ticks w)) |}).
    destruct (event_loop_delivers E Hok (reminded_events E w) 0 w2)
      as (n & w3 & Hloop & D).
    { intros event Hev. apply Horg.
      apply list_elem_of_In in Hev. apply filter_In in Hev as [Hev _].
      by apply list_elem_of_In. }
    exists (logged w3 INFO ("Sent " +:+ pretty n +:+ " daily event reminders")).
    split.
    + unfold send_daily_event_reminders, try_except.
      assert (Hbody : send_daily_event_reminders_body E w
                      = (Ok (), logged w3 INFO
                                  ("Sent " +:+ pretty n +:+ " daily event reminders"))).
      { unfold send_daily_event_reminders_body, app_context. rewrite Happ.
        erewrite bind_ok; [|reflexivity].
        erewrite bind_ok; [|reflexivity]. cbv zeta.
        erewrite bind_ok; [|reflexivity]. cbv zeta.
        erewrite bind_ok; [|apply db_query_ok; exact Hdb].
        erewrite bind_ok; [|exact Hloop]. reflexivity. }
      by rewrite Hbody.
    + cbn [logged trace]. rewrite deliveries_app, D. cbn. by rewrite app_nil_r.
  - intros event. unfold reminded_events.
    rewrite !list_elem_of_In, filter_In, andb_true_iff.
    unfold planned_or_ongoing. rewrite bool_decide_eq_true, list_elem_of_In. tauto.
  - intros event guest Hrsvp Hcheck. unfold reminders_due, wants_reminder.
    by rewrite Hrsvp, Hcheck.
  - intros event guest Hrsvp. unfold reminders_due, wants_reminder.
    by rewrite Hrsvp.
Qed.

(** C9, as stated, fails: a cancelled event that starts in two days is
    inside the window and has a confirmed guest who is not checked in, with
    a phone number; the job sends that guest neither e-mail nor SMS. *)
Lemma cancelled_event_gets_no_reminder :
  let w := Samples.world ∅ ∅ [Samples.gala "cancelled"] in
  in_reminder_window Samples.quiet_env w (Samples.gala "cancelled") = true
  ∧ Samples.confirmed_guest ∈ guests (Samples.gala "cancelled")
  ∧ rsvp_status Samples.confirmed_guest = "confirmed"
  ∧ check_in_status Samples.confirmed_guest = false
  ∧ send_daily_event_reminders Samples.quiet_env w
    = (Ok (), logged {| connected_users := ∅; user_notifications := ∅;
                        db := db w; trace := []; ticks := 2 |}
                INFO "Sent 0 daily event reminders")
  ∧ deliveries (trace (snd (send_daily_event_reminders Samples.quiet_env w))) = [].
Proof.
  cbv zeta. split_and!; try reflexivity. apply list_elem_of_here.
Qed.

Lemma daily_reminders_reach_confirmed_guests_witness :
  let w := Samples.world ∅ ∅ [Samples.gala "planned"] in
  transports_ok Samples.quiet_env
  ∧ ∃ w',
      send_daily_event_reminders Samples.quiet_env w = (Ok (), w')
      ∧ deliveries (trace w')
        = [EmailTo (Some "grace@example.org") "Reminder: Gala in 2 days";
           SmsTo (Some "+265991000001")
             "REMINDER: Gala is in 2 days! Date: %b %d, %I:%M %p, Venue: Town Hall. Ticket: T-10. We look forward to seeing you!"].
Proof.
  cbv zeta. split; [exact transports_ok_quiet|].
  destruct (daily_reminders_reach_confirmed_guests Samples.quiet_env
              (Samples.world ∅ ∅ [Samples.gala "planned"]) transports_ok_quiet)
    as [(w' & Hrun & Hd) _]; [reflexivity | |].
  { intros event Hev. apply list_elem_of_In in Hev. destruct Hev as [<-|[]].
    by eexists. }
  exists w'. split; [exact Hrun|]. rewrite Hd. reflexivity.
Defined.

(* ===================================================================== *)
(** ** More on the coordinator *)
(* ===================================================================== *)

(** What one [send_notification] does, in each of its three cases. *)
Lemma send_notification_cases (E : Env) (u : Z) (nd : pydict) (w : World) :
  send_notification E u nd w
  = match connected_users w !! u with
    | None =>
        (Ok true,
         {| connected_users := connected_users w;
            user_notifications :=
              <[u := pending_queue w u ++ [notification_at E (ticks w) u nd]]>
                (user_notifications w);
            db := db w;
            trace := trace w ++ [Log INFO ("Notification stored for user "
                                           +:+ pretty u +:+ " (offline)")];
            ticks := S (S (ticks w)) |})
    | Some sid =>
        match emit_raises E (trace w) "notification"
                (PNotification (notification_at E (ticks w) u nd)) (Some sid) with
        | None =>
            (Ok true,
             {| connected_users := connected_users w;
                user_notifications := user_notifications w;
                db := db w;
                trace := trace w
                  ++ [Emit "notification"
                        (PNotification (notification_at E (ticks w) u nd)) (Some sid);
                      Log INFO ("Real-time notification sent to user " +:+ pretty u)];
                ticks := S (S (ticks w)) |})
        | Some e =>
            (Ok false,
             {| connected_users := connected_users w;
                user_notifications := user_notifications w;
                db := db w;
                trace := trace w
                  ++ [Log ERROR ("Failed to send notification to user "
                                 +:+ pretty u +:+ ": " +:+ exn_msg e)];
                ticks := S (S (ticks w)) |})
        end
    end.
Proof.
  unfold send_notification, notification_at, pending_queue. run.
  destruct (connected_users w !! u) as [sid|]; run; [|reflexivity].
  match goal with
  | |- context [emit_raises E ?h ?ev ?p ?r] => destruct (emit_raises E h ev p r)
  end; run; [reflexivity|].
  by rewrite <- app_assoc.
Qed.

(** Sending to an offline user, several times. *)
Lemma send_all_offline (E : Env) (u : Z) (nds : list pydict) (w : World) :
  connected_users w !! u = None →
  ∃ w',
    send_all E u nds w = (Ok (), w')
    ∧ pending_queue w' u
      = pending_queue w u ++ notifications_built E (ticks w) u nds
    ∧ (∀ v, v ≠ u → user_notifications w' !! v = user_notifications w !! v)
    ∧ connected_users w' = connected_users w
    ∧ pushes (trace w') = pushes (trace w).
Proof.
  unfold send_all. revert w. induction nds as [|nd nds IH]; intros w Hoff.
  - exists w. split_and!; try done. cbn. by rewrite app_nil_r.
  - cbn [for_each].
    pose proof (send_notification_cases E u nd w) as Hsend. rewrite Hoff in Hsend.
    erewrite bind_ok; [|erewrite bind_ok; [|exact Hsend]; reflexivity].
    match goal with |- context [for_each nds ?f ?w1] =>
      destruct (IH w1) as (w' & Hrun & Hq & Hother & Hcu & Hp) end; [exact Hoff|].
    exists w'. split; [exact Hrun|].
    cbn [connected_users trace ticks] in *. split_and!.
    + rewrite Hq. unfold pending_queue at 1. cbn [user_notifications].
      rewrite lookup_insert_eq. cbn. by rewrite <- app_assoc.
    + intros v Hv. rewrite (Hother v Hv). cbn. by rewrite lookup_insert_ne.
    + exact Hcu.
    + rewrite Hp. apply pushes_log.
Qed.

(** A connect that Socket.IO serves. *)
Lemma handle_connect_run (E : Env) (w : World) (u : Z) (sid : string) :
  emit_ok E →
  handle_connect E (Some u) sid w
  = (Ok (),
     {| connected_users := <[u := sid]> (connected_users w);
        user_notifications :=
          <[u := []]> (<[u := pending_queue w u]> (user_notifications w));
        db := db w;
        trace := trace w
          ++ [Log INFO ("User " +:+ pretty u +:+ " connected")]
          ++ ((λ n, Emit "notification" (PNotification n) (Some sid))
                <$> pending_queue w u)
          ++ [Emit "connection_established" (PConnectionEstablished (Some u)) None];
        ticks := ticks w |}).
Proof.
  intros Hok. unfold handle_connect. run.
  rewrite lookup_insert_eq. cbn [default]. fold (pending_queue w u).
  rewrite (for_each_emit E sid (pending_queue w u) _ Hok). unfold after. run.
  rewrite Hok. run. by rewrite <- !app_assoc.
Qed.

Lemma pushes_connect (tr : list effect) (u : Z) (sid : string)
    (l : list notification) :
  pushes (tr ++ [Log INFO ("User " +:+ pretty u +:+ " connected")]
             ++ ((λ n, Emit "notification" (PNotification n) (Some sid)) <$> l)
             ++ [Emit "connection_established"
                   (PConnectionEstablished (Some u)) None])
  = pushes tr ++ ((λ n, (PNotification n, Some sid)) <$> l).
Proof. rewrite !pushes_app, pushes_drained. cbn. by rewrite app_nil_r. Qed.

(** Store and forward: what is sent to a user who is not connected reaches
    the user at the next connect, after what was pending already, in the
    order it was sent and once; then nothing is pending. *)
Theorem offline_notifications_arrive_on_connect (E : Env) (w : World) (u : Z)
    (sid : string) (nds : list pydict) :
  emit_ok E →
  connected_users w !! u = None →
  ∃ w',
    (send_all E u nds ;; handle_connect E (Some u) sid) w = (Ok (), w')
    ∧ pushes (trace w')
      = pushes (trace w)
        ++ ((λ n, (PNotification n, Some sid))
              <$> (pending_queue w u ++ notifications_built E (ticks w) u nds))
    ∧ pending_queue w' u = []
    ∧ connected_users w' !! u = Some sid.
Proof.
  intros Hok Hoff.
  destruct (send_all_offline E u nds w Hoff) as (w1 & Hsend & Hq & _ & _ & Hp).
  eexists. split.
  { erewrite bind_ok; [|exact Hsend]. by apply handle_connect_run. }
  cbn [trace connected_users]. split_and!.
  - by rewrite pushes_connect, Hp, Hq.
  - unfold pending_queue at 1. cbn. by rewrite lookup_insert_eq.
  - by rewrite lookup_insert_eq.
Qed.

Lemma offline_notifications_arrive_on_connect_witness :
  emit_ok Samples.quiet_env
  ∧ ∃ w',
      (send_all Samples.quiet_env 7
         [Samples.notification_data; Samples.notification_data] ;;
       handle_connect Samples.quiet_env (Some 7) "sid-7") (Samples.world ∅ ∅ [])
      = (Ok (), w')
      ∧ length (pushes (trace w')) = 2%nat
      ∧ pending_queue w' 7 = [].
Proof.
  assert (Hok : emit_ok Samples.quiet_env) by (intros h ev p r; reflexivity).
  split; [exact Hok|].
  destruct (offline_notifications_arrive_on_connect Samples.quiet_env
              (Samples.world ∅ ∅ []) 7 "sid-7"
              [Samples.notification_data; Samples.notification_data] Hok)
    as (w' & Hrun & Hp & Hq & _); [reflexivity|].
  exists w'. split_and!; [exact Hrun | by rewrite Hp | exact Hq].
Defined.

(** What a disconnect does. *)
Lemma handle_disconnect_run (u : Z) (w : World) :
  ∃ w1,
    handle_disconnect (Some u) w = (Ok (), w1)
    ∧ connected_users w1 = delete u (connected_users w)
    ∧ user_notifications w1 = user_notifications w
    ∧ db w1 = db w
    ∧ trace w1 = trace w ++ [Log INFO ("User " +:+ pretty u +:+ " disconnected")]
    ∧ ticks w1 = ticks w.
Proof.
  unfold handle_disconnect. run.
  destruct (bool_decide (is_Some (connected_users w !! u))) eqn:Hin; run.
  - eexists. split; [reflexivity|]. cbn. by split_and!.
  - eexists. split; [reflexivity|]. cbn. split_and!; try done.
    apply bool_decide_eq_false in Hin.
    symmetry. apply delete_id. by apply eq_None_not_Some.
Qed.

(** Disconnecting takes the user out of the registry, whatever session it
    is that closes, and touches neither the queues nor the other users; a
    notification sent next is queued, not pushed. Nothing here goes
    through Socket.IO, so nothing can fail. *)
Theorem notify_after_disconnect_is_queued (E : Env) (w : World) (u : Z)
    (nd : pydict) :
  ∃ w',
    (handle_disconnect (Some u) ;; send_notification E u nd) w = (Ok true, w')
    ∧ connected_users w' = delete u (connected_users w)
    ∧ pending_queue w' u
      = pending_queue w u ++ [notification_at E (ticks w) u nd]
    ∧ (∀ v, v ≠ u → user_notifications w' !! v = user_notifications w !! v)
    ∧ pushes (trace w') = pushes (trace w).
Proof.
  destruct (handle_disconnect_run u w) as (w1 & Hrun & Hcu & Hun & _ & Htr & Ht).
  pose proof (send_notification_cases E u nd w1) as Hsend.
  rewrite Hcu, lookup_delete_eq in Hsend.
  eexists. split; [erewrite bind_ok; [exact Hsend|exact Hrun]|].
  cbn [connected_users user_notifications trace]. split_and!.
  - reflexivity.
  - unfold pending_queue. cbn. rewrite lookup_insert_eq, Hun, Ht. done.
  - intros v Hv. by rewrite lookup_insert_ne, Hun.
  - by rewrite Htr, !pushes_log.
Qed.

(** Pushing never touches the registry, the queues or the database,
    whether Socket.IO takes the push or not. *)
Lemma socketio_emit_frame (E : Env) (event : string) (data : payload)
    (room : option string) (w : World) :
  ∃ r w',
    socketio_emit E event data room w = (r, w')
    ∧ connected_users w' = connected_users w
    ∧ user_notifications w' = user_notifications w
    ∧ db w' = db w.
Proof.
  unfold socketio_emit. run.
  destruct (emit_raises E (trace w) event data room); run;
    eexists _, _; by split_and!.
Qed.

Lemma for_each_emit_frame (E : Env) (sid : string) (l : list notification)
    (w : World) :
  ∃ r w',
    for_each l (λ n, socketio_emit E "notification" (PNotification n) (Some sid)) w
    = (r, w')
    ∧ connected_users w' = connected_users w
    ∧ user_notifications w' = user_notifications w
    ∧ db w' = db w.
Proof.
  revert w. induction l as [|n l IH]; intros w.
  - eexists _, _. by split_and!.
  - cbn [for_each].
    destruct (socketio_emit_frame E "notification" (PNotification n) (Some sid) w)
      as ([[]|e] & w1 & Hrun & Hcu & Hun & Hdb).
    + destruct (IH w1) as (r & w' & Hrest & Hcu' & Hun' & Hdb').
      exists r, w'. split; [by erewrite bind_ok; [|exact Hrun]|].
      split_and!; congruence.
    + exists (Raise e), w1. split; [|by split_and!].
      unfold mbind, M_bind, bind. by rewrite Hrun.
Qed.

(** A drain that fails half way: the items before the failing one are
    pushed, and the loop raises. *)
Lemma for_each_emit_fails (E : Env) (sid : string) (l1 l2 : list notification)
    (n : notification) (e : exn) (w : World) :
  (∀ h m, m ∈ l1 →
     emit_raises E h "notification" (PNotification m) (Some sid) = None) →
  (∀ h, emit_raises E h "notification" (PNotification n) (Some sid) = Some e) →
  for_each (l1 ++ n :: l2)
    (λ n, socketio_emit E "notification" (PNotification n) (Some sid)) w
  = (Raise e,
     after w ((λ n, Emit "notification" (PNotification n) (Some sid)) <$> l1)).
Proof.
  intros Hgood Hbad. revert w. induction l1 as [|m l1 IH]; intros w.
  - rewrite app_nil_l. cbn [for_each]. run. rewrite Hbad. run. by rewrite after_nil.
  - rewrite <- app_comm_cons. cbn [for_each]. run. rewrite Hgood by left. run.
    fold (after w [Emit "notification" (PNotification m) (Some sid)]).
    rewrite IH, after_after; [done|].
    intros h m' Hm'. apply Hgood. by right.
Qed.

(** A connect during which Socket.IO refuses a push: the handler raises
    at the first refused notification; the user is in the registry by then,
    and the queue is as it was, with the notifications already pushed still
    in it. *)
Theorem failed_drain_keeps_the_queue (E : Env) (w : World) (u : Z) (sid : string)
    (l1 l2 : list notification) (n : notification) (e : exn) :
  pending_queue w u = l1 ++ n :: l2 →
  (∀ h m, m ∈ l1 →
     emit_raises E h "notification" (PNotification m) (Some sid) = None) →
  (∀ h, emit_raises E h "notification" (PNotification n) (Some sid) = Some e) →
  ∃ w',
    handle_connect E (Some u) sid w = (Raise e, w')
    ∧ connected_users w' !! u = Some sid
    ∧ pending_queue w' u = l1 ++ n :: l2
    ∧ pushes (trace w')
      = pushes (trace w) ++ ((λ n, (PNotification n, Some sid)) <$> l1).
Proof.
  intros Hq Hgood Hbad. unfold handle_connect. run.
  rewrite lookup_insert_eq. cbn [default]. fold (pending_queue w u).
  rewrite Hq, (for_each_emit_fails E sid l1 l2 n e _ Hgood Hbad).
  unfold after. run.
  eexists. split; [reflexivity|]. cbn [connected_users trace]. split_and!.
  - by rewrite lookup_insert_eq.
  - unfold pending_queue. cbn. by rewrite lookup_insert_eq.
  - rewrite !pushes_app, pushes_drained. cbn. by rewrite app_nil_r.
Qed.

Lemma failed_drain_keeps_the_queue_witness :
  let w := Samples.world ∅ {[ 7 := [Samples.old_notification;
                                    Samples.poisoned_notification;
                                    Samples.old_notification] ]} [] in
  pending_queue w 7
  = [Samples.old_notification] ++ Samples.poisoned_notification
                                  :: [Samples.old_notification]
  ∧ ∃ w',
      handle_connect Samples.flaky_env (Some 7) "sid-7" w
      = (Raise (Exception "payload refused"), w')
      ∧ connected_users w' !! 7 = Some "sid-7"
      ∧ length (pending_queue w' 7) = 3%nat
      ∧ length (pushes (trace w')) = 1%nat.
Proof.
  cbv zeta. split; [reflexivity|].
  destruct (failed_drain_keeps_the_queue Samples.flaky_env
              (Samples.world ∅ {[ 7 := [Samples.old_notification;
                                        Samples.poisoned_notification;
                                        Samples.old_notification] ]} [])
              7 "sid-7" [Samples.old_notification] [Samples.old_notification]
              Samples.poisoned_notification (Exception "payload refused"))
    as (w' & Hrun & Hcu & Hq & Hp).
  - reflexivity.
  - intros h m Hm. apply list_elem_of_In in Hm. destruct Hm as [<-|[]].
    reflexivity.
  - intros h. reflexivity.
  - exists w'. split_and!; [exact Hrun | exact Hcu | by rewrite Hq | by rewrite Hp].
Defined.

(* --------------------------------------------------------------------- *)
(** *** Actions that preserve an observation, actions that return *)

Section Preserves.
Context {B : Type} (obs : World → B).

Lemma preserves_ret {A} (a : A) : preserves obs (mret a : M A).
Proof. by intros w. Qed.

Lemma preserves_raise {A} (e : exn) : preserves obs (raise e : M A).
Proof. by intros w. Qed.

Lemma preserves_bind {A C} (m : M A) (k : A → M C) :
  preserves obs m → (∀ a, preserves obs (k a)) → preserves obs (m ≫= k).
Proof.
  intros Hm Hk w. unfold mbind, M_bind, bind.
  specialize (Hm w). destruct (m w) as [[a|e] w1]; cbn in *; [|done].
  by rewrite (Hk a w1).
Qed.

Lemma preserves_try {A} (body : M A) (handler : exn → M A) :
  preserves obs body → (∀ e, preserves obs (handler e)) →
  preserves obs (try_except body handler).
Proof.
  intros Hm Hk w. unfold try_except.
  specialize (Hm w). destruct (body w) as [[a|e] w1]; cbn in *; [done|].
  by rewrite (Hk e w1).
Qed.

Lemma preserves_for_fold {A S} (l : list A) (body : A → S → M S) (acc : S) :
  (∀ x acc, preserves obs (body x acc)) → preserves obs (for_fold l acc body).
Proof.
  intros Hbody. revert acc. induction l as [|x l IH]; intros acc.
  - apply preserves_ret.
  - cbn [for_fold]. apply preserves_bind; [apply Hbody|]. intros acc'. apply IH.
Qed.

Lemma preserves_for_each {A} (l : list A) (body : A → M unit) :
  (∀ x, preserves obs (body x)) → preserves obs (for_each l body).
Proof.
  intros Hbody. induction l as [|x l IH].
  - apply preserves_ret.
  - cbn [for_each]. apply preserves_bind; [apply Hbody|]. intros _. apply IH.
Qed.

Lemma preserves_when (c : bool) (body : M unit) :
  preserves obs body → preserves obs (when c body).
Proof. intros H. destruct c; [exact H | apply preserves_ret]. Qed.

Lemma preserves_get_world : preserves obs get_world.
Proof. by intros w. Qed.

Lemma preserves_lift_sum {A} (r : exn + A) : preserves obs (lift_sum r).
Proof. destruct r; [apply preserves_raise | apply preserves_ret]. Qed.

End Preserves.

Lemma coordinator_perform (e : effect) : preserves coordinator_state (perform e).
Proof. by intros w. Qed.

Lemma coordinator_set_db (d : Database) : preserves coordinator_state (set_db d).
Proof. by intros w. Qed.

Lemma coordinator_datetime_now (E : Env) :
  preserves coordinator_state (datetime_now E).
Proof. by intros w. Qed.

Lemma pushed_perform (e : effect) :
  push_of e = None → preserves pushed (perform e).
Proof.
  intros He w. unfold pushed. cbn. rewrite pushes_app. cbn. rewrite He.
  apply app_nil_r.
Qed.

Lemma pushed_set_db (d : Database) : preserves pushed (set_db d).
Proof. by intros w. Qed.

Lemma pushed_set_user_notifications (un : gmap Z (list notification)) :
  preserves pushed (set_user_notifications un).
Proof. by intros w. Qed.

Lemma pushed_datetime_now (E : Env) : preserves pushed (datetime_now E).
Proof. by intros w. Qed.

Lemma delivered_perform (e : effect) :
  delivery_of e = None → preserves delivered (perform e).
Proof.
  intros He w. unfold delivered. cbn. rewrite deliveries_app. cbn. rewrite He.
  apply app_nil_r.
Qed.

Lemma delivered_set_user_notifications (un : gmap Z (list notification)) :
  preserves delivered (set_user_notifications un).
Proof. by intros w. Qed.

Lemma delivered_set_connected_users (cu : gmap Z string) :
  preserves delivered (set_connected_users cu).
Proof. by intros w. Qed.

Lemma delivered_datetime_now (E : Env) : preserves delivered (datetime_now E).
Proof. by intros w. Qed.

(** Solves [preserves] goals by following the structure of the action. *)
Ltac preserving :=
  repeat first
    [ apply preserves_ret | apply preserves_raise
    | apply preserves_get_world | apply preserves_lift_sum
    | apply coordinator_perform | apply coordinator_set_db
    | apply coordinator_datetime_now
    | apply pushed_perform; reflexivity | apply pushed_set_db
    | apply pushed_set_user_notifications | apply pushed_datetime_now
    | apply delivered_perform; reflexivity
    | apply delivered_set_user_notifications
    | apply delivered_set_connected_users | apply delivered_datetime_now
    | apply preserves_when
    | apply preserves_try; [|intros ?]
    | apply preserves_for_fold; intros ? ?
    | apply preserves_for_each; intros ?
    | apply preserves_bind; [|intros ?]
    | match goal with
      | |- preserves _ (match ?x with _ => _ end) => destruct x
      | |- context [let '(_, _) := ?x in _] => is_var x; destruct x
      end ].

Lemma coordinator_socketio_emit (E : Env) (event : string) (data : payload)
    (room : option string) :
  preserves coordinator_state (socketio_emit E event data room).
Proof. unfold socketio_emit. preserving. Qed.

Lemma returns_try {A} (body : M A) (handler : exn → M A) :
  (∀ e, returns (handler e)) → returns (try_except body handler).
Proof.
  intros Hh w. unfold try_except. destruct (body w) as [[a|e] w1]; [by eexists _, _|].
  apply Hh.
Qed.

Lemma returns_log_then {A} (lvl : log_level) (text : string) (a : A) :
  returns (perform (Log lvl text) ;; mret a).
Proof. intros w. by eexists _, _. Qed.

(** A broadcast touches neither the registry nor the queues, and returns,
    whatever Socket.IO does. *)
Lemma send_broadcast_notification_frame (E : Env) (nd : pydict)
    (user_role : option string) :
  preserves coordinator_state (send_broadcast_notification E nd user_role)
  ∧ returns (send_broadcast_notification E nd user_role).
Proof.
  split.
  - unfold send_broadcast_notification, logger_info, logger_error.
    preserving.
  - apply returns_try. intros e. apply returns_log_then.
Qed.

(** [run] in a hypothesis. *)
Ltac run_in H :=
  repeat progress
    (try unfold mbind, M_bind, mret, M_ret, bind, ret, try_except, get_world,
       perform, set_user_notifications, set_connected_users, set_db,
       logger_info, logger_error, logger_warning, datetime_now, socketio_emit,
       raise, when, lift_sum in H;
     cbn [fst snd negb default trace connected_users user_notifications db
          ticks] in H).

(** [send_notification] keeps the invariant, whatever Socket.IO does. *)
Lemma send_notification_keeps (E : Env) (u : Z) (nd : pydict) (w : World) :
  connected_have_empty_queues w →
  ∃ b w',
    send_notification E u nd w = (Ok b, w')
    ∧ connected_have_empty_queues w'
    ∧ connected_users w' = connected_users w
    ∧ (∀ v, v ≠ u → user_notifications w' !! v = user_notifications w !! v).
Proof.
  intros Hinv. rewrite send_notification_cases.
  destruct (connected_users w !! u) as [sid|] eqn:Hu.
  - destruct (emit_raises E _ _ _ _); eexists _, _; by split_and!.
  - eexists _, _. split; [reflexivity|]. split_and!; [|done|].
    + intros v Hv. cbn in Hv. unfold pending_queue. cbn.
      destruct (decide (v = u)) as [->|Hne].
      * rewrite Hu in Hv. by destruct Hv.
      * rewrite lookup_insert_ne by done. by apply Hinv.
    + intros v Hv. cbn. by rewrite lookup_insert_ne.
Qed.

(** What [handle_connect] leaves when it returns. *)
Lemma handle_connect_returns (E : Env) (u : Z) (sid : string) (w w' : World) :
  handle_connect E (Some u) sid w = (Ok (), w') →
  connected_users w' = <[u := sid]> (connected_users w)
  ∧ user_notifications w'
    = <[u := []]> (<[u := pending_queue w u]> (user_notifications w)).
Proof.
  unfold handle_connect. run. rewrite lookup_insert_eq. cbn [default].
  fold (pending_queue w u).
  match goal with
  | |- context [for_each ?l ?f ?w0] =>
      destruct (for_each_emit_frame E sid l w0)
        as ([[]|e] & w1 & Hrun & Hcu & Hun & _)
  end; run_in Hrun; rewrite Hrun; run; [|discriminate].
  destruct (emit_raises E _ _ _ _); run; [discriminate|].
  intros [= <-]. cbn in *. by rewrite Hcu, Hun.
Qed.

(** An action that leaves the coordinator alone keeps the invariant. *)
Lemma keeps_invariant {A} (m : M A) (w : World) :
  preserves coordinator_state m → connected_have_empty_queues w →
  connected_have_empty_queues (snd (m w)).
Proof.
  intros Hm Hinv v Hv. specialize (Hm w). injection Hm as Hcu Hun.
  unfold pending_queue. rewrite Hun. apply Hinv. by rewrite <- Hcu.
Qed.

(** One call keeps the invariant. *)
Lemma run_call_keeps (E : Env) (c : coordinator_call) (w w' : World) :
  connected_have_empty_queues w →
  run_call E c w = (Ok (), w') →
  connected_have_empty_queues w'.
Proof.
  intros Hinv. destruct c as [[u|] sid|[u|]|u nd|nd role|event ty data
                              |payment u ty|guest event ty]; cbn [run_call].
  - intros Hrun. destruct (handle_connect_returns E u sid w w' Hrun) as [Hcu Hun].
    intros v Hv. unfold pending_queue. rewrite Hun.
    destruct (decide (v = u)) as [->|Hne].
    + by rewrite lookup_insert_eq.
    + rewrite !lookup_insert_ne by done.
      rewrite Hcu, lookup_insert_ne in Hv by done. by apply Hinv.
  - intros Hrun.
    pose proof (keeps_invariant (handle_connect E None sid) w) as H.
    rewrite Hrun in H. apply H; [|exact Hinv].
    unfold handle_connect. preserving.
  - destruct (handle_disconnect_run u w) as (w1 & -> & Hcu & Hun & _).
    intros [= <-] v Hv. unfold pending_queue. rewrite Hun.
    apply Hinv. rewrite Hcu in Hv.
    destruct (decide (v = u)) as [->|Hne].
    + rewrite lookup_delete_eq in Hv. by destruct Hv.
    + by rewrite lookup_delete_ne in Hv.
  - unfold handle_disconnect. run. by intros [= <-].
  - destruct (send_notification_keeps E u nd w Hinv) as (b & w1 & Hrun & Hinv' & _).
    erewrite bind_ok; [|exact Hrun]. by intros [= <-].
  - intros Hrun.
    pose proof (keeps_invariant
                  (send_broadcast_notification E nd role ;; mret ()) w) as H.
    rewrite Hrun in H. apply H; [|exact Hinv].
    apply preserves_bind; [apply send_broadcast_notification_frame|].
    intros _. preserving.
  - unfold send_event_notification, try_except. cbv zeta.
    match goal with
    | |- context [send_notification E _ ?nd0] => set (ndata := nd0)
    end.
    assert (Hstep : ∃ w1,
      (match organizer_id event with
       | Some oid => when (truthy (VInt oid))
                          (send_notification E oid ndata ;; mret ())
       | None => mret ()
       end) w = (Ok (), w1) ∧ connected_have_empty_queues w1).
    { destruct (organizer_id event) as [oid|]; [|by exists w].
      unfold when. destruct (truthy (VInt oid)); [|by exists w].
      destruct (send_notification_keeps E oid ndata w Hinv)
        as (b & w1 & Hrun & Hinv' & _).
      exists w1. split; [|exact Hinv']. by erewrite bind_ok; [|exact Hrun]. }
    destruct Hstep as (w1 & Hrun & Hinv').
    erewrite (bind_ok _ _ w);
      [|erewrite (bind_ok _ _ w); [|exact Hrun];
        destruct (bool_decide _);
        [erewrite bind_ok; [|apply for_each_pass]|]; reflexivity].
    by intros [= <-].
  - unfold send_payment_notification, try_except. cbv zeta.
    match goal with
    | |- context [send_notification E u ?nd0] =>
        destruct (send_notification_keeps E u nd0 w Hinv)
          as (b & w1 & Hrun & Hinv' & _)
    end.
    erewrite bind_ok; [|rewrite Hrun; reflexivity]. by intros [= <-].
  - unfold send_guest_notification, try_except. cbv zeta.
    destruct (organizer_id event) as [oid|]; [|run; by intros [= <-]].
    destruct (truthy (VInt oid)); [|run; by intros [= <-]].
    match goal with
    | |- context [send_notification E oid ?nd0] =>
        destruct (send_notification_keeps E oid nd0 w Hinv)
          as (b & w1 & Hrun & Hinv' & _)
    end.
    erewrite bind_ok; [|rewrite Hrun; reflexivity]. by intros [= <-].
Qed.

(** The invariant of the coordinator: along any sequence of connects,
    disconnects, sends and broadcasts that return, no notification is
    pending for a connected user. It holds when the service starts, with
    nobody connected. *)
Theorem no_pending_notification_for_connected_users (E : Env)
    (calls : list coordinator_call) (w w' : World) :
  connected_have_empty_queues w →
  for_each calls (run_call E) w = (Ok (), w') →
  connected_have_empty_queues w'.
Proof.
  revert w. induction calls as [|c calls IH]; intros w Hinv.
  - cbn. by intros [= <-].
  - cbn [for_each]. unfold mbind, M_bind, bind.
    destruct (run_call E c w) as [[[]|e] w1] eqn:Hc; [|discriminate].
    apply IH. by eapply run_call_keeps.
Qed.

Lemma no_pending_notification_for_connected_users_witness :
  let calls := [Notify 7 Samples.notification_data;
                Connect (Some 7) "sid-7";
                Notify 7 Samples.notification_data;
                Disconnect (Some 7);
                Notify 7 Samples.notification_data;
                Connect (Some 8) "sid-8"] in
  let w' := snd (for_each calls (run_call Samples.quiet_env)
                   (Samples.world ∅ ∅ [])) in
  connected_have_empty_queues (Samples.world ∅ ∅ [])
  ∧ connected_have_empty_queues w'
  ∧ connected_users w' !! 8 = Some "sid-8"
  ∧ length (pending_queue w' 7) = 1%nat.
Proof.
  cbv zeta.
  assert (H0 : connected_have_empty_queues (Samples.world ∅ ∅ [])).
  { intros u Hu. reflexivity. }
  split; [exact H0|]. split; [|split; reflexivity].
  apply (no_pending_notification_for_connected_users Samples.quiet_env
           [Notify 7 Samples.notification_data;
            Connect (Some 7) "sid-7";
            Notify 7 Samples.notification_data;
            Disconnect (Some 7);
            Notify 7 Samples.notification_data;
            Connect (Some 8) "sid-8"] (Samples.world ∅ ∅ []) _ H0).
  vm_compute. reflexivity.
Defined.

(** [send_event_notification] returns [1] for every event, type and data:
    when the organizer is offline (the notification is queued), when the
    push succeeds, and also when Socket.IO refuses the push and nobody is
    notified. It changes no queue but the organizer's and never the
    registry. *)
Theorem send_event_notification_always_returns_one (E : Env) (event : Event)
    (notification_type : string) (data : option pydict) (w : World) :
  ∃ w',
    send_event_notification E event notification_type data w = (Ok 1, w')
    ∧ connected_users w' = connected_users w
    ∧ (∀ v, organizer_id event ≠ Some v →
            user_notifications w' !! v = user_notifications w !! v).
Proof.
  unfold send_event_notification, try_except. cbv zeta.
  match goal with
  | |- context [send_notification E _ ?nd0] => set (ndata := nd0)
  end.
  assert (Hstep : ∃ w1,
    (match organizer_id event with
     | Some oid => when (truthy (VInt oid))
                        (send_notification E oid ndata ;; mret ())
     | None => mret ()
     end) w = (Ok (), w1)
    ∧ connected_users w1 = connected_users w
    ∧ (∀ v, organizer_id event ≠ Some v →
            user_notifications w1 !! v = user_notifications w !! v)).
  { destruct (organizer_id event) as [oid|]; [|by exists w].
    unfold when. destruct (truthy (VInt oid)); [|by exists w].
    pose proof (send_notification_cases E oid ndata w) as Hsend.
    destruct (connected_users w !! oid) as [sid|].
    - destruct (emit_raises E _ _ _ _);
        (eexists; split; [by erewrite bind_ok; [|exact Hsend]|by split]).
    - eexists. split; [by erewrite bind_ok; [|exact Hsend]|]. split; [done|].
      intros v Hv. cbn. rewrite lookup_insert_ne; [done|congruence]. }
  destruct Hstep as (w1 & Hrun & Hcu & Hun).
  exists w1. split; [|by split].
  erewrite (bind_ok _ _ w); [|exact Hrun].
  destruct (bool_decide _); [|reflexivity].
  by erewrite bind_ok; [|apply for_each_pass].
Qed.

(** A refused push for the organizer: [send_event_notification] still
    reports one user notified. *)
Example event_notification_counts_a_refused_push :
  let w := Samples.world {[ 1 := "sid-1" ]} ∅ [] in
  let run := send_event_notification Samples.socket_down_env
               (Samples.gala "planned") "event_updated" None w in
  fst run = Ok 1
  ∧ pushes (trace (snd run)) = []
  ∧ user_notifications (snd run) = ∅.
Proof. cbv zeta. split_and!; reflexivity. Qed.

(** [send_notification] reads four keys of [notification_data]: ['type'],
    ['title'], ['message'] and ['data']. Two dicts that agree on them are
    treated alike; the ['subtype'] that the event, payment and guest senders
    put in is in neither the pushed nor the queued notification. *)
Theorem send_notification_reads_four_keys (E : Env) (u : Z) (nd nd' : pydict)
    (w : World) :
  same_notification_fields nd nd' →
  send_notification E u nd w = send_notification E u nd' w.
Proof.
  intros (Hty & Htitle & Hmsg & Hdata).
  rewrite !send_notification_cases. unfold notification_at, dict_get.
  by rewrite Hty, Htitle, Hmsg, Hdata.
Qed.

Lemma send_notification_reads_four_keys_witness :
  same_notification_fields
    (<["subtype" := VStr "guest_registered"]> Samples.notification_data)
    Samples.notification_data
  ∧ send_notification Samples.quiet_env 7
      (<["subtype" := VStr "guest_registered"]> Samples.notification_data)
      (Samples.world ∅ ∅ [])
    = send_notification Samples.quiet_env 7 Samples.notification_data
        (Samples.world ∅ ∅ []).
Proof.
  assert (H : same_notification_fields
                (<["subtype" := VStr "guest_registered"]> Samples.notification_data)
                Samples.notification_data).
  { split_and!; reflexivity. }
  split; [exact H|].
  exact (send_notification_reads_four_keys Samples.quiet_env 7 _ _ _ H).
Defined.

(** The bookkeeping of [get_connected_users]: [total_connected] counts the
    users of the list, each user once. A connect adds one to the total for a
    user who was not connected and leaves the total alone for a user who was
    (the new room replaces the old one); a disconnect takes one off the
    total for a user who was connected. *)
Theorem connected_user_bookkeeping (E : Env) (w : World) (u : Z) (sid : string) :
  total_connected (get_connected_users w)
  = Z.of_nat (length (connected_ids (get_connected_users w)))
  ∧ NoDup (connected_ids (get_connected_users w))
  ∧ (∀ v, v ∈ connected_ids (get_connected_users w)
          ↔ is_Some (connected_users w !! v))
  ∧ (emit_ok E →
     ∃ w',
       handle_connect E (Some u) sid w = (Ok (), w')
       ∧ connected_users w' !! u = Some sid
       ∧ total_connected (get_connected_users w')
         = total_connected (get_connected_users w)
           + match connected_users w !! u with Some _ => 0 | None => 1 end)
  ∧ (∃ w',
       handle_disconnect (Some u) w = (Ok (), w')
       ∧ connected_users w' !! u = None
       ∧ total_connected (get_connected_users w')
         = total_connected (get_connected_users w)
           - match connected_users w !! u with Some _ => 1 | None => 0 end).
Proof.
  unfold get_connected_users. cbn [total_connected connected_ids].
  split_and!.
  - by rewrite length_fmap, length_map_to_list.
  - apply NoDup_fst_map_to_list.
  - intros v. rewrite list_elem_of_fmap. split.
    + intros ([v' sid'] & -> & Hin). apply elem_of_map_to_list in Hin. by eexists.
    + intros [sid' Hv]. exists (v, sid'). split; [done|].
      by apply elem_of_map_to_list.
  - intros Hok. eexists. split; [by apply handle_connect_run|].
    cbn [connected_users]. split; [by rewrite lookup_insert_eq|].
    destruct (connected_users w !! u) as [old|] eqn:Hu.
    + rewrite <- (insert_delete_id (connected_users w) u old Hu) at 2.
      rewrite <- (insert_delete_eq (connected_users w) u sid).
      rewrite !map_size_insert_None by apply lookup_delete_eq. lia.
    + rewrite map_size_insert_None by done. lia.
  - destruct (handle_disconnect_run u w) as (w' & Hrun & Hcu & _).
    exists w'. split; [exact Hrun|]. rewrite Hcu.
    split; [apply lookup_delete_eq|].
    destruct (connected_users w !! u) as [old|] eqn:Hu.
    + rewrite <- (insert_delete_id (connected_users w) u old Hu) at 2.
      rewrite map_size_insert_None by apply lookup_delete_eq. lia.
    + rewrite delete_id by done. lia.
Qed.

Lemma connected_user_bookkeeping_witness :
  emit_ok Samples.quiet_env
  ∧ ∃ w',
      handle_connect Samples.quiet_env (Some 7) "sid-new"
        (Samples.world {[ 7 := "sid-old"; 8 := "sid-8" ]} ∅ []) = (Ok (), w')
      ∧ connected_users w' !! 7 = Some "sid-new"
      ∧ total_connected (get_connected_users w') = 2.
Proof.
  assert (Hok : emit_ok Samples.quiet_env) by (intros h ev p r; reflexivity).
  split; [exact Hok|].
  destruct (connected_user_bookkeeping Samples.quiet_env
              (Samples.world {[ 7 := "sid-old"; 8 := "sid-8" ]} ∅ []) 7 "sid-new")
    as (_ & _ & _ & Hconn & _).
  destruct (Hconn Hok) as (w' & Hrun & Hcu & Htotal).
  exists w'. split_and!; [exact Hrun | exact Hcu | by rewrite Htotal].
Defined.

(* ===================================================================== *)
(** ** More on the e-mail adapter *)
(* ===================================================================== *)

Lemma send_email_preserves (E : Env) (to : option string)
    (subject template_name : string) (context : option pydict) :
  preserves coordinator_state
    (EmailService.send_email E to subject template_name context)
  ∧ preserves pushed (EmailService.send_email E to subject template_name context)
  ∧ preserves db (EmailService.send_email E to subject template_name context).
Proof.
  unfold EmailService.send_email, app_config, app_context,
    EmailService._render_email_template, EmailService.mail_send,
    logger_info, logger_warning, logger_error.
  split_and!; preserving; by intros w.
Qed.

(** What [send_email] reports is what it did: it returns [True] exactly
    when it handed one message, for [to] and with [subject], to Flask-Mail,
    and [False] when it handed over nothing; a [False] leaves exactly one
    warning or error in the log. It never touches the coordinator or the
    database and pushes nothing. *)
Theorem send_email_outcome (E : Env) (to : option string)
    (subject template_name : string) (context : option pydict) (w : World) :
  ∃ b w',
    EmailService.send_email E to subject template_name context w = (Ok b, w')
    ∧ deliveries (trace w')
      = deliveries (trace w) ++ (if b then [EmailTo to subject] else [])
    ∧ (b = false → ∃ lvl text, lvl ≠ INFO ∧ trace w' = trace w ++ [Log lvl text])
    ∧ coordinator_state w' = coordinator_state w
    ∧ pushed w' = pushed w
    ∧ db w' = db w.
Proof.
  destruct (send_email_preserves E to subject template_name context)
    as (Hc & Hp & Hd).
  specialize (Hc w). specialize (Hp w). specialize (Hd w).
  assert (H : ∃ b w',
    EmailService.send_email E to subject template_name context w = (Ok b, w')
    ∧ deliveries (trace w')
      = deliveries (trace w) ++ (if b then [EmailTo to subject] else [])
    ∧ (b = false → ∃ lvl text, lvl ≠ INFO ∧ trace w' = trace w ++ [Log lvl text])).
  { unfold EmailService.send_email, app_config, app_context,
      EmailService._render_email_template, EmailService.mail_send.
    destruct (app E) as [config|]; run.
    2:{ eexists _, _. split; [reflexivity|]. cbn. split.
        - rewrite deliveries_app. done.
        - intros _. by eexists ERROR, _. }
    destruct (truthy _); run.
    2:{ eexists _, _. split; [reflexivity|]. cbn. split.
        - rewrite deliveries_app. done.
        - intros _. by eexists WARNING, _. }
    match goal with
    | |- context [jinja_render E ?src ?ctx] =>
        destruct (jinja_render E src ctx) as [e|body]
    end; run.
    { eexists _, _. split; [reflexivity|]. cbn. split.
      - rewrite deliveries_app. done.
      - intros _. by eexists ERROR, _. }
    match goal with
    | |- context [mail_send_raises E ?h ?m] => destruct (mail_send_raises E h m)
    end; run.
    { eexists _, _. split; [reflexivity|]. cbn. split.
      - rewrite deliveries_app. done.
      - intros _. by eexists ERROR, _. }
    eexists _, _. split; [reflexivity|]. cbn. split; [|done].
    rewrite !deliveries_app. cbn. by rewrite app_nil_r. }
  destruct H as (b & w' & Hrun & Hdel & Hlog).
  rewrite Hrun in Hc, Hp, Hd. exists b, w'. by split_and!.
Qed.

(** Without configuration [send_email] sends nothing and says so once:
    before [init_app] it logs the error of reaching into [None] and returns
    [False]; with an application whose ['MAIL_USERNAME'] is missing or empty
    it logs the warning and returns [False], without reading the clock or
    rendering the template. *)
Theorem send_email_without_configuration (E : Env) (to : option string)
    (subject template_name : string) (context : option pydict) (w : World) :
  (app E = None →
   EmailService.send_email E to subject template_name context w
   = (Ok false,
      logged w ERROR ("Failed to send email to " +:+ str_opt to
                      +:+ ": 'NoneType' object has no attribute 'config'")))
  ∧ (∀ config,
       app E = Some config →
       truthy (dict_get config "MAIL_USERNAME" VNone) = false →
       EmailService.send_email E to subject template_name context w
       = (Ok false, logged w WARNING "Email not configured. Skipping email send.")).
Proof.
  unfold EmailService.send_email, app_config. split.
  - intros ->. run. reflexivity.
  - intros config -> Huser. run. rewrite Huser. run. reflexivity.
Qed.

Lemma send_email_without_configuration_witness :
  app Samples.unconfigured_env = Some ∅
  ∧ EmailService.send_email Samples.unconfigured_env (Some "grace@example.org")
      "Reminder" "event_reminder" None (Samples.world ∅ ∅ [])
    = (Ok false,
       logged (Samples.world ∅ ∅ []) WARNING
         "Email not configured. Skipping email send.").
Proof.
  split; [reflexivity|].
  apply (proj2 (send_email_without_configuration Samples.unconfigured_env
                  (Some "grace@example.org") "Reminder" "event_reminder" None
                  (Samples.world ∅ ∅ [])) ∅); reflexivity.
Defined.

(** A template name outside the six of the table selects the empty
    template: what is rendered is the empty text, whatever the context.
    The three names the scheduler uses for its reports and alerts are
    outside the table. *)
Theorem unknown_template_renders_empty_text (E : Env) (template_name : string)
    (context : pydict) (w : World) :
  (template_name ∉ ["event_invitation"; "rsvp_confirmation"; "payment_receipt";
                    "event_reminder"; "feedback_request"; "vendor_welcome"] →
   EmailService._render_email_template E template_name context w
   = (match jinja_render E "" context with
      | inl e => Raise e
      | inr body => Ok body
      end, w))
  ∧ Forall (λ name, EmailService.templates !! name = None)
           ["daily_report"; "weekly_report"; "system_alert"].
Proof.
  split.
  - intros Hname. unfold EmailService._render_email_template, EmailService.templates.
    rewrite !lookup_insert_ne, lookup_singleton_ne;
      [|intros <-; apply Hname; set_solver..].
    cbn [default]. by destruct (jinja_render E "" context).
  - repeat constructor.
Qed.

Lemma unknown_template_renders_empty_text_witness :
  ("daily_report" ∉ ["event_invitation"; "rsvp_confirmation"; "payment_receipt";
                     "event_reminder"; "feedback_request"; "vendor_welcome"])
  ∧ EmailService._render_email_template Samples.quiet_env "daily_report"
      {[ "events_created" := VInt 3 ]} (Samples.world ∅ ∅ [])
    = (Ok "", Samples.world ∅ ∅ []).
Proof.
  assert (H : "daily_report" ∉
              ["event_invitation"; "rsvp_confirmation"; "payment_receipt";
               "event_reminder"; "feedback_request"; "vendor_welcome"]).
  { rewrite list_elem_of_In. cbn. intros H.
    repeat (destruct H as [H|H]; [discriminate H|]). exact H. }
  split; [exact H|].
  exact (proj1 (unknown_template_renders_empty_text Samples.quiet_env
                  "daily_report" {[ "events_created" := VInt 3 ]}
                  (Samples.world ∅ ∅ [])) H).
Defined.

(** The e-mail senders that read [event.organizer] are not covered by the
    [try] of [send_email]: for an event without organizer the reminder, the
    vendor mail and the invitation raise to their caller, with nothing sent
    or logged. The feedback request, the RSVP confirmation and the payment
    receipt read no organizer and return for every event. *)
Theorem email_senders_need_an_organizer (E : Env) (guest : Guest)
    (vendor : Vendor) (payment : Payment) (event : Event) (days_before : Z)
    (description : pyval) (rsvp user_mail : string) (w : World) :
  organizer event = None →
  EmailService.send_event_reminder E guest event days_before w
  = (Raise (Exception "'NoneType' object has no attribute 'email'"), w)
  ∧ EmailService.send_vendor_welcome E vendor event w
    = (Raise (Exception "'NoneType' object has no attribute 'email'"), w)
  ∧ EmailService.send_event_invitation E guest event description w
    = (Raise (Exception "'NoneType' object has no attribute 'username'"), w)
  ∧ (∃ b w', EmailService.send_feedback_request E guest event w = (Ok b, w'))
  ∧ (∃ b w', EmailService.send_rsvp_confirmation E guest event rsvp w = (Ok b, w'))
  ∧ (∃ b w', EmailService.send_payment_receipt E payment event user_mail w
             = (Ok b, w')).
Proof.
  intros Horg. split_and!.
  - unfold EmailService.send_event_reminder, EmailService.organizer_email.
    rewrite Horg. reflexivity.
  - unfold EmailService.send_vendor_welcome, EmailService.organizer_email.
    rewrite Horg. reflexivity.
  - unfold EmailService.send_event_invitation. rewrite Horg. reflexivity.
  - unfold EmailService.send_feedback_request. cbv zeta. apply send_email_total.
  - unfold EmailService.send_rsvp_confirmation. cbv zeta. apply send_email_total.
  - unfold EmailService.send_payment_receipt. cbv zeta. apply send_email_total.
Qed.

Lemma email_senders_need_an_organizer_witness :
  organizer Samples.orphan_event = None
  ∧ fst (EmailService.send_event_reminder Samples.quiet_env
           Samples.confirmed_guest Samples.orphan_event 2 (Samples.world ∅ ∅ []))
    = Raise (Exception "'NoneType' object has no attribute 'email'").
Proof.
  split; [reflexivity|].
  destruct (email_senders_need_an_organizer Samples.quiet_env
              Samples.confirmed_guest
              {| vendor_id := 1; vendor_name := "Vera"; service_type := "catering";
                 vendor_email := None; vendor_phone := None;
                 contract_amount := Float64 0; payment_status := "pending" |}
              {| payment_id := 1; amount := Float64 0; payment_type := "ticket";
                 payment_method := "cash"; payment_state := "completed";
                 transaction_id := None; payment_created_at := 0 |}
              Samples.orphan_event 2 VNone "confirmed" "a@b"
              (Samples.world ∅ ∅ []) eq_refl) as [H _].
  by rewrite H.
Defined.

(* ===================================================================== *)
(** ** More on the SMS adapter *)
(* ===================================================================== *)

Lemma send_sms_preserves (E : Env) (to : option string) (message : string) :
  preserves coordinator_state (SMSService.send_sms E to message)
  ∧ preserves pushed (SMSService.send_sms E to message)
  ∧ preserves db (SMSService.send_sms E to message).
Proof.
  unfold SMSService.send_sms, app_config, SMSService.messages_create,
    logger_info, logger_error.
  split_and!; preserving; by intros w.
Qed.

Lemma send_sms_run (E : Env) (to : option string) (message : string) (w : World) :
  ∃ b w',
    SMSService.send_sms E to message w = (Ok b, w')
    ∧ deliveries (trace w')
      = deliveries (trace w)
        ++ (if b && twilio_client E then [SmsTo to message] else [])
    ∧ (twilio_client E = false → b = true).
Proof.
  unfold SMSService.send_sms, app_config, SMSService.messages_create.
  destruct (twilio_client E); run.
  2:{ eexists _, _. split; [reflexivity|]. cbn. split; [|done].
      rewrite deliveries_app. done. }
  destruct (app E) as [config|]; run.
  2:{ eexists _, _. split; [reflexivity|]. cbn. split; [|done].
      rewrite deliveries_app. done. }
  match goal with
  | |- context [twilio_create E ?h ?body ?from_ ?to'] =>
      destruct (twilio_create E h body from_ to') as [e|sid]
  end; run.
  - eexists _, _. split; [reflexivity|]. cbn. split; [|done].
    rewrite deliveries_app. done.
  - eexists _, _. split; [reflexivity|]. cbn. split; [|done].
    rewrite !deliveries_app. cbn. by rewrite app_nil_r.
Qed.

(** What [send_sms] reports and what it did: with a Twilio client it
    returns [True] exactly when Twilio took one message for [to] with the
    text; without a client it returns [True] for every number and text, a
    missing number included, and contacts nobody: the message is only
    written to the log. It never touches the coordinator or the database
    and pushes nothing. *)
Theorem send_sms_outcome (E : Env) (to : option string) (message : string)
    (w : World) :
  ∃ b w',
    SMSService.send_sms E to message w = (Ok b, w')
    ∧ deliveries (trace w')
      = deliveries (trace w)
        ++ (if b && twilio_client E then [SmsTo to message] else [])
    ∧ (twilio_client E = false →
       b = true
       ∧ w' = logged w INFO ("[SMS SIMULATION] To: " +:+ str_opt to
                             +:+ ", Message: " +:+ message))
    ∧ coordinator_state w' = coordinator_state w
    ∧ pushed w' = pushed w
    ∧ db w' = db w.
Proof.
  destruct (send_sms_preserves E to message) as (Hc & Hp & Hd).
  specialize (Hc w). specialize (Hp w). specialize (Hd w).
  destruct (send_sms_run E to message w) as (b & w' & Hrun & Hdel & Hsim).
  rewrite Hrun in Hc, Hp, Hd. exists b, w'. split_and!; try done.
  intros Hoff. split; [by apply Hsim|].
  unfold SMSService.send_sms in Hrun. rewrite Hoff in Hrun. run_in Hrun.
  by injection Hrun as _ <-.
Qed.

(** The counting loop of the bulk senders, for any sender that behaves
    like [send_sms]. *)
Lemma bulk_loop {A} (E : Env) (phone : A → option string) (send : A → M bool)
    (l : list A) (s t : Z) (w : World) :
  (∀ x w, ∃ b w',
     send x w = (Ok b, w')
     ∧ length (deliveries (trace w'))
       = (length (deliveries (trace w))
          + (if b && twilio_client E then 1 else 0))%nat
     ∧ (twilio_client E = false → b = true)) →
  ∃ s' t' w',
    for_fold l (s, t) (λ x '(success_count, total_count),
      if truthy_str (phone x)
      then
        let total_count := total_count + 1 in
        sent ← send x;
        mret (if sent : bool then success_count + 1 else success_count,
              total_count)
      else mret (success_count, total_count)) w
    = (Ok (s', t'), w')
    ∧ t' = t + Z.of_nat (length (List.filter (λ x, truthy_str (phone x)) l))
    ∧ s ≤ s' ∧ s' - s ≤ t' - t
    ∧ (twilio_client E = false →
       s' - s = t' - t
       ∧ length (deliveries (trace w')) = length (deliveries (trace w)))
    ∧ (twilio_client E = true →
       Z.of_nat (length (deliveries (trace w')))
       = Z.of_nat (length (deliveries (trace w))) + (s' - s)).
Proof.
  intros Hsend. revert s t w. induction l as [|x l IH]; intros s t w.
  - exists s, t, w. split; [reflexivity|]. cbn. split_and!; try lia; try done.
  - cbn [for_fold List.filter]. destruct (truthy_str (phone x)).
    + destruct (Hsend x w) as (b & w1 & Hrun & Hlen & Hsim).
      destruct (IH (if b then s + 1 else s) (t + 1) w1)
        as (s' & t' & w' & Hrest & Ht & Hs1 & Hs2 & Hoff & Hon).
      exists s', t', w'. split.
      { erewrite bind_ok; [exact Hrest|]. by erewrite bind_ok; [|exact Hrun]. }
      cbn [length]. destruct b; cbn [andb] in Hlen.
      * split_and!; try lia.
        -- intros Hc. destruct (Hoff Hc) as [? Hl]. rewrite Hc in Hlen.
           split; [lia|]. rewrite Hl, Hlen. lia.
        -- intros Hc. rewrite Hc in Hlen. rewrite (Hon Hc), Hlen. lia.
      * split_and!; try lia.
        -- intros Hc. by specialize (Hsim Hc).
        -- intros Hc. rewrite (Hon Hc), Hlen. lia.
    + destruct (IH s t w) as (s' & t' & w' & Hrest & Ht & Hs1 & Hs2 & Hoff & Hon).
      exists s', t', w'. split; [by erewrite bind_ok; [|reflexivity]|].
      by split_and!.
Qed.

Lemma sms_sender_spec (E : Env) (to : option string) (message : string)
    (w : World) :
  ∃ b w',
    SMSService.send_sms E to message w = (Ok b, w')
    ∧ length (deliveries (trace w'))
      = (length (deliveries (trace w))
         + (if b && twilio_client E then 1 else 0))%nat
    ∧ (twilio_client E = false → b = true).
Proof.
  destruct (send_sms_run E to message w) as (b & w' & Hrun & Hdel & Hsim).
  exists b, w'. split_and!; [exact Hrun| |exact Hsim].
  rewrite Hdel, length_app. by destruct (b && twilio_client E).
Qed.

(** The report of the bulk senders adds up: [total] is the number of
    guests (or vendors) with a phone number, the others are skipped;
    [successful] and [failed] are not negative and sum to [total]. With a
    Twilio client, [successful] is the number of messages Twilio took;
    without one every message counts as successful and none is sent. *)
Theorem bulk_reminder_report_adds_up (E : Env) (guests_ : list Guest)
    (vendors_ : list Vendor) (event : Event) (days_before : Z) (w : World) :
  (∃ r w',
     SMSService.bulk_send_event_reminders E guests_ event days_before w
     = (Ok r, w')
     ∧ SMSService.total r = Z.of_nat (length (with_phone guests_))
     ∧ SMSService.successful r + SMSService.failed r = SMSService.total r
     ∧ 0 ≤ SMSService.successful r ∧ 0 ≤ SMSService.failed r
     ∧ (twilio_client E = false →
        SMSService.failed r = 0
        ∧ deliveries (trace w') = deliveries (trace w))
     ∧ (twilio_client E = true →
        Z.of_nat (length (deliveries (trace w')))
        = Z.of_nat (length (deliveries (trace w))) + SMSService.successful r))
  ∧ (∃ r w',
       SMSService.bulk_send_vendor_reminders E vendors_ event days_before w
       = (Ok r, w')
       ∧ SMSService.total r
         = Z.of_nat (length (List.filter (λ v, truthy_str (vendor_phone v))
                                         vendors_))
       ∧ SMSService.successful r + SMSService.failed r = SMSService.total r
       ∧ 0 ≤ SMSService.successful r ∧ 0 ≤ SMSService.failed r).
Proof.
  split.
  - destruct (bulk_loop E guest_phone
                (λ guest, SMSService.send_event_reminder E guest event days_before)
                guests_ 0 0 w) as (s' & t' & w1 & Hrun & Ht & Hs1 & Hs2 & Hoff & Hon).
    { intros guest w0. unfold SMSService.send_event_reminder. cbv zeta.
      apply sms_sender_spec. }
    eexists _, _. split.
    { unfold SMSService.bulk_send_event_reminders.
      erewrite bind_ok; [|exact Hrun]. cbv beta iota. run. reflexivity. }
    cbn [SMSService.total SMSService.successful SMSService.failed trace].
    unfold with_phone. split_and!; try lia.
    + intros Hc. destruct (Hoff Hc) as [Heq Hlen]. split; [lia|].
      rewrite deliveries_app. cbn. rewrite app_nil_r.
      assert (Hpres : preserves delivered
        (for_fold guests_ (0, 0) (λ guest '(success_count, total_count),
           if truthy_str (guest_phone guest)
           then
             let total_count := total_count + 1 in
             sent ← SMSService.send_event_reminder E guest event days_before;
             mret (if sent : bool then success_count + 1 else success_count,
                   total_count)
           else mret (success_count, total_count)))).
      { unfold SMSService.send_event_reminder, SMSService.send_sms,
          logger_info, logger_error. rewrite Hc. cbn [negb]. preserving. }
      specialize (Hpres w). rewrite Hrun in Hpres. exact Hpres.
    + intros Hc. rewrite deliveries_app. cbn. rewrite app_nil_r.
      rewrite (Hon Hc). lia.
  - destruct (bulk_loop E vendor_phone
                (λ vendor, SMSService.send_vendor_reminder E vendor event days_before)
                vendors_ 0 0 w) as (s' & t' & w1 & Hrun & Ht & Hs1 & Hs2 & _).
    { intros vendor w0. unfold SMSService.send_vendor_reminder. cbv zeta.
      apply sms_sender_spec. }
    eexists _, _. split.
    { unfold SMSService.bulk_send_vendor_reminders.
      erewrite bind_ok; [|exact Hrun]. cbv beta iota. run. reflexivity. }
    cbn [SMSService.total SMSService.successful SMSService.failed].
    split_and!; lia.
Qed.

Lemma bulk_reminder_report_adds_up_witness :
  twilio_client Samples.unconfigured_env = false
  ∧ ∃ r w',
      SMSService.bulk_send_event_reminders Samples.unconfigured_env
        [Samples.confirmed_guest; Samples.pending_guest] (Samples.gala "planned")
        1 (Samples.world ∅ ∅ []) = (Ok r, w')
      ∧ SMSService.total r = 2
      ∧ SMSService.failed r = 0
      ∧ deliveries (trace w') = [].
Proof.
  split; [reflexivity|].
  destruct (bulk_reminder_report_adds_up Samples.unconfigured_env
              [Samples.confirmed_guest; Samples.pending_guest] []
              (Samples.gala "planned") 1 (Samples.world ∅ ∅ []))
    as [(r & w' & Hrun & Htotal & _ & _ & _ & Hoff & _) _].
  destruct (Hoff eq_refl) as [Hfailed Hdel].
  exists r, w'. split_and!; [exact Hrun | by rewrite Htotal | exact Hfailed
                            | by rewrite Hdel].
Defined.

(* --------------------------------------------------------------------- *)
(** *** Stripped text *)

Section StripFront.
Context (sp2 : Ascii.ascii → Ascii.ascii → bool)
        (sp3 : Ascii.ascii → Ascii.ascii → Ascii.ascii → bool).

Lemma strip_front_clean_id (l : list Ascii.ascii) :
  clean_front sp2 sp3 l = true → strip_front sp2 sp3 l = l.
Proof.
  destruct l as [|c1 [|c2 [|c3 l]]]; cbn; try done.
  - by destruct (ascii_space c1).
  - destruct (ascii_space c1); [done|]. by destruct (sp2 c1 c2).
  - destruct (ascii_space c1); [done|]. destruct (sp2 c1 c2); [done|].
    by destruct (sp3 c1 c2 c3).
Qed.

(** What comes back has no white space at its front, and is the end of
    what went in. *)
Lemma strip_front_spec (n : nat) (l : list Ascii.ascii) :
  (length l ≤ n)%nat →
  clean_front sp2 sp3 (strip_front sp2 sp3 l) = true
  ∧ ∃ p, l = p ++ strip_front sp2 sp3 l.
Proof.
  revert l. induction n as [|n IH]; intros l Hn.
  { destruct l; [|cbn in Hn; lia]. split; [done|by exists []]. }
  destruct l as [|c1 l1]; [split; [done|by exists []]|].
  cbn [strip_front]. cbn in Hn.
  destruct (ascii_space c1) eqn:H1.
  { destruct (IH l1) as [Hc [p Hp]]; [lia|]. split; [exact Hc|].
    exists (c1 :: p). cbn. by rewrite <- Hp. }
  destruct l1 as [|c2 l2].
  { split; [cbn; by rewrite H1|by exists []]. }
  cbn in Hn. destruct (sp2 c1 c2) eqn:H2.
  { destruct (IH l2) as [Hc [p Hp]]; [lia|]. split; [exact Hc|].
    exists (c1 :: c2 :: p). cbn. by rewrite <- Hp. }
  destruct l2 as [|c3 l3].
  { split; [cbn; by rewrite H1, H2|by exists []]. }
  cbn in Hn. destruct (sp3 c1 c2 c3) eqn:H3.
  { destruct (IH l3) as [Hc [p Hp]]; [lia|]. split; [exact Hc|].
    exists (c1 :: c2 :: c3 :: p). cbn. by rewrite <- Hp. }
  split; [cbn; by rewrite H1, H2, H3|by exists []].
Qed.

Lemma strip_front_clean (l : list Ascii.ascii) :
  clean_front sp2 sp3 (strip_front sp2 sp3 l) = true.
Proof. by apply (strip_front_spec (length l) l). Qed.

Lemma strip_front_suffix (l : list Ascii.ascii) :
  ∃ p, l = p ++ strip_front sp2 sp3 l.
Proof. by apply (strip_front_spec (length l) l). Qed.

(** What is clean stays clean when bytes go from its far end. *)
Lemma clean_front_prefix (p t : list Ascii.ascii) :
  clean_front sp2 sp3 (p ++ t) = true → clean_front sp2 sp3 p = true.
Proof.
  destruct p as [|c1 [|c2 [|c3 p]]]; cbn; try done.
  - destruct (ascii_space c1); [done|]. by intros _.
  - destruct (ascii_space c1); [done|]. destruct (sp2 c1 c2); [done|]. by intros _.
Qed.
End StripFront.

Lemma str_rstrip_clean (s : string) : clean_end (str_rstrip s) = true.
Proof.
  unfold clean_end, str_rstrip.
  rewrite String.list_ascii_of_string_of_list_ascii, rev_involutive.
  apply strip_front_clean.
Qed.

Lemma str_rstrip_clean_id (s : string) : clean_end s = true → str_rstrip s = s.
Proof.
  intros Hs. unfold str_rstrip.
  rewrite strip_front_clean_id by exact Hs.
  by rewrite rev_involutive, String.string_of_list_ascii_of_string.
Qed.

Lemma str_lstrip_clean_id (s : string) :
  clean_front space2 space3 (String.list_ascii_of_string s) = true → str_lstrip s = s.
Proof.
  intros Hs. unfold str_lstrip. rewrite strip_front_clean_id by exact Hs.
  apply String.string_of_list_ascii_of_string.
Qed.

(** Stripping the end leaves the front as it is. *)
Lemma str_strip_clean_front (s : string) :
  clean_front space2 space3 (String.list_ascii_of_string (str_strip s)) = true.
Proof.
  unfold str_strip, str_rstrip, str_lstrip.
  rewrite !String.list_ascii_of_string_of_list_ascii.
  set (l := strip_front space2 space3 (String.list_ascii_of_string s)).
  destruct (strip_front_suffix (λ c1 c2, space2 c2 c1) (λ c1 c2 c3, space3 c3 c2 c1)
              (List.rev l)) as [p Hp].
  apply (clean_front_prefix _ _ _ (List.rev p)).
  rewrite <- rev_app_distr, <- Hp, rev_involutive.
  apply strip_front_clean.
Qed.

Lemma str_strip_idemp (s : string) : str_strip (str_strip s) = str_strip s.
Proof.
  unfold str_strip at 1.
  rewrite (str_lstrip_clean_id (str_strip s)) by apply str_strip_clean_front.
  apply str_rstrip_clean_id, str_rstrip_clean.
Qed.

Lemma clean_end_tail (s : string) : clean_end s = true → clean_end (str_tail s) = true.
Proof.
  destruct s as [|c s]; [done|]. unfold clean_end.
  cbn [str_tail String.list_ascii_of_string rev].
  apply clean_front_prefix.
Qed.

Lemma str_strip_plus265 (s : string) :
  clean_end s = true → str_strip ("+265" +:+ s) = "+265" +:+ s.
Proof.
  intros Hs. unfold str_strip.
  rewrite str_lstrip_clean_id by reflexivity.
  apply str_rstrip_clean_id. unfold clean_end in *.
  change (String.list_ascii_of_string ("+265" +:+ s))
    with (["+"; "2"; "6"; "5"]%char ++ String.list_ascii_of_string s).
  rewrite rev_app_distr.
  destruct (List.rev (String.list_ascii_of_string s)) as [|c1 [|c2 [|c3 l]]];
    [reflexivity| | |exact Hs]; cbn in Hs |- *.
  - by rewrite andb_true_r in Hs |- *.
  - apply andb_true_iff in Hs as [-> Hs]. rewrite andb_true_r in Hs.
    by rewrite Hs.
Qed.

(** [validate_phone_number] without Twilio client never rejects a text:
    it returns a number that starts with [+], touching nothing: the
    stripped text itself when that starts with [+], else [+265] followed by
    the stripped text less one leading zero. What is stripped is the white
    space of [str.strip], the no-break space and the other characters
    beyond ASCII included. Validating the result again gives the same
    number. Only [None] is refused, with an error in the log. *)
Theorem validate_phone_number_normalises (E : Env)
    (twilio_lookup : option string → exn + string) (phone_number : string)
    (w : World) :
  twilio_client E = false →
  ∃ number,
    SMSService.validate_phone_number E twilio_lookup (Some phone_number) w
    = (Ok (Some number), w)
    ∧ starts_with "+" number = true
    ∧ number
      = (if starts_with "+" (str_strip phone_number)
         then str_strip phone_number
         else if starts_with "0" (str_strip phone_number)
              then "+265" +:+ str_tail (str_strip phone_number)
              else "+265" +:+ str_strip phone_number)
    ∧ SMSService.validate_phone_number E twilio_lookup (Some number) w
      = (Ok (Some number), w)
    ∧ SMSService.validate_phone_number E twilio_lookup None w
      = (Ok None,
         logged w ERROR
           "Phone number validation failed for None: 'NoneType' object has no attribute 'strip'").
Proof.
  intros Hoff. unfold SMSService.validate_phone_number. rewrite Hoff.
  cbn [negb]. cbv zeta.
  assert (Hclean : clean_end (str_strip phone_number) = true)
    by apply str_rstrip_clean.
  destruct (starts_with "+" (str_strip phone_number)) eqn:Hplus.
  - exists (str_strip phone_number). run.
    split_and!; try done. by rewrite str_strip_idemp, Hplus.
  - destruct (starts_with "0" (str_strip phone_number)) eqn:Hzero.
    + exists ("+265" +:+ str_tail (str_strip phone_number)). run.
      split_and!; try done.
      by rewrite str_strip_plus265 by (by apply clean_end_tail).
    + exists ("+265" +:+ str_strip phone_number). run.
      split_and!; try done.
      by rewrite str_strip_plus265.
Qed.

(** A number typed with blanks around it, and one pasted with a no-break
    space (U+00A0, the bytes 194 and 160) in front and an em space (U+2003,
    the bytes 226, 128 and 131) behind. *)
Lemma validate_phone_number_normalises_witness :
  twilio_client Samples.unconfigured_env = false
  ∧ SMSService.validate_phone_number Samples.unconfigured_env (λ _, inr "")
      (Some "  0991 000 001 ") (Samples.world ∅ ∅ [])
    = (Ok (Some "+265991 000 001"), Samples.world ∅ ∅ [])
  ∧ SMSService.validate_phone_number Samples.unconfigured_env (λ _, inr "")
      (Some (String (Ascii.ascii_of_N 194) (String (Ascii.ascii_of_N 160)
               ("0991000001"
                +:+ String (Ascii.ascii_of_N 226) (String (Ascii.ascii_of_N 128)
                      (String (Ascii.ascii_of_N 131) ""))))))
      (Samples.world ∅ ∅ [])
    = (Ok (Some "+265991000001"), Samples.world ∅ ∅ []).
Proof.
  split; [reflexivity|]. split.
  - destruct (validate_phone_number_normalises Samples.unconfigured_env
                (λ _, inr "") "  0991 000 001 " (Samples.world ∅ ∅ []) eq_refl)
      as (number & Hrun & _ & -> & _).
    exact Hrun.
  - destruct (validate_phone_number_normalises Samples.unconfigured_env
                (λ _, inr "")
                (String (Ascii.ascii_of_N 194) (String (Ascii.ascii_of_N 160)
                   ("0991000001"
                    +:+ String (Ascii.ascii_of_N 226) (String (Ascii.ascii_of_N 128)
                          (String (Ascii.ascii_of_N 131) "")))))
                (Samples.world ∅ ∅ []) eq_refl)
      as (number & Hrun & _ & -> & _).
    exact Hrun.
Defined.

(* ===================================================================== *)
(** ** More on the scheduler *)
(* ===================================================================== *)

(** A counting loop whose every round hands over what is due. *)
Lemma for_fold_delivers {A} (l : list A) (body : A → Z → M Z)
    (due : A → list delivery) :
  (∀ x, x ∈ l → ∀ acc w, ∃ n w',
     body x acc w = (Ok n, w')
     ∧ deliveries (trace w') = deliveries (trace w) ++ due x) →
  ∀ acc w, ∃ n w',
    for_fold l acc body w = (Ok n, w')
    ∧ deliveries (trace w') = deliveries (trace w) ++ (l ≫= due).
Proof.
  induction l as [|x l IH]; intros Hbody acc w.
  - exists acc, w. split; [reflexivity|]. cbn. by rewrite app_nil_r.
  - destruct (Hbody x (list_elem_of_here _ _) acc w) as (n1 & w1 & Hrun & D1).
    destruct (IH (λ y Hy, Hbody y (list_elem_of_further _ _ _ Hy)) n1 w1)
      as (n & w' & Hrest & D2).
    exists n, w'. split.
    + cbn [for_fold]. by erewrite bind_ok; [|exact Hrun].
    + rewrite D2, D1, bind_cons. by rewrite <- app_assoc.
Qed.

Section NeedAddress.
Context (E : Env) (Hok : transports_need_address E).

Lemma send_email_with_address (address subject template_name : string)
    (context : option pydict) (w : World) :
  ∃ w',
    EmailService.send_email E (Some address) subject template_name context w
    = (Ok true, w')
    ∧ deliveries (trace w')
      = deliveries (trace w) ++ [EmailTo (Some address) subject].
Proof using Hok.
  destruct Hok as [(config & Happ & Huser) Hjinja Hmail _ _ _].
  unfold EmailService.send_email, app_config, app_context,
    EmailService._render_email_template, EmailService.mail_send.
  rewrite Happ. run. rewrite Huser. run.
  match goal with
  | |- context [jinja_render E ?src ?ctx] =>
      destruct (Hjinja src ctx) as [body ->]
  end. run.
  rewrite Hmail by (cbn; by intros ?%list_elem_of_singleton). run.
  eexists. split; [reflexivity|]. cbn [trace].
  rewrite !deliveries_app. cbn. by rewrite app_nil_r.
Qed.

(** A message for nobody: Flask-Mail raises, [send_email] logs the failure
    and returns [False]. *)
Lemma send_email_without_address (subject template_name : string)
    (context : option pydict) (w : World) :
  ∃ w',
    EmailService.send_email E None subject template_name context w
    = (Ok false, w')
    ∧ deliveries (trace w') = deliveries (trace w).
Proof using Hok.
  destruct Hok as [(config & Happ & Huser) Hjinja _ Hrefuse _ _].
  unfold EmailService.send_email, app_config, app_context,
    EmailService._render_email_template, EmailService.mail_send.
  rewrite Happ. run. rewrite Huser. run.
  match goal with
  | |- context [jinja_render E ?src ?ctx] =>
      destruct (Hjinja src ctx) as [body ->]
  end. run.
  match goal with
  | |- context [mail_send_raises E ?h ?m] =>
      destruct (Hrefuse h m) as [e ->]; [cbn; left|]
  end. run.
  eexists. split; [reflexivity|]. cbn [trace].
  rewrite !deliveries_app. cbn. by rewrite app_nil_r.
Qed.

Lemma send_sms_with_client (to : option string) (message : string) (w : World) :
  ∃ w',
    SMSService.send_sms E to message w = (Ok true, w')
    ∧ deliveries (trace w') = deliveries (trace w) ++ [SmsTo to message].
Proof using Hok.
  destruct Hok as [(config & Happ & _) _ _ _ Hon Htwilio].
  unfold SMSService.send_sms, app_config, SMSService.messages_create.
  rewrite Hon, Happ. run.
  match goal with
  | |- context [twilio_create E ?h ?body ?from_ ?to'] =>
      destruct (Htwilio h body from_ to') as [sid ->]
  end. run.
  eexists. split; [reflexivity|]. cbn [trace].
  rewrite !deliveries_app. cbn. by rewrite app_nil_r.
Qed.

Lemma vendor_round_delivers (event : Event) (vendor : Vendor) (acc : Z)
    (w : World) :
  is_Some (organizer event) →
  ∃ n w',
    (if negb (String.eqb (payment_status vendor) "paid")
     then
       EmailService.send_vendor_welcome E vendor event ;;
       when (truthy_str (vendor_phone vendor))
            (SMSService.send_vendor_reminder E vendor event 3 ;; mret ()) ;;
       mret (acc + 1)
     else mret acc) w = (Ok n, w')
    ∧ deliveries (trace w')
      = deliveries (trace w) ++ vendor_reminders_due E event vendor.
Proof using Hok.
  intros [u Horg]. unfold vendor_reminders_due.
  destruct (negb (String.eqb (payment_status vendor) "paid")).
  2:{ exists acc, w. split; [reflexivity|]. by rewrite app_nil_r. }
  assert (Hmail : ∃ b w1,
    EmailService.send_vendor_welcome E vendor event w = (Ok b, w1)
    ∧ deliveries (trace w1)
      = deliveries (trace w)
        ++ match vendor_email vendor with
           | Some address =>
               [EmailTo (Some address) ("Vendor Assignment: " +:+ title event)]
           | None => []
           end).
  { unfold EmailService.send_vendor_welcome, EmailService.organizer_email.
    rewrite Horg. erewrite bind_ok; [|reflexivity]. cbv zeta.
    destruct (vendor_email vendor) as [address|].
    - exists true. apply send_email_with_address.
    - exists false. rewrite app_nil_r. apply send_email_without_address. }
  destruct Hmail as (b & w1 & Hmail & D1).
  destruct (truthy_str (vendor_phone vendor)).
  - assert (Hsms : ∃ w2,
      SMSService.send_vendor_reminder E vendor event 3 w1 = (Ok true, w2)
      ∧ deliveries (trace w2)
        = deliveries (trace w1)
          ++ [SmsTo (vendor_phone vendor)
                ("REMINDER: Your " +:+ service_type vendor +:+ " services for "
                 +:+ title event +:+ " are needed in 3 days. Date: "
                 +:+ strftime E "%b %d, %I:%M %p" (start_date event)
                 +:+ ", Venue: " +:+ venue event
                 +:+ ". Contact organizer for questions.")]).
    { unfold SMSService.send_vendor_reminder. apply send_sms_with_client. }
    destruct Hsms as (w2 & Hsms & D2).
    exists (acc + 1), w2. split.
    + erewrite bind_ok; [|exact Hmail].
      erewrite bind_ok; [reflexivity|].
      unfold when. by erewrite bind_ok; [|exact Hsms].
    + rewrite D2, D1. by rewrite <- app_assoc.
  - exists (acc + 1), w1. split; [|by rewrite D1, app_nil_r].
    by erewrite bind_ok; [|exact Hmail].
Qed.
End NeedAddress.

Section Jobs.
Context (E : Env) (Hok : transports_ok E).

Lemma feedback_round_delivers (event : Event) (guest : Guest) (acc : Z)
    (w : World) :
  ∃ n w',
    (if String.eqb (rsvp_status guest) "confirmed"
     then
       EmailService.send_feedback_request E guest event ;;
       when (truthy_str (guest_phone guest))
            (SMSService.send_event_update E guest event
               "Thank you for attending! Please share your feedback." ;;
             mret ()) ;;
       mret (acc + 1)
     else mret acc) w = (Ok n, w')
    ∧ deliveries (trace w') = deliveries (trace w) ++ feedback_due E event guest.
Proof using Hok.
  unfold feedback_due.
  destruct (String.eqb (rsvp_status guest) "confirmed").
  2:{ exists acc, w. split; [reflexivity|]. by rewrite app_nil_r. }
  assert (Hmail : ∃ w1,
    EmailService.send_feedback_request E guest event w = (Ok true, w1)
    ∧ deliveries (trace w1)
      = deliveries (trace w)
        ++ [EmailTo (Some (guest_email guest))
              ("How was " +:+ title event +:+ "? We'd love your feedback!")]).
  { unfold EmailService.send_feedback_request. cbv zeta.
    apply (send_email_delivers E Hok). }
  destruct Hmail as (w1 & Hmail & D1).
  destruct (truthy_str (guest_phone guest)).
  - assert (Hsms : ∃ w2,
      SMSService.send_event_update E guest event
        "Thank you for attending! Please share your feedback." w1 = (Ok true, w2)
      ∧ deliveries (trace w2)
        = deliveries (trace w1)
          ++ [SmsTo (guest_phone guest)
                ("UPDATE for " +:+ title event
                 +:+ ": Thank you for attending! Please share your feedback. Date: "
                 +:+ strftime E "%b %d, %I:%M %p" (start_date event)
                 +:+ ". Ticket: " +:+ str_opt (ticket_number guest))]).
    { unfold SMSService.send_event_update. apply (send_sms_delivers E Hok). }
    destruct Hsms as (w2 & Hsms & D2).
    exists (acc + 1), w2. split.
    + erewrite bind_ok; [|exact Hmail].
      erewrite bind_ok; [reflexivity|].
      unfold when. by erewrite bind_ok; [|exact Hsms].
    + rewrite D2, D1. by rewrite <- app_assoc.
  - exists (acc + 1), w1. split; [|exact D1].
    by erewrite bind_ok; [|exact Hmail].
Qed.

End Jobs.

(** The vendor reminders: with the database answering, Twilio working and
    Flask-Mail sending what has an address, the job selects the planned or
    ongoing events that start between two days after its first clock
    reading and seven days after its second, and hands the transports
    exactly what is due to their vendors, event by event and vendor by
    vendor. A vendor whose payment status is not [paid] gets the vendor
    assignment mail (the one sent when the vendor was added) if the vendor
    has a mail address, then one SMS if the vendor has a phone number. A
    vendor without mail address gets no mail: Flask-Mail raises on the
    missing recipient, [send_email] logs that, and the job goes on to the
    SMS. A paid vendor gets nothing. *)
Theorem vendor_reminders_reach_unpaid_vendors (E : Env) (w : World) :
  transports_need_address E →
  db_raises E (trace w) QEvents = None →
  (∀ event, event ∈ events (db w) → is_Some (organizer event)) →
  (∃ w',
     send_vendor_reminders E w = (Ok (), w')
     ∧ deliveries (trace w')
       = deliveries (trace w)
         ++ (vendor_events E w ≫= λ event,
               vendors event ≫= vendor_reminders_due E event))
  ∧ (∀ event vendor,
       payment_status vendor = "paid" → vendor_reminders_due E event vendor = [])
  ∧ (∀ event vendor,
       payment_status vendor ≠ "paid" →
       vendor_reminders_due E event vendor
       = match vendor_email vendor with
         | Some address =>
             [EmailTo (Some address) ("Vendor Assignment: " +:+ title event)]
         | None => []
         end
         ++ (if truthy_str (vendor_phone vendor)
             then [SmsTo (vendor_phone vendor)
                     ("REMINDER: Your " +:+ service_type vendor
                      +:+ " services for " +:+ title event
                      +:+ " are needed in 3 days. Date: "
                      +:+ strftime E "%b %d, %I:%M %p" (start_date event)
                      +:+ ", Venue: " +:+ venue event
                      +:+ ". Contact organizer for questions.")]
             else [])).
Proof.
  intros Hok Hdb Horg. split_and!.
  - destruct (strict_configured E Hok) as (config & Happ & _).
    pose (w2 := {| connected_users := connected_users w;
                   user_notifications := user_notifications w;
                   db := db w; trace := trace w; ticks := S (S (ticks w)) |}).
    destruct (for_fold_delivers (vendor_events E w)
                (λ event reminders_sent,
                   for_fold (vendors event) reminders_sent
                     (λ vendor reminders_sent,
                        if negb (String.eqb (payment_status vendor) "paid")
                        then
                          EmailService.send_vendor_welcome E vendor event ;;
                          when (truthy_str (vendor_phone vendor))
                               (SMSService.send_vendor_reminder E vendor event 3 ;;
                                mret ()) ;;
                          mret (reminders_sent + 1)
                        else mret reminders_sent))
                (λ event, vendors event ≫= vendor_reminders_due E event))
      with (acc := 0) (w := w2) as (n & w3 & Hloop & D).
    { intros event Hev acc w0.
      apply (for_fold_delivers (vendors event)).
      intros vendor _ acc' w1. apply (vendor_round_delivers E Hok).
      apply Horg. apply list_elem_of_In in Hev.
      apply filter_In in Hev as [Hev _]. by apply list_elem_of_In. }
    exists (logged w3 INFO ("Sent " +:+ pretty n +:+ " vendor reminders")).
    split.
    + unfold send_vendor_reminders, try_except.
      assert (Hbody : send_vendor_reminders_body E w
                      = (Ok (), logged w3 INFO
                                  ("Sent " +:+ pretty n +:+ " vendor reminders"))).
      { unfold send_vendor_reminders_body, app_context. rewrite Happ.
        erewrite bind_ok; [|reflexivity].
        erewrite bind_ok; [|reflexivity]. cbv zeta.
        erewrite bind_ok; [|reflexivity]. cbv zeta.
        erewrite bind_ok; [|apply db_query_ok; exact Hdb].
        erewrite bind_ok; [|exact Hloop]. reflexivity. }
      by rewrite Hbody.
    + cbn [logged trace]. rewrite deliveries_app, D. cbn. by rewrite app_nil_r.
  - intros event vendor Hpaid. unfold vendor_reminders_due. by rewrite Hpaid.
  - intros event vendor Hpaid. unfold vendor_reminders_due.
    apply String.eqb_neq in Hpaid. by rewrite Hpaid.
Qed.

(** The feedback requests: with working transports and database, the job
    selects the completed events whose end lies between two days before its
    second clock reading and one day before its first, and hands the
    transports exactly what is due to their guests: to each guest whose
    RSVP is confirmed, checked in or not, one feedback mail, then one SMS if
    the guest has a phone number; nothing to the other guests. No organizer
    is needed. *)
Theorem feedback_requests_reach_confirmed_guests (E : Env) (w : World) :
  transports_ok E →
  db_raises E (trace w) QEvents = None →
  (∃ w',
     send_feedback_requests E w = (Ok (), w')
     ∧ deliveries (trace w')
       = deliveries (trace w)
         ++ (feedback_events E w ≫= λ event,
               guests event ≫= feedback_due E event))
  ∧ (∀ event guest,
       rsvp_status guest ≠ "confirmed" → feedback_due E event guest = []).
Proof.
  intros Hok Hdb. split.
  - destruct (mail_configured E Hok) as (config & Happ & _).
    pose (w2 := {| connected_users := connected_users w;
                   user_notifications := user_notifications w;
                   db := db w; trace := trace w; ticks := S (S (ticks w)) |}).
    destruct (for_fold_delivers (feedback_events E w)
                (λ event feedback_requests_sent,
                   for_fold (guests event) feedback_requests_sent
                     (λ guest feedback_requests_sent,
                        if String.eqb (rsvp_status guest) "confirmed"
                        then
                          EmailService.send_feedback_request E guest event ;;
                          when (truthy_str (guest_phone guest))
                               (SMSService.send_event_update E guest event
                                  "Thank you for attending! Please share your feedback." ;;
                                mret ()) ;;
                          mret (feedback_requests_sent + 1)
                        else mret feedback_requests_sent))
                (λ event, guests event ≫= feedback_due E event))
      with (acc := 0) (w := w2) as (n & w3 & Hloop & D).
    { intros event Hev acc w0.
      apply (for_fold_delivers (guests event)).
      intros guest _ acc' w1. apply (feedback_round_delivers E Hok). }
    exists (logged w3 INFO ("Sent " +:+ pretty n +:+ " feedback requests")).
    split.
    + unfold send_feedback_requests, try_except.
      assert (Hbody : send_feedback_requests_body E w
                      = (Ok (), logged w3 INFO
                                  ("Sent " +:+ pretty n +:+ " feedback requests"))).
      { unfold send_feedback_requests_body, app_context. rewrite Happ.
        erewrite bind_ok; [|reflexivity].
        erewrite bind_ok; [|reflexivity]. cbv zeta.
        erewrite bind_ok; [|reflexivity]. cbv zeta.
        erewrite bind_ok; [|apply db_query_ok; exact Hdb].
        erewrite bind_ok; [|exact Hloop]. reflexivity. }
      by rewrite Hbody.
    + cbn [logged trace]. rewrite deliveries_app, D. cbn. by rewrite app_nil_r.
  - intros event guest Hrsvp. unfold feedback_due.
    by rewrite (proj2 (String.eqb_neq _ _) Hrsvp).
Qed.

Lemma vendor_reminders_reach_unpaid_vendors_witness :
  transports_need_address Samples.strict_mail_env
  ∧ ∃ w' text,
      send_vendor_reminders Samples.strict_mail_env
        (Samples.world ∅ ∅ [Samples.fair])
      = (Ok (), w')
      ∧ deliveries (trace w')
        = [EmailTo (Some "vera@example.org") "Vendor Assignment: Fair";
           SmsTo (Some "+265991000004") text].
Proof.
  assert (Hok : transports_need_address Samples.strict_mail_env).
  { split; [by exists Samples.config| | | |reflexivity|].
    - intros src context. by eexists.
    - intros h m Hm. cbn. by rewrite bool_decide_eq_false_2.
    - intros h m Hm. cbn. rewrite bool_decide_eq_true_2 by done. by eexists.
    - intros h body from_ to. by eexists. }
  split; [exact Hok|].
  destruct (vendor_reminders_reach_unpaid_vendors Samples.strict_mail_env
              (Samples.world ∅ ∅ [Samples.fair]) Hok)
    as [(w' & Hrun & Hd) _]; [reflexivity | |].
  { intros event Hev. apply list_elem_of_In in Hev. destruct Hev as [<-|[]].
    by eexists. }
  exists w'. eexists. split; [exact Hrun|]. rewrite Hd. reflexivity.
Defined.

Lemma feedback_requests_reach_confirmed_guests_witness :
  transports_ok Samples.quiet_env
  ∧ ∃ w',
      send_feedback_requests Samples.quiet_env
        (Samples.world ∅ ∅ [Samples.past_gala]) = (Ok (), w')
      ∧ deliveries (trace w')
        = [EmailTo (Some "grace@example.org")
             "How was Gala? We'd love your feedback!";
           SmsTo (Some "+265991000001")
             "UPDATE for Gala: Thank you for attending! Please share your feedback. Date: %b %d, %I:%M %p. Ticket: T-10"].
Proof.
  split; [exact transports_ok_quiet|].
  destruct (feedback_requests_reach_confirmed_guests Samples.quiet_env
              (Samples.world ∅ ∅ [Samples.past_gala]) transports_ok_quiet)
    as [(w' & Hrun & Hd) _]; [reflexivity|].
  exists w'. split; [exact Hrun|]. rewrite Hd. reflexivity.
Defined.

(** The data cleanup: with the application initialised and the database
    answering, the job deletes exactly the feedback created before its clock
    reading less 365 days, keeps the other feedback in its order, leaves the
    other tables alone, commits once and logs the number of rows deleted. *)
Theorem cleanup_old_data_deletes_old_feedback (E : Env) (w : World) :
  is_Some (app E) →
  db_ok E →
  let cutoff := clock E (ticks w) - days 365 in
  ∃ w',
    cleanup_old_data E w = (Ok (), w')
    ∧ feedbacks (db w')
      = List.filter (λ f, negb (feedback_created_at f <? cutoff)) (feedbacks (db w))
    ∧ (∀ f, f ∈ feedbacks (db w') ↔ f ∈ feedbacks (db w)
                                     ∧ cutoff ≤ feedback_created_at f)
    ∧ events (db w') = events (db w) ∧ all_guests (db w') = all_guests (db w)
    ∧ payments (db w') = payments (db w) ∧ users (db w') = users (db w)
    ∧ trace w'
      = trace w
        ++ [DbCommit;
            Log INFO ("Cleaned up "
                      +:+ pretty (Z.of_nat (length (feedbacks (db w)))
                                  - Z.of_nat (length (feedbacks (db w'))))
                      +:+ " old feedback records")].
Proof.
  intros [config Happ] Hdb cutoff.
  unfold cleanup_old_data, cleanup_old_data_body, app_context,
    delete_old_feedback, db_commit.
  rewrite Happ. run. rewrite !Hdb. run.
  eexists. split; [reflexivity|]. cbn [db feedbacks events all_guests payments
                                        users trace].
  fold cutoff. split_and!; try done.
  - intros f. rewrite !list_elem_of_In, filter_In, negb_true_iff, Z.ltb_ge. done.
  - assert (Hlen : (length (List.filter (λ f, (feedback_created_at f <? cutoff)%Z)
                                        (feedbacks (db w)))
                    + length (List.filter
                                (λ f, negb (feedback_created_at f <? cutoff)%Z)
                                (feedbacks (db w))))%nat
                   = length (feedbacks (db w))).
    { induction (feedbacks (db w)) as [|f l IH]; [done|]. cbn.
      destruct (feedback_created_at f <? cutoff); cbn; lia. }
    replace (Z.of_nat (length (feedbacks (db w)))
             - Z.of_nat (length (List.filter
                                   (λ f, negb (feedback_created_at f <? cutoff))
                                   (feedbacks (db w)))))
      with (Z.of_nat (length (List.filter
                                (λ f, feedback_created_at f <? cutoff)
                                (feedbacks (db w))))) by lia.
    by rewrite <- app_assoc.
Qed.

Lemma cleanup_old_data_deletes_old_feedback_witness :
  is_Some (app Samples.quiet_env)
  ∧ db_ok Samples.quiet_env
  ∧ ∃ w',
      cleanup_old_data Samples.quiet_env Samples.feedback_world = (Ok (), w')
      ∧ feedbacks (db w') = [Samples.recent_feedback]
      ∧ trace w' = [DbCommit; Log INFO "Cleaned up 1 old feedback records"].
Proof.
  assert (Happ : is_Some (app Samples.quiet_env)) by (by eexists).
  assert (Hdb : db_ok Samples.quiet_env) by (intros h op; reflexivity).
  split; [exact Happ|]. split; [exact Hdb|].
  destruct (cleanup_old_data_deletes_old_feedback Samples.quiet_env
              Samples.feedback_world Happ Hdb)
    as (w' & Hrun & Hf & _ & _ & _ & _ & _ & Htr).
  exists w'. split_and!; [exact Hrun | by rewrite Hf |].
  rewrite Htr, Hf. reflexivity.
Defined.

(** No job reaches the coordinator: whatever the collaborators do, a run
    of any registered job leaves the registry and the queues as they were
    and pushes no notification. *)
Theorem jobs_leave_the_coordinator_alone (E : Env) (job : Job) (w : World) :
  job ∈ registered_jobs E →
  connected_users (snd (job_func job w)) = connected_users w
  ∧ user_notifications (snd (job_func job w)) = user_notifications w
  ∧ pushes (trace (snd (job_func job w))) = pushes (trace w).
Proof.
  intros Hin.
  assert (H : preserves coordinator_state (job_func job)
              ∧ preserves pushed (job_func job)).
  { unfold registered_jobs in Hin.
    repeat (apply elem_of_cons in Hin as [->|Hin]); [..|by apply elem_of_nil in Hin];
      cbn [job_func];
      unfold send_daily_event_reminders, send_daily_event_reminders_body,
        send_vendor_reminders, send_vendor_reminders_body,
        send_feedback_requests, send_feedback_requests_body,
        generate_daily_reports, generate_daily_reports_body,
        generate_weekly_reports, generate_weekly_reports_body,
        cleanup_old_data, cleanup_old_data_body,
        system_health_check, system_health_check_body,
        cleanup_notifications, cleanup_notifications_body,
        cleanup_old_notifications, report_statistics, admin_users_query,
        delete_old_feedback, db_commit, db_query, app_context,
        EmailService.send_event_reminder, EmailService.send_vendor_welcome,
        EmailService.send_feedback_request, EmailService.organizer_email,
        SMSService.send_event_reminder, SMSService.send_vendor_reminder,
        SMSService.send_event_update,
        logger_info, logger_error;
      (split; preserving; unfold app_config, app_context; preserving). }
  destruct H as [Hc Hp]. specialize (Hc w). specialize (Hp w).
  injection Hc as Hcu Hun. by split_and!.
Qed.

Lemma jobs_leave_the_coordinator_alone_witness :
  ∃ job,
    job ∈ registered_jobs Samples.quiet_env
    ∧ job_id job = "daily_event_reminders"
    ∧ pushes (trace (snd (job_func job
                            (Samples.world {[ 1 := "sid-1" ]} ∅
                               [Samples.gala "planned"])))) = [].
Proof.
  exists {| job_func := send_daily_event_reminders Samples.quiet_env;
            job_trigger := CronTrigger None 8 0;
            job_id := "daily_event_reminders";
            job_name := "Daily Event Reminders" |}.
  assert (Hin : {| job_func := send_daily_event_reminders Samples.quiet_env;
                   job_trigger := CronTrigger None 8 0;
                   job_id := "daily_event_reminders";
                   job_name := "Daily Event Reminders" |}
                ∈ registered_jobs Samples.quiet_env) by apply list_elem_of_here.
  split_and!; [exact Hin | reflexivity |].
  exact (proj2 (proj2 (jobs_leave_the_coordinator_alone Samples.quiet_env _
                         (Samples.world {[ 1 := "sid-1" ]} ∅
                            [Samples.gala "planned"]) Hin))).
Defined.

(** A mail that goes out, with the database as it was. *)
Lemma send_email_goes_out (E : Env) (Hok : transports_ok E)
    (to : option string) (subject template_name : string)
    (context : option pydict) (w : World) :
  ∃ w',
    EmailService.send_email E to subject template_name context w = (Ok true, w')
    ∧ deliveries (trace w') = deliveries (trace w) ++ [EmailTo to subject]
    ∧ db w' = db w.
Proof.
  destruct (send_email_delivers E Hok to subject template_name context w)
    as (w' & Hrun & D).
  exists w'. split; [exact Hrun|]. split; [exact D|].
  destruct (send_email_preserves E to subject template_name context)
    as (_ & _ & Hd).
  specialize (Hd w). by rewrite Hrun in Hd.
Qed.

(** A loop whose every round hands over what is due. *)
Lemma for_each_delivers {A} (l : list A) (body : A → M unit)
    (due : A → list delivery) :
  (∀ x w, ∃ w',
     body x w = (Ok (), w')
     ∧ deliveries (trace w') = deliveries (trace w) ++ due x
     ∧ db w' = db w) →
  ∀ w, ∃ w',
    for_each l body w = (Ok (), w')
    ∧ deliveries (trace w') = deliveries (trace w) ++ (l ≫= due)
    ∧ db w' = db w.
Proof.
  intros Hbody. induction l as [|x l IH]; intros w.
  - exists w. split; [reflexivity|]. cbn. by rewrite app_nil_r.
  - destruct (Hbody x w) as (w1 & Hrun & D1 & Hdb1).
    destruct (IH w1) as (w' & Hrest & D2 & Hdb2).
    exists w'. split; [|split].
    + cbn [for_each]. by erewrite bind_ok; [|exact Hrun].
    + rewrite D2, D1, bind_cons. by rewrite <- app_assoc.
    + congruence.
Qed.

(** One mail per administrator with an address. *)
Lemma mail_the_admins (E : Env) (subject template_name : string)
    (data : pydict) (l : list User) (w : World) :
  transports_ok E →
  ∃ w',
    for_each l (λ admin,
      when (negb (String.eqb (user_email admin) ""))
        (EmailService.send_email E (Some (user_email admin)) subject
                                 template_name (Some data) ;;
         mret ())) w = (Ok (), w')
    ∧ deliveries (trace w')
      = deliveries (trace w)
        ++ ((λ u, EmailTo (Some (user_email u)) subject)
              <$> List.filter (λ u, negb (String.eqb (user_email u) "")) l)
    ∧ db w' = db w.
Proof.
  intros Hok.
  destruct (for_each_delivers l
              (λ admin,
                 when (negb (String.eqb (user_email admin) ""))
                   (EmailService.send_email E (Some (user_email admin)) subject
                                            template_name (Some data) ;;
                    mret ()))
              (λ u, if negb (String.eqb (user_email u) "")
                    then [EmailTo (Some (user_email u)) subject] else [])) with (w := w)
    as (w' & Hrun & D & Hdb).
  { intros u w0. destruct (negb (String.eqb (user_email u) "")); cbn [when].
    - destruct (send_email_goes_out E Hok (Some (user_email u)) subject
                  template_name (Some data) w0) as (w1 & Hrun & D & Hdb).
      exists w1. split; [by erewrite bind_ok; [|exact Hrun]|]. by split.
    - exists w0. split; [reflexivity|]. by rewrite app_nil_r. }
  exists w'. split; [exact Hrun|]. split; [|exact Hdb].
  rewrite D. f_equal. clear. induction l as [|u l IH]; [done|].
  rewrite bind_cons. cbn [List.filter].
  destruct (negb (String.eqb (user_email u) "")); cbn; by rewrite IH.
Qed.

Lemma report_statistics_ok (E : Env) (lo hi : Z) (w : World) :
  db_ok E → ∃ stats, report_statistics E lo hi w = (Ok stats, w).
Proof.
  intros Hdb. unfold report_statistics, db_query. run. rewrite !Hdb. run.
  by eexists.
Qed.

(** The reports: with working transports and database, the daily and the
    weekly report job each send one mail to every administrator who has a
    mail address, with the subject of the report, and to nobody else. *)
Theorem report_jobs_mail_each_admin_once (E : Env) (w : World) :
  transports_ok E →
  db_ok E →
  (∃ w',
     generate_daily_reports E w = (Ok (), w')
     ∧ deliveries (trace w')
       = deliveries (trace w)
         ++ ((λ u, EmailTo (Some (user_email u))
                     ("Daily Report - "
                      +:+ strftime E "%Y-%m-%d"
                            (start_of_day E (clock E (ticks w)))))
               <$> report_recipients (db w)))
  ∧ (∃ w',
       generate_weekly_reports E w = (Ok (), w')
       ∧ deliveries (trace w')
         = deliveries (trace w)
           ++ ((λ u, EmailTo (Some (user_email u))
                       ("Weekly Report - "
                        +:+ strftime E "%Y-%m-%d"
                              (clock E (ticks w)
                               - days (weekday E (clock E (ticks w))))
                        +:+ " to "
                        +:+ strftime E "%Y-%m-%d"
                              (clock E (ticks w)
                               - days (weekday E (clock E (ticks w)))
                               + days 7)))
                 <$> report_recipients (db w))).
Proof.
  intros Hok Hdb.
  destruct (mail_configured E Hok) as (config & Happ & _).
  pose (w1 := {| connected_users := connected_users w;
                 user_notifications := user_notifications w;
                 db := db w; trace := trace w; ticks := S (ticks w) |}).
  split.
  - destruct (report_statistics_ok E (start_of_day E (clock E (ticks w)))
                (start_of_day E (clock E (ticks w)) + days 1) w1 Hdb)
      as ([[[events_created guests_registered] payments_processed] total_revenue]
          & Hstats).
    match goal with
    | |- context [EmailTo _ ?subj] => set (subject := subj)
    end.
    destruct (mail_the_admins E subject "daily_report"
                {[ "date" := VStr (strftime E "%Y-%m-%d"
                                     (start_of_day E (clock E (ticks w))));
                   "events_created" := VInt events_created;
                   "guests_registered" := VInt guests_registered;
                   "payments_processed" := VInt payments_processed;
                   "total_revenue" := total_revenue ]}
                (List.filter (λ u, String.eqb (user_role u) "admin") (users (db w)))
                w1 Hok) as (w2 & Hloop & D & _).
    assert (Hbody : ∃ text, generate_daily_reports_body E w
                            = (Ok (), logged w2 INFO text)).
      { unfold generate_daily_reports_body, app_context. rewrite Happ.
        erewrite bind_ok; [|reflexivity].
        erewrite bind_ok; [|reflexivity]. cbv zeta.
        erewrite bind_ok; [|exact Hstats]. cbv beta iota.
        erewrite bind_ok; [|apply db_query_ok, Hdb].
        erewrite bind_ok; [|exact Hloop]. by eexists. }
    destruct Hbody as [text Hbody]. exists (logged w2 INFO text). split.
    + unfold generate_daily_reports, try_except. by rewrite Hbody.
    + cbn [logged trace]. rewrite deliveries_app, D. cbn. by rewrite app_nil_r.
  - destruct (report_statistics_ok E
                (clock E (ticks w) - days (weekday E (clock E (ticks w))))
                (clock E (ticks w) - days (weekday E (clock E (ticks w))) + days 7)
                w1 Hdb)
      as ([[[events_created guests_registered] payments_processed] total_revenue]
          & Hstats).
    match goal with
    | |- context [EmailTo _ ?subj] => set (subject := subj)
    end.
    destruct (mail_the_admins E subject "weekly_report"
                {[ "week_start" :=
                     VStr (strftime E "%Y-%m-%d"
                             (clock E (ticks w)
                              - days (weekday E (clock E (ticks w)))));
                   "week_end" :=
                     VStr (strftime E "%Y-%m-%d"
                             (clock E (ticks w)
                              - days (weekday E (clock E (ticks w))) + days 7));
                   "events_created" := VInt events_created;
                   "guests_registered" := VInt guests_registered;
                   "payments_processed" := VInt payments_processed;
                   "total_revenue" := total_revenue ]}
                (List.filter (λ u, String.eqb (user_role u) "admin") (users (db w)))
                w1 Hok) as (w2 & Hloop & D & _).
    assert (Hbody : ∃ text, generate_weekly_reports_body E w
                            = (Ok (), logged w2 INFO text)).
      { unfold generate_weekly_reports_body, app_context. rewrite Happ.
        erewrite bind_ok; [|reflexivity].
        erewrite bind_ok; [|reflexivity]. cbv zeta.
        erewrite bind_ok; [|exact Hstats]. cbv beta iota.
        erewrite bind_ok; [|apply db_query_ok, Hdb].
        erewrite bind_ok; [|exact Hloop]. by eexists. }
    destruct Hbody as [text Hbody]. exists (logged w2 INFO text). split.
    + unfold generate_weekly_reports, try_except. by rewrite Hbody.
    + cbn [logged trace]. rewrite deliveries_app, D. cbn. by rewrite app_nil_r.
Qed.

Lemma report_jobs_mail_each_admin_once_witness :
  transports_ok Samples.quiet_env
  ∧ db_ok Samples.quiet_env
  ∧ ∃ w',
      generate_daily_reports Samples.quiet_env Samples.feedback_world
      = (Ok (), w')
      ∧ deliveries (trace w')
        = [EmailTo (Some "alice@example.org") "Daily Report - %Y-%m-%d"].
Proof.
  assert (Hdb : db_ok Samples.quiet_env) by (intros h op; reflexivity).
  split; [exact transports_ok_quiet|]. split; [exact Hdb|].
  destruct (report_jobs_mail_each_admin_once Samples.quiet_env
              Samples.feedback_world transports_ok_quiet Hdb)
    as [(w' & Hrun & Hd) _].
  exists w'. split; [exact Hrun|]. rewrite Hd. reflexivity.
Defined.

(** The health check: when the probe [SELECT 1] fails while the other
    queries are answered, every administrator with a mail address gets one
    "System Health Alert". *)
Theorem health_check_alerts_admins_when_probe_fails (E : Env) (w : World) :
  transports_ok E →
  (∀ h, is_Some (db_raises E h QSelect1)) →
  (∀ h op, op ≠ QSelect1 → db_raises E h op = None) →
  ∃ w',
    system_health_check E w = (Ok (), w')
    ∧ deliveries (trace w')
      = deliveries (trace w)
        ++ ((λ u, EmailTo (Some (user_email u)) "System Health Alert")
              <$> report_recipients (db w)).
Proof.
  intros Hok Hprobe Hrest.
  destruct (mail_configured E Hok) as (config & Happ & _).
  destruct (Hprobe (trace w)) as [e He].
  pose (w1 := {| connected_users := connected_users w;
                 user_notifications := user_notifications w;
                 db := db w; trace := trace w; ticks := S (ticks w) |}).
  set (health_data := ({[ "timestamp" := VStr (isoformat E (clock E (ticks w)));
     "database_status" := VStr "unhealthy";
     "total_users" := VInt (Z.of_nat (length (users (db w))));
     "total_events" := VInt (Z.of_nat (length (events (db w))));
     "total_guests" := VInt (Z.of_nat (length (all_guests (db w))));
     "total_payments" := VInt (Z.of_nat (length (payments (db w))));
     "scheduler_jobs" := VInt (scheduler_job_count E) ]} : pydict)).
  pose (w2 := logged w1 INFO ("System health check: " +:+ repr_dict E health_data)).
  destruct (mail_the_admins E "System Health Alert" "system_alert" health_data
              (List.filter (λ u, String.eqb (user_role u) "admin") (users (db w)))
              w2 Hok) as (w3 & Hloop & D & _).
  assert (Hbody : system_health_check_body E w = (Ok (), w3)).
  { unfold system_health_check_body, app_context. rewrite Happ.
    erewrite bind_ok; [|reflexivity].
    erewrite bind_ok;
      [|unfold try_except, db_query; run; rewrite He; reflexivity].
    do 4 (erewrite bind_ok; [|by apply db_query_ok, Hrest]).
    erewrite bind_ok; [|reflexivity]. cbv zeta.
    erewrite bind_ok; [|reflexivity].
    cbn [String.eqb Ascii.eqb Bool.eqb when].
    unfold admin_users_query.
    erewrite bind_ok; [|by apply db_query_ok, Hrest].
    exact Hloop. }
  exists w3. split.
  - unfold system_health_check, try_except. by rewrite Hbody.
  - rewrite D. subst w2. cbn [logged trace]. rewrite deliveries_app. cbn.
    by rewrite app_nil_r.
Qed.

Lemma health_check_alerts_admins_when_probe_fails_witness :
  ∃ w',
    system_health_check Samples.select_fails_env Samples.feedback_world
    = (Ok (), w')
    ∧ deliveries (trace w')
      = [EmailTo (Some "alice@example.org") "System Health Alert"].
Proof.
  destruct (health_check_alerts_admins_when_probe_fails
              Samples.select_fails_env Samples.feedback_world)
    as (w' & Hrun & Hd).
  - split; [by exists Samples.config| |reflexivity|reflexivity|];
      intros; by eexists.
  - intros h. by eexists.
  - intros h op Hop. by destruct op.
  - exists w'. split; [exact Hrun|]. rewrite Hd. reflexivity.
Defined.

(** The health check with a database that answers every query mails
    nobody, whatever the mail transport would do. *)
Theorem health_check_is_silent_when_healthy (E : Env) (w : World) :
  db_ok E →
  ∃ w', system_health_check E w = (Ok (), w')
        ∧ deliveries (trace w') = deliveries (trace w).
Proof.
  intros Hdb. unfold system_health_check.
  pose proof (try_except_logs (system_health_check_body E)
                "Failed to perform system health check: " w) as Hlog.
  assert (Hbody : (∃ e, system_health_check_body E w = (Raise e, w))
                  ∨ ∃ w', system_health_check_body E w = (Ok (), w')
                          ∧ deliveries (trace w') = deliveries (trace w)).
  { unfold system_health_check_body, app_context.
    destruct (app E) as [config|]; [right|left; by eexists].
    erewrite bind_ok; [|reflexivity].
    erewrite bind_ok;
      [|unfold try_except; erewrite bind_ok;
        [reflexivity|by apply db_query_ok, Hdb]].
    do 4 (erewrite bind_ok; [|by apply db_query_ok, Hdb]).
    erewrite bind_ok; [|reflexivity]. cbv zeta.
    erewrite bind_ok; [|reflexivity].
    cbn [String.eqb Ascii.eqb Bool.eqb when].
    eexists. split; [reflexivity|]. cbn [trace].
    rewrite deliveries_app. cbn. by rewrite app_nil_r. }
  destruct Hbody as [[e Hbody]|(w' & Hbody & D)]; rewrite Hbody in Hlog.
  - eexists. split; [exact Hlog|]. cbn [logged trace].
    rewrite deliveries_app. cbn. by rewrite app_nil_r.
  - exists w'. by split.
Qed.

Lemma health_check_is_silent_when_healthy_witness :
  db_ok Samples.quiet_env
  ∧ ∃ w', system_health_check Samples.quiet_env Samples.feedback_world
          = (Ok (), w')
          ∧ deliveries (trace w') = [].
Proof.
  assert (Hdb : db_ok Samples.quiet_env) by (intros h op; reflexivity).
  split; [exact Hdb|].
  exact (health_check_is_silent_when_healthy Samples.quiet_env
           Samples.feedback_world Hdb).
Defined.

(** The health check with a database that is down mails nobody either: the
    probe is caught, the first count after it raises, and the job ends with
    one entry in the error log and nothing else. *)
Theorem health_check_sends_no_alert_when_database_is_down (E : Env) (w : World) :
  db_down E →
  ∃ text,
    system_health_check E w
    = (Ok (), logged w ERROR
                ("Failed to perform system health check: " +:+ text)).
Proof.
  intros Hdb. unfold system_health_check.
  pose proof (try_except_logs (system_health_check_body E)
                "Failed to perform system health check: " w) as Hlog.
  assert (Hbody : ∃ e, system_health_check_body E w = (Raise e, w)).
  { unfold system_health_check_body, app_context.
    destruct (app E) as [config|]; [|by eexists].
    erewrite bind_ok; [|reflexivity].
    destruct (Hdb (trace w) QSelect1) as [e1 H1].
    destruct (Hdb (trace w) QCount) as [e2 H2].
    erewrite bind_ok;
      [|unfold try_except, db_query; run; rewrite H1; reflexivity].
    exists e2. unfold db_query. run. rewrite H2. reflexivity. }
  destruct Hbody as [e Hbody]. rewrite Hbody in Hlog.
  by exists (exn_msg e).
Qed.

Lemma health_check_sends_no_alert_when_database_is_down_witness :
  db_down Samples.db_down_env
  ∧ ∃ text,
      system_health_check Samples.db_down_env Samples.feedback_world
      = (Ok (), logged Samples.feedback_world ERROR
                  ("Failed to perform system health check: " +:+ text)).
Proof.
  assert (Hdb : db_down Samples.db_down_env) by (intros h op; by eexists).
  split; [exact Hdb|].
  exact (health_check_sends_no_alert_when_database_is_down
           Samples.db_down_env Samples.feedback_world Hdb).
Defined.

Lemma bind_raise {A B} (m : M A) (k : A → M B) (w : World) (e : exn) (w' : World) :
  m w = (Raise e, w') → (m ≫= k) w = (Raise e, w').
Proof. intros H. unfold mbind, M_bind, bind. by rewrite H. Qed.

Lemma for_fold_app {A S} (l1 l2 : list A) (acc : S) (body : A → S → M S)
    (w : World) :
  for_fold (l1 ++ l2) acc body w
  = (acc' ← for_fold l1 acc body; for_fold l2 acc' body) w.
Proof.
  revert acc w. induction l1 as [|x l1 IH]; intros acc w; [reflexivity|].
  rewrite <- app_comm_cons. cbn [for_fold]. unfold mbind, M_bind, bind.
  destruct (body x acc w) as [[acc1|e] w1]; [|reflexivity].
  rewrite IH. reflexivity.
Qed.

(** The guests of an event without organizer: the loop raises at the first
    guest who is due a reminder, before anything is sent. *)
Lemma guest_loop_raises (E : Env) (event : Event) (l : list Guest) (acc : Z)
    (w : World) :
  organizer event = None →
  (∃ guest, guest ∈ l ∧ wants_reminder guest = true) →
  for_fold l acc (λ guest reminders_sent,
    if wants_reminder guest
    then
      EmailService.send_event_reminder E guest event 2 ;;
      when (truthy_str (guest_phone guest))
           (SMSService.send_event_reminder E guest event 2 ;; mret ()) ;;
      mret (reminders_sent + 1)
    else mret reminders_sent) w
  = (Raise (Exception "'NoneType' object has no attribute 'email'"), w).
Proof.
  intros Horg (guest & Hin & Hwants).
  induction l as [|g l IH]; [by apply elem_of_nil in Hin|].
  cbn [for_fold]. destruct (wants_reminder g) eqn:Hg.
  - apply bind_raise, bind_raise.
    unfold EmailService.send_event_reminder, EmailService.organizer_email.
    rewrite Horg. reflexivity.
  - erewrite bind_ok; [|reflexivity]. apply IH.
    apply elem_of_cons in Hin as [->|Hin]; [congruence|exact Hin].
Qed.

(** One event without an organizer stops the daily reminders: the events
    selected before it get theirs, then the job fails on the first guest
    of that event who is due one, logs the error, and the events selected
    after it get nothing. *)
Theorem reminders_stop_at_an_event_without_organizer (E : Env) (w : World)
    (before later : list Event) (event : Event) :
  transports_ok E →
  db_raises E (trace w) QEvents = None →
  reminded_events E w = before ++ event :: later →
  (∀ ev, ev ∈ before → is_Some (organizer ev)) →
  organizer event = None →
  (∃ guest, guest ∈ guests event ∧ wants_reminder guest = true) →
  ∃ w1,
    send_daily_event_reminders E w
    = (Ok (), logged w1 ERROR
                ("Failed to send daily event reminders: "
                 +:+ "'NoneType' object has no attribute 'email'"))
    ∧ deliveries (trace w1)
      = deliveries (trace w)
        ++ (before ≫= λ ev, guests ev ≫= reminders_due E ev).
Proof.
  intros Hok Hdb Hsel Hbefore Horg Hdue.
  destruct (mail_configured E Hok) as (config & Happ & _).
  pose (w2 := {| connected_users := connected_users w;
                 user_notifications := user_notifications w;
                 db := db w; trace := trace w; ticks := S (S (ticks w)) |}).
  destruct (event_loop_delivers E Hok before 0 w2 Hbefore)
    as (n & w3 & Hloop & D).
  exists w3. split; [|exact D].
  pose proof (try_except_logs (send_daily_event_reminders_body E)
                "Failed to send daily event reminders: " w) as Hlog.
  assert (Hbody : send_daily_event_reminders_body E w
                  = (Raise (Exception "'NoneType' object has no attribute 'email'"),
                     w3)).
  { unfold send_daily_event_reminders_body, app_context. rewrite Happ.
    erewrite bind_ok; [|reflexivity].
    erewrite bind_ok; [|reflexivity]. cbv zeta.
    erewrite bind_ok; [|reflexivity]. cbv zeta.
    erewrite bind_ok; [|apply db_query_ok; exact Hdb].
    apply bind_raise.
    match goal with
    | |- for_fold ?l _ _ ?w0 = _ =>
        change l with (reminded_events E w); change w0 with w2
    end.
    rewrite Hsel, for_fold_app.
    erewrite bind_ok; [|exact Hloop].
    cbn [for_fold]. apply bind_raise. by apply guest_loop_raises. }
  rewrite Hbody in Hlog. exact Hlog.
Qed.

Lemma reminders_stop_at_an_event_without_organizer_witness :
  ∃ w1,
    send_daily_event_reminders Samples.quiet_env
      (Samples.world ∅ ∅
         [Samples.gala "planned"; Samples.orphan_event; Samples.gala "ongoing"])
    = (Ok (), logged w1 ERROR
                ("Failed to send daily event reminders: "
                 +:+ "'NoneType' object has no attribute 'email'"))
    ∧ length (deliveries (trace w1)) = 2%nat.
Proof.
  destruct (reminders_stop_at_an_event_without_organizer Samples.quiet_env
              (Samples.world ∅ ∅
                 [Samples.gala "planned"; Samples.orphan_event;
                  Samples.gala "ongoing"])
              [Samples.gala "planned"] [Samples.gala "ongoing"]
              Samples.orphan_event)
    as (w1 & Hrun & Hd).
  - exact transports_ok_quiet.
  - reflexivity.
  - reflexivity.
  - intros ev Hev. apply list_elem_of_singleton in Hev as ->. by eexists.
  - reflexivity.
  - exists Samples.confirmed_guest. split; [left|reflexivity].
  - exists w1. split; [exact Hrun|]. rewrite Hd. reflexivity.
Defined.

(** The guests of one event who are due a reminder. *)
Lemma guest_loop_counts (E : Env) (event : Event) (l : list Guest) (acc : Z)
    (w : World) :
  is_Some (organizer event) →
  ∃ w',
    for_fold l acc (λ guest reminders_sent,
      if wants_reminder guest
      then
        EmailService.send_event_reminder E guest event 2 ;;
        when (truthy_str (guest_phone guest))
             (SMSService.send_event_reminder E guest event 2 ;; mret ()) ;;
        mret (reminders_sent + 1)
      else mret reminders_sent) w
    = (Ok (acc + Z.of_nat (length (List.filter wants_reminder l))), w').
Proof.
  intros [organizer_ Horg]. revert acc w.
  induction l as [|guest l IH]; intros acc w.
  - exists w. cbn. by rewrite Z.add_0_r.
  - cbn [for_fold List.filter]. destruct (wants_reminder guest).
    + assert (Hmail : ∃ b w1,
                EmailService.send_event_reminder E guest event 2 w = (Ok b, w1)).
      { unfold EmailService.send_event_reminder, EmailService.organizer_email.
        rewrite Horg. erewrite bind_ok; [|reflexivity]. apply send_email_total. }
      destruct Hmail as (b & w1 & Hmail).
      assert (Hsms : ∃ w2,
                when (truthy_str (guest_phone guest))
                  (SMSService.send_event_reminder E guest event 2 ;; mret ()) w1
                = (Ok (), w2)).
      { destruct (truthy_str (guest_phone guest)); [|by eexists].
        destruct (send_sms_total E (guest_phone guest)
                    ("REMINDER: " +:+ title event +:+ " is in " +:+ pretty 2
                     +:+ " " +:+ EmailService.day_word 2 +:+ "! "
                     +:+ "Date: " +:+ strftime E "%b %d, %I:%M %p" (start_date event)
                     +:+ ", " +:+ "Venue: " +:+ venue event +:+ ". "
                     +:+ "Ticket: " +:+ str_opt (ticket_number guest) +:+ ". "
                     +:+ "We look forward to seeing you!") w1)
          as (b' & w2 & Hsms).
        exists w2. unfold when, SMSService.send_event_reminder. cbv zeta.
        by erewrite bind_ok; [|exact Hsms]. }
      destruct Hsms as (w2 & Hsms).
      destruct (IH (acc + 1) w2) as (w' & Hrest).
      exists w'.
      erewrite bind_ok;
        [|erewrite bind_ok; [|exact Hmail];
          erewrite bind_ok; [|exact Hsms]; reflexivity].
      rewrite Hrest. cbn [length]. do 2 f_equal. lia.
    + destruct (IH acc w) as (w' & Hrest). exists w'.
      erewrite bind_ok; [|reflexivity]. exact Hrest.
Qed.

Lemma event_loop_counts (E : Env) (l : list Event) (acc : Z) (w : World) :
  (∀ event, event ∈ l → is_Some (organizer event)) →
  ∃ w',
    for_fold l acc (λ event reminders_sent,
      for_fold (guests event) reminders_sent (λ guest reminders_sent,
        if wants_reminder guest
        then
          EmailService.send_event_reminder E guest event 2 ;;
          when (truthy_str (guest_phone guest))
               (SMSService.send_event_reminder E guest event 2 ;; mret ()) ;;
          mret (reminders_sent + 1)
        else mret reminders_sent)) w
    = (Ok (acc + Z.of_nat (length (List.filter wants_reminder (l ≫= guests)))),
       w').
Proof.
  revert acc w. induction l as [|event l IH]; intros acc w Horg.
  - exists w. cbn. by rewrite Z.add_0_r.
  - destruct (guest_loop_counts E event (guests event) acc w) as (w1 & Hg).
    { apply Horg. left. }
    destruct (IH (acc + Z.of_nat (length (List.filter wants_reminder (guests event))))
                w1) as (w' & Hrest).
    { intros ev Hev. apply Horg. by right. }
    exists w'. cbn [for_fold]. erewrite bind_ok; [|exact Hg].
    rewrite Hrest, bind_cons, List.filter_app, length_app. do 2 f_equal. lia.
Qed.

(** The number in "Sent n daily event reminders" counts the guests who were
    due a reminder, not the reminders that went out: whatever the mail and
    SMS transports do, even when every send fails or is skipped, the job
    logs the number of confirmed, not checked-in guests of the selected
    events. *)
Theorem reminder_count_ignores_failed_sends (E : Env) (w : World) :
  is_Some (app E) →
  db_raises E (trace w) QEvents = None →
  (∀ event, event ∈ reminded_events E w → is_Some (organizer event)) →
  ∃ w1,
    send_daily_event_reminders E w
    = (Ok (), logged w1 INFO
                ("Sent "
                 +:+ pretty (Z.of_nat (length (List.filter wants_reminder
                                                 (reminded_events E w ≫= guests))))
                 +:+ " daily event reminders")).
Proof.
  intros [config Happ] Hdb Horg.
  pose (w2 := {| connected_users := connected_users w;
                 user_notifications := user_notifications w;
                 db := db w; trace := trace w; ticks := S (S (ticks w)) |}).
  destruct (event_loop_counts E (reminded_events E w) 0 w2 Horg) as (w3 & Hloop).
  exists w3. unfold send_daily_event_reminders, try_except.
  assert (Hbody : send_daily_event_reminders_body E w
                  = (Ok (), logged w3 INFO
                              ("Sent "
                               +:+ pretty (Z.of_nat (length (List.filter wants_reminder
                                                   (reminded_events E w ≫= guests))))
                               +:+ " daily event reminders"))).
  { unfold send_daily_event_reminders_body, app_context. rewrite Happ.
    erewrite bind_ok; [|reflexivity].
    erewrite bind_ok; [|reflexivity]. cbv zeta.
    erewrite bind_ok; [|reflexivity]. cbv zeta.
    erewrite bind_ok; [|apply db_query_ok; exact Hdb].
    erewrite bind_ok; [|exact Hloop]. reflexivity. }
  by rewrite Hbody.
Qed.

Lemma reminder_count_ignores_failed_sends_witness :
  ∃ w1,
    send_daily_event_reminders Samples.unconfigured_env
      (Samples.world ∅ ∅ [Samples.gala "planned"])
    = (Ok (), logged w1 INFO "Sent 1 daily event reminders")
    ∧ deliveries (trace w1) = [].
Proof.
  destruct (reminder_count_ignores_failed_sends Samples.unconfigured_env
              (Samples.world ∅ ∅ [Samples.gala "planned"]))
    as (w1 & Hrun).
  - by eexists.
  - reflexivity.
  - intros event Hev. apply list_elem_of_singleton in Hev as ->. by eexists.
  - exists w1. split; [exact Hrun|].
    pose proof (f_equal (λ r, deliveries (trace (snd r))) Hrun) as Hd.
    cbv beta in Hd. cbn [snd logged trace] in Hd.
    rewrite deliveries_app, app_nil_r in Hd. rewrite <- Hd.
    vm_compute. reflexivity.
Defined.
